(** * Complaint intake functions: a shallow embedding

    The Netlify functions of the complaint site (submitComplaint.js,
    updateComplaint.js, deleteComplaint.js, getComplaintById.js) are
    embedded as Rocq functions over an explicit state: the in-process
    rate-limit map, the cached database handle and the stored collection.
    JavaScript strings are sequences of UTF-16 code units, values are the
    trees JSON.parse builds, and everything the handlers read from their
    surroundings (clock, random bytes, database availability) is an
    explicit input. *)

From Stdlib Require Import ZArith NArith List Ascii String SpecFloat Lia.
From stdpp Require Import base option list gmap.

Open Scope Z_scope.

(** ** JavaScript strings *)

Module JsString.

(** A string is the list of its UTF-16 code units; [s.length] is the
    length of the list. *)
Abbreviation t := (list N).

(** A literal of the source, written with 8-bit characters. *)
Definition lit (s : string) : t := map N_of_ascii (list_ascii_of_string s).

Definition eqb (a b : t) : bool := bool_decide (a = b).

(** [/\s/]: the white space and line terminator code units of
    ECMAScript. *)
Definition is_space (c : N) : bool :=
  ((9 <=? c) && (c <=? 13) || (c =? 32) || (c =? 160) || (c =? 5760)
   || (8192 <=? c) && (c <=? 8202) || (c =? 8232) || (c =? 8233)
   || (c =? 8239) || (c =? 8287) || (c =? 12288) || (c =? 65279))%N.

(** [str.replace(/^\s+/g, '')] *)
Fixpoint ltrim (s : t) : t :=
  match s with
  | c :: r => if is_space c then ltrim r else s
  | [] => []
  end.

(** The backwards loop of validator's rtrim: the index moves left while
    the character under it is white space, and the prefix up to it is
    kept. *)
Fixpoint rtrim (s : t) : t :=
  match s with
  | [] => []
  | c :: r =>
      match rtrim r with
      | [] => if is_space c then [] else [c]
      | r' => c :: r'
      end
  end.

(** validator.trim(str) with no [chars] argument: rtrim(ltrim(str)). *)
Definition trim (s : t) : t := rtrim (ltrim s).

(** [s.replace(/\0/g, '')] *)
Definition strip_nul (s : t) : t := List.filter (fun c => negb (c =? 0)%N) s.

(** [s.slice(0, e)] for an integral [e]: a negative end counts from the
    end of the string. *)
Definition slice0 (s : t) (e : Z) : t :=
  if e <? 0 then take (Z.to_nat (Z.max (Z.of_nat (length s) + e) 0)) s
  else take (Z.to_nat e) s.

(** ASCII letters of [toUpperCase]; other code units are left as they
    are (the source applies it to hexadecimal digits only). *)
Definition upper (c : N) : N :=
  if ((97 <=? c) && (c <=? 122))%N then (c - 32)%N else c.
Definition toUpperCase (s : t) : t := map upper s.

(** [s.split(sep)[0]]: the text before the first separator. *)
Fixpoint before (sep : N) (s : t) : t :=
  match s with
  | [] => []
  | c :: r => if (c =? sep)%N then [] else c :: before sep r
  end.

End JsString.

Abbreviation jsstring := JsString.t.
Notation "'js:' s" := (JsString.lit s) (at level 1, s at level 0, format "'js:' s").

(** ** Values

    The values the handlers see: what JSON.parse returns, plus the two
    BSON types stored documents carry (dates and object identifiers).
    [undefined] is the [None] of [option value]. *)

Abbreviation oid := N.

#[warnings="-register-all"]
Inductive value : Type :=
  | VNull
  | VBool (b : bool)
  | VNum (x : spec_float)
  | VStr (s : jsstring)
  | VArr (xs : list value)
  | VObj (props : list (jsstring * value))
  | VDate (ms : Z)
  | VOid (o : oid).

Abbreviation doc := (list (jsstring * value)).

Fixpoint assoc {A} (k : jsstring) (l : list (jsstring * A)) : option A :=
  match l with
  | [] => None
  | (k', v) :: r => if JsString.eqb k' k then Some v else assoc k r
  end.

(** [v.k] for a value that is not null, at the property names the
    handlers read (none of them is a built-in property of a string, an
    array, a number or a boolean). An object lists its own properties,
    each name once. *)
Definition get (v : value) (k : jsstring) : option value :=
  match v with
  | VObj props => assoc k props
  | _ => None
  end.

(** Truthiness, as [if (v)], [!v] and [v || w] test it. *)
Definition truthy (v : option value) : bool :=
  match v with
  | None | Some VNull => false
  | Some (VBool b) => b
  | Some (VNum (S754_zero _)) | Some (VNum S754_nan) => false
  | Some (VNum _) => true
  | Some (VStr s) => negb (JsString.eqb s [])
  | Some (VArr _) | Some (VObj _) | Some (VDate _) | Some (VOid _) => true
  end.

(** [typeof v === 'object'] *)
Definition typeof_object (v : option value) : bool :=
  match v with
  | Some VNull | Some (VArr _) | Some (VObj _) | Some (VDate _)
  | Some (VOid _) => true
  | _ => false
  end.

(** [a || b] on header strings: an absent or empty string is falsy. *)
Definition or_str (a : option jsstring) (b : jsstring) : jsstring :=
  match a with
  | Some (c :: s) => c :: s
  | _ => b
  end.

(** The properties JSON.stringify writes: those whose value is defined. *)
Fixpoint defined_props (l : list (jsstring * option value)) : doc :=
  match l with
  | [] => []
  | (k, Some v) :: r => (k, v) :: defined_props r
  | (_, None) :: r => defined_props r
  end.

(** What the BSON serializer stores for a field value: [undefined]
    becomes null (the driver's default, ignoreUndefined off). *)
Definition bson_of (v : option value) : value := default VNull v.

(** ** Requests, responses and the world around the handlers *)

(** [event.body] as JSON.parse sees it. *)
Inductive body_text : Type :=
  | NoBody                 (* undefined, null or the empty string *)
  | Malformed              (* a non-empty text JSON.parse rejects *)
  | Json (v : value).      (* a non-empty text that decodes to [v] *)

Record event : Type := Event {
  httpMethod : jsstring;
  headers : gmap jsstring jsstring;
  sourceIp : option jsstring;   (* event.requestContext?.identity?.sourceIp *)
  body : body_text
}.

(** The body of a response. *)
Inductive body_out : Type :=
  | Text (s : jsstring)
  | Stringify (v : value)                       (* JSON.stringify(v) *)
  | StringifyTemplate (prefix : jsstring) (v : option value)
      (* JSON.stringify({ success: true, message: `prefix${v}` }) *)
  | StringifyError.  (* JSON.stringify({ error: error.message }) *)

Module Response.
Record t : Type := Make {
  statusCode : Z;
  headers : list (jsstring * jsstring);
  body : body_out
}.
End Response.
Abbreviation response := Response.t.

(** A handler returns a response, or lets an exception escape. *)
Inductive outcome : Type :=
  | Returned (r : response)
  | Thrown.

Inductive dbcall : Type :=
  | Connect
  | InsertOne (d : doc)
  | UpdateOne (o : oid) (status : value)
  | DeleteOne (o : oid)
  | FindOne (q : value)
  | Close.

Record entry : Type := Entry { count : Z; first : Z }.

Record world : Type := World {
  rateMap : gmap jsstring entry;   (* submitComplaint.js, module level *)
  cachedDb : bool;                 (* cachedClient && cachedDb *)
  coll : list doc;                 (* the collection the handler addresses *)
  dblog : list dbcall              (* database calls attempted so far *)
}.

Definition set_rateMap (m : gmap jsstring entry) (w : world) : world :=
  World m (cachedDb w) (coll w) (dblog w).
Definition set_cachedDb (b : bool) (w : world) : world :=
  World (rateMap w) b (coll w) (dblog w).
Definition set_coll (c : list doc) (w : world) : world :=
  World (rateMap w) (cachedDb w) c (dblog w).
Definition log (c : dbcall) (w : world) : world :=
  World (rateMap w) (cachedDb w) (coll w) (dblog w ++ [c]).

(** Documents *)

Definition has_id (o : oid) (d : doc) : bool :=
  match assoc js:"_id" d with
  | Some (VOid o') => (o' =? o)%N
  | _ => false
  end.

(** [$set: { k: v }] on one document. *)
Fixpoint set_field (k : jsstring) (v : value) (d : doc) : doc :=
  match d with
  | [] => [(k, v)]
  | (k', v') :: r =>
      if JsString.eqb k' k then (k', v) :: r else (k', v') :: set_field k v r
  end.

(** [updateOne(filter, { $set: { k: v } })]: the first match only. *)
Fixpoint updateOne (f : doc -> bool) (k : jsstring) (v : value)
    (c : list doc) : list doc :=
  match c with
  | [] => []
  | d :: r => if f d then set_field k v d :: r else d :: updateOne f k v r
  end.

(** [deleteOne(filter)] *)
Fixpoint deleteOne (f : doc -> bool) (c : list doc) : list doc :=
  match c with
  | [] => []
  | d :: r => if f d then r else d :: deleteOne f r
  end.

(** [findOne(filter)] *)
Definition findOne (f : doc -> bool) (c : list doc) : option doc :=
  List.find f c.

(** ** submitComplaint.js *)

Module SubmitComplaint.

(** process.env, read once at load time. *)
Record config : Type := Config {
  FUNCTION_SECRET : jsstring;          (* '' when unset *)
  ALLOWED_ORIGINS : list jsstring      (* ['*'] when unset *)
}.

(** What one invocation reads from outside: the clock at each of its
    three readings, the 16 random bytes of uuidv4, and how the database
    answers. *)
Record env : Type := Env {
  now_limiter : Z;     (* Date.now() in isRateLimited *)
  now_id : Z;          (* Date.now() in createComplaintId *)
  now_doc : Z;         (* new Date() *)
  rnds : list N;
  connect_ok : bool;   (* client.connect() resolves *)
  insert_ok : bool;    (* insertOne resolves *)
  fresh_id : oid       (* the _id the driver gives the document *)
}.

(** The string branch of [sanitizeString]: trim, drop NULs, truncate. *)
Definition sanitizeText (input : jsstring) (maxLen : Z) : jsstring :=
  let s := JsString.trim input in
  let s := JsString.strip_nul s in
  if Z.of_nat (length s) >? maxLen then JsString.slice0 s maxLen else s.

Definition sanitizeString (input : option value) (maxLen : Z) : jsstring :=
  match input with
  | Some (VStr s) => sanitizeText s maxLen
  | _ => []
  end.

(** Digits of [Number.prototype.toString(radix)], lower case. *)
Definition digit_char (d : N) : N :=
  if (d <? 10)%N then (48 + d)%N else (87 + d)%N.

Fixpoint to_radix (fuel : nat) (radix n : N) (acc : jsstring) : jsstring :=
  match fuel with
  | O => acc
  | S f =>
      let acc' := digit_char (n mod radix) :: acc in
      if (n / radix =? 0)%N then acc' else to_radix f radix (n / radix) acc'
  end.

(** [z.toString(36)] for an integer [z]. *)
Definition toString36 (z : Z) : jsstring :=
  let digits n := to_radix (S (N.to_nat (N.log2 n))) 36 n [] in
  if z <? 0 then 45%N :: digits (Z.to_N (- z)) else digits (Z.to_N z).

(** uuid's byteToHex: two lower-case hexadecimal digits. *)
Definition byteToHex (b : N) : jsstring :=
  [digit_char (b / 16); digit_char (b mod 16)].

(** uuidv4(): version and variant bits set on 16 random bytes, printed
    in groups of 4-2-2-2-6 bytes. *)
Definition uuidv4 (rnds : list N) : jsstring :=
  let b i := (default 0 (rnds !! i) mod 256)%N in
  let b6 := N.lor (N.land (b 6%nat) 15) 64 in
  let b8 := N.lor (N.land (b 8%nat) 63) 128 in
  let hex := flat_map byteToHex in
  hex [b 0%nat; b 1%nat; b 2%nat; b 3%nat] ++ js:"-"
  ++ hex [b 4%nat; b 5%nat] ++ js:"-"
  ++ hex [b6; b 7%nat] ++ js:"-"
  ++ hex [b8; b 9%nat] ++ js:"-"
  ++ hex [b 10%nat; b 11%nat; b 12%nat; b 13%nat; b 14%nat; b 15%nat].

Definition createComplaintId (now : Z) (rnds : list N) : jsstring :=
  let ts := toString36 now in
  let rnd := JsString.before 45 (uuidv4 rnds) in
  js:"COMP-" ++ ts ++ js:"-" ++ JsString.toUpperCase rnd.

Definition RATE_LIMIT_WINDOW_MS : Z := 60 * 1000.
Definition RATE_LIMIT_MAX : Z := 6.

Definition isRateLimited (ip : jsstring) (now : Z)
    (rateMap : gmap jsstring entry) : bool * gmap jsstring entry :=
  let entry := default (Entry 0 now) (rateMap !! ip) in
  if now - first entry >? RATE_LIMIT_WINDOW_MS then
    (false, <[ip := Entry 1 now]> rateMap)
  else
    let entry := Entry (count entry + 1) (first entry) in
    (count entry >? RATE_LIMIT_MAX, <[ip := entry]> rateMap).

Definition cors (cfg : config) : list (jsstring * jsstring) :=
  [ (js:"Content-Type", js:"application/json");
    (js:"Access-Control-Allow-Origin",
      if bool_decide (js:"*" ∈ ALLOWED_ORIGINS cfg) then js:"*"
      else or_str (head (ALLOWED_ORIGINS cfg)) js:"*");
    (js:"Access-Control-Allow-Methods", js:"POST, OPTIONS");
    (js:"Access-Control-Allow-Headers", js:"Content-Type, X-Function-Secret") ].

(** [{ statusCode, headers, body: JSON.stringify({ error }) }] *)
Definition error (cfg : config) (code : Z) (msg : string) : response :=
  Response.Make code (cors cfg) (Stringify (VObj [(js:"error", VStr js:msg)])).

Definition client_ip (ev : event) : jsstring :=
  or_str (headers ev !! js:"x-nf-client-connection-ip")
    (or_str (headers ev !! js:"x-forwarded-for")
       (or_str (sourceIp ev) js:"unknown")).

(** [JSON.parse(event.body || '{}')]; [None] is the SyntaxError. *)
Definition parse_body (b : body_text) : option value :=
  match b with
  | NoBody => Some (VObj [])
  | Malformed => None
  | Json v => Some v
  end.

(** The sanitized complaint fields and the reporter to attach. *)
Record fields : Type := Fields {
  department : jsstring;
  program : jsstring;
  title : jsstring;
  details : jsstring;
  reporter : option doc      (* [None] is the initial [null] *)
}.

Definition complaintDoc (complaintId : jsstring) (f : fields) (now : Z) : doc :=
  [ (js:"complaintId", VStr complaintId);
    (js:"department", VStr (department f));
    (js:"program", VStr (program f));
    (js:"title", VStr (title f));
    (js:"details", VStr (details f));
    (js:"status", VStr js:"pending");
    (js:"createdAt", VDate now);
    (js:"updatedAt", VDate now) ]
  ++ match reporter f with
     | Some r => [(js:"reporter", VObj r)]   (* an object is truthy *)
     | None => []
     end.

Section Handler.

(** validator.isEmail with its default options. *)
Variable isEmail : jsstring -> bool.
Variable cfg : config.

(** Lines 141-157: the early return of the email check, or the
    reporter to attach ([None] is the initial [null]). *)
Definition reporter_of (payload : value) : response + option doc :=
  let r := get payload js:"reporter" in
  if truthy r && typeof_object r then
    let field k := match r with Some o => get o k | None => None end in
    let rName := sanitizeString (field js:"name") 100 in
    let rEmail := sanitizeString (field js:"email") 254 in
    let rUsername := sanitizeString (field js:"username") 100 in
    if negb (JsString.eqb rEmail []) && negb (isEmail rEmail) then
      inl (error cfg 400 "Invalid reporter email")
    else
      inr (Some
        ((if JsString.eqb rName [] then [] else [(js:"name", VStr rName)])
         ++ (if JsString.eqb rEmail [] then [] else [(js:"email", VStr rEmail)])
         ++ (if JsString.eqb rUsername [] then []
             else [(js:"username", VStr rUsername)])))
  else inr None.

(** Lines 197-218: connect (unless a handle is cached), insert,
    answer 201; any failure is caught and answered with 500. *)
Definition store (e : env) (complaintId : jsstring) (d : doc) (w : world)
    : outcome * world :=
  let failed := error cfg 500 "Internal server error" in
  let insert w :=
    let w := log (InsertOne d) w in
    if insert_ok e then
      (Returned (Response.Make 201 (cors cfg)
         (Stringify (VObj
            [ (js:"success", VBool true);
              (js:"complaintId", VStr complaintId);
              (js:"message", VStr js:"Complaint submitted successfully") ]))),
       set_coll (coll w ++ [(js:"_id", VOid (fresh_id e)) :: d]) w)
    else (Returned failed, w) in
  if cachedDb w then insert w
  else
    let w := log Connect w in
    if connect_ok e then insert (set_cachedDb true w)
    else (Returned failed, w).

(** Lines 134-180: the sanitized fields, or the first rejection. *)
Definition checked (payload : value) : response + fields :=
  let department := sanitizeString (get payload js:"department") 100 in
  let program := sanitizeString (get payload js:"program") 100 in
  let title := sanitizeString (get payload js:"title") 200 in
  let details := sanitizeString (get payload js:"details") 4000 in
  match reporter_of payload with
  | inl r => inl r
  | inr reporter =>
      if JsString.eqb department [] || JsString.eqb program []
         || JsString.eqb title [] || JsString.eqb details [] then
        inl (error cfg 400 "Missing required fields")
      else if Z.of_nat (length title) <? 5 then
        inl (error cfg 400 "Complaint title too short")
      else if Z.of_nat (length details) <? 10 then
        inl (error cfg 400 "Complaint details too short")
      else inr (Fields department program title details reporter)
  end.

(** Lines 123-218: what the handler does with a request the limiter
    let through. *)
Definition intake (e : env) (b : body_text) (w : world) : outcome * world :=
  match parse_body b with
  | None => (Returned (error cfg 400 "Invalid JSON"), w)
  | Some VNull => (Thrown, w)   (* payload.department on null *)
  | Some payload =>
      match checked payload with
      | inl r => (Returned r, w)
      | inr f =>
          let complaintId := createComplaintId (now_id e) (rnds e) in
          store e complaintId (complaintDoc complaintId f (now_doc e)) w
      end
  end.

Definition handler (e : env) (ev : event) (w : world) : outcome * world :=
  if JsString.eqb (httpMethod ev) js:"OPTIONS" then
    (Returned (Response.Make 204 (cors cfg) (Text [])), w)
  else if negb (JsString.eqb (httpMethod ev) js:"POST") then
    (Returned (error cfg 405 "Method not allowed"), w)
  else if negb (JsString.eqb (FUNCTION_SECRET cfg) [])
          && negb (JsString.eqb
                     (or_str (headers ev !! js:"x-function-secret")
                        (or_str (headers ev !! js:"X-Function-Secret") []))
                     (FUNCTION_SECRET cfg)) then
    (Returned (error cfg 401 "Unauthorized"), w)
  else
    let ip := client_ip ev in
    let '(limited, m) := isRateLimited ip (now_limiter e) (rateMap w) in
    let w := set_rateMap m w in
    if limited then
      (Returned (error cfg 429 "Too many submissions. Try again later."), w)
    else intake e (body ev) w.

End Handler.

(** *** Vocabulary of the statements about the handler *)

(** The rejections, by the names the specification gives them. *)
Definition Unauthorized (cfg : config) : response :=
  error cfg 401 "Unauthorized".
Definition RateLimited (cfg : config) : response :=
  error cfg 429 "Too many submissions. Try again later.".
Definition InvalidPayload (cfg : config) : response :=
  error cfg 400 "Invalid JSON".
Definition InvalidEmail (cfg : config) : response :=
  error cfg 400 "Invalid reporter email".
Definition MissingFields (cfg : config) : response :=
  error cfg 400 "Missing required fields".
Definition TitleTooShort (cfg : config) : response :=
  error cfg 400 "Complaint title too short".
Definition DetailsTooShort (cfg : config) : response :=
  error cfg 400 "Complaint details too short".

Definition rejections (cfg : config) : list response :=
  [ Unauthorized cfg; RateLimited cfg; InvalidPayload cfg; InvalidEmail cfg;
    MissingFields cfg; TitleTooShort cfg; DetailsTooShort cfg ].

Definition status_of (o : outcome) : option Z :=
  match o with
  | Returned r => Some (Response.statusCode r)
  | Thrown => None
  end.

(** The properties [reporter] gets at lines 153-156: of the given
    sanitized sub-fields, those that are not empty. *)
Definition nonempty_props (l : list (jsstring * jsstring)) : doc :=
  flat_map (fun p => if JsString.eqb (snd p) [] then [] else [(fst p, VStr (snd p))]) l.

(** JSON values that are neither an object nor null. *)
Definition non_object (v : value) : bool :=
  match v with
  | VBool _ | VNum _ | VStr _ | VArr _ => true
  | _ => false
  end.

(** The request is a POST that passes the secret check, so the handler
    goes on to the rate limiter. *)
Definition reaches_limiter (cfg : config) (ev : event) : bool :=
  JsString.eqb (httpMethod ev) js:"POST"
  && negb (negb (JsString.eqb (FUNCTION_SECRET cfg) [])
           && negb (JsString.eqb
                      (or_str (headers ev !! js:"x-function-secret")
                         (or_str (headers ev !! js:"X-Function-Secret") []))
                      (FUNCTION_SECRET cfg))).

(** A call counted against caller key [k]. *)
Definition call_of (cfg : config) (k : jsstring) (ev : event) : bool :=
  reaches_limiter cfg ev && JsString.eqb (client_ip ev) k.

(** The clock readings of the calls of [k] among [reqs], in order. *)
Fixpoint call_times (cfg : config) (k : jsstring) (reqs : list (env * event))
    : list Z :=
  match reqs with
  | [] => []
  | (e, ev) :: rest =>
      if call_of cfg k ev then now_limiter e :: call_times cfg k rest
      else call_times cfg k rest
  end.

(** The outcomes of the calls of [k], in order. *)
Fixpoint call_outcomes (cfg : config) (k : jsstring)
    (reqs : list (env * event)) (outs : list outcome) : list outcome :=
  match reqs, outs with
  | (e, ev) :: rest, o :: os =>
      if call_of cfg k ev then o :: call_outcomes cfg k rest os
      else call_outcomes cfg k rest os
  | _, _ => []
  end.

(** A call of [k] at time [t] starts a window: [k] has no entry, or its
    window is over. *)
Definition opens_window (m : gmap jsstring entry) (k : jsstring) (t : Z) : Prop :=
  match m !! k with
  | None => True
  | Some en => t - first en > RATE_LIMIT_WINDOW_MS
  end.

(** Serving a list of requests one after the other. *)
Fixpoint serve (isEmail : jsstring -> bool) (cfg : config)
    (reqs : list (env * event)) (w : world) : list outcome * world :=
  match reqs with
  | [] => ([], w)
  | (e, ev) :: rest =>
      let '(o, w) := handler isEmail cfg e ev w in
      let '(os, w) := serve isEmail cfg rest w in
      (o :: os, w)
  end.

End SubmitComplaint.

(** ** updateComplaint.js, deleteComplaint.js, getComplaintById.js

    These handlers share one pattern: parse, connect, one collection
    call, answer; every exception is caught and answered with 500, and
    the client is closed in [finally]. *)

(** How the database answers during one invocation. *)
Record answers : Type := Answers {
  connects : bool;    (* client.connect() resolves *)
  succeeds : bool     (* the collection call resolves *)
}.

Definition failed : response := Response.Make 500 [] StringifyError.

(** [JSON.stringify({ success: true, message })] *)
Definition success (message : jsstring) : body_out :=
  Stringify (VObj [(js:"success", VBool true); (js:"message", VStr message)]).

(** [finally { await client.close() }] *)
Definition finally (r : outcome * world) : outcome * world :=
  (fst r, log Close (snd r)).

Module UpdateComplaint.

(** Lines 10-12 of updateComplaint.js: front-end actions mapped to
    statuses; anything else is taken as the status itself. *)
Definition status_of_action (action : option value) : option value :=
  match action with
  | Some (VStr s) =>
      if JsString.eqb s js:"approve" then Some (VStr js:"approved")
      else if JsString.eqb s js:"reject" then Some (VStr js:"rejected")
      else action
  | _ => action
  end.

Section Handler.

(** [new ObjectId(id)] of the driver; [None] when it throws. *)
Variable ObjectId : option value -> option oid.

(** Connect, then [updateOne({ _id }, { $set: { status } })]. *)
Definition set_status (a : answers) (id status : option value)
    (ok : body_out) (w : world) : outcome * world :=
  let w := log Connect w in
  if negb (connects a) then (Returned failed, w)
  else
    match ObjectId id with
    | None => (Returned failed, w)
    | Some o =>
        let w := log (UpdateOne o (bson_of status)) w in
        if succeeds a then
          (Returned (Response.Make 200 [] ok),
           set_coll (updateOne (has_id o) js:"status" (bson_of status) (coll w)) w)
        else (Returned failed, w)
    end.

(** updateComplaint.js: [{ id, action }]. *)
Definition handler (a : answers) (ev : event) (w : world) : outcome * world :=
  finally
    match body ev with
    | NoBody | Malformed | Json VNull => (Returned failed, w)
    | Json v =>
        let id := get v js:"id" in
        let action := get v js:"action" in
        let status := status_of_action action in
        set_status a id status (StringifyTemplate js:"Complaint " status) w
    end.

(** The other updateComplaint.js of the repository: [{ id, status }],
    stored as given. *)
Definition handler_status (a : answers) (ev : event) (w : world)
    : outcome * world :=
  finally
    match body ev with
    | NoBody | Malformed | Json VNull => (Returned failed, w)
    | Json v =>
        let id := get v js:"id" in
        let status := get v js:"status" in
        set_status a id status (success js:"Complaint updated") w
    end.

End Handler.

End UpdateComplaint.

Module DeleteComplaint.

Section Handler.

Variable ObjectId : option value -> option oid.

Definition handler (a : answers) (ev : event) (w : world) : outcome * world :=
  finally
    match body ev with
    | NoBody | Malformed | Json VNull => (Returned failed, w)
    | Json v =>
        let id := get v js:"id" in
        let w := log Connect w in
        if negb (connects a) then (Returned failed, w)
        else
          match ObjectId id with
          | None => (Returned failed, w)
          | Some o =>
              let w := log (DeleteOne o) w in
              if succeeds a then
                (Returned (Response.Make 200 [] (success js:"Complaint deleted")),
                 set_coll (deleteOne (has_id o) (coll w)) w)
              else (Returned failed, w)
          end
    end.

End Handler.

End DeleteComplaint.

Module GetComplaintById.

(** [complaint.status || "pending"] *)
Definition status_or_pending (status : option value) : option value :=
  if truthy status then status else Some (VStr js:"pending").

(** Lines 94-99: the object handed to JSON.stringify. *)
Definition safe_fields (complaint : doc) : doc :=
  defined_props
    [ (js:"complaintId", assoc js:"complaintId" complaint);
      (js:"title", assoc js:"title" complaint);
      (js:"status", status_or_pending (assoc js:"status" complaint));
      (js:"createdAt", assoc js:"createdAt" complaint) ].

Definition error (code : Z) (msg : string) : response :=
  Response.Make code [] (Stringify (VObj [(js:"error", VStr js:msg)])).

(** The property names of a 200 answer. *)
Definition safe_names : list jsstring :=
  [js:"complaintId"; js:"title"; js:"status"; js:"createdAt"].

Section Handler.

(** MongoDB's evaluation of the filter [{ complaintId: q }] on a
    stored document. *)
Variable matches : value -> doc -> bool.

Definition handler (a : answers) (ev : event) (w : world) : outcome * world :=
  finally
    match body ev with
    | NoBody | Malformed | Json VNull => (Returned failed, w)
    | Json v =>
        let complaintId := get v js:"complaintId" in
        if negb (truthy complaintId) then
          (Returned (error 400 "complaintId is required"), w)
        else
          let w := log Connect w in
          if negb (connects a) then (Returned failed, w)
          else
            let q := bson_of complaintId in
            let w := log (FindOne q) w in
            if negb (succeeds a) then (Returned failed, w)
            else
              match findOne (matches q) (coll w) with
              | None => (Returned (error 404 "Complaint not found"), w)
              | Some complaint =>
                  (Returned (Response.Make 200 []
                     (Stringify (VObj (safe_fields complaint)))), w)
              end
    end.

End Handler.

End GetComplaintById.

(** ** The libraries on the inputs of the closed examples

    validator and the MongoDB driver are not part of the repository; the
    handlers above take what they use of them as parameters. The closed
    examples below need them at a few concrete inputs only. *)

(** A condition every address accepted by validator.isEmail (default
    options) meets: an at sign with text on both sides. It is used only
    where it answers [false]. *)
Definition isEmail_shape (s : jsstring) : bool :=
  let domain := reverse (JsString.before 64 (reverse s)) in
  existsb (N.eqb 64) s && negb (JsString.eqb domain [])
  && (length domain + 1 <? length s)%nat.

Definition hex_value (c : N) : option N :=
  if ((48 <=? c) && (c <=? 57))%N then Some (c - 48)%N
  else if ((97 <=? c) && (c <=? 102))%N then Some (c - 87)%N
  else if ((65 <=? c) && (c <=? 70))%N then Some (c - 55)%N
  else None.

Fixpoint of_hex (s : jsstring) (acc : N) : option N :=
  match s with
  | [] => Some acc
  | c :: r =>
      match hex_value c with
      | Some d => of_hex r (16 * acc + d)%N
      | None => None
      end
  end.

(** [new ObjectId(id)] on a string of 24 hexadecimal digits, the input
    every version of the driver reads as the identifier it spells; other
    inputs are not needed by the examples and count as rejected. *)
Definition ObjectId_hex (id : option value) : option oid :=
  match id with
  | Some (VStr s) => if (length s =? 24)%nat then of_hex s 0 else None
  | _ => None
  end.

(** The filter [{ complaintId: q }] for a string [q] against a document
    whose complaintId is a string: equality. *)
Definition matches_string (q : value) (d : doc) : bool :=
  match q, assoc js:"complaintId" d with
  | VStr a, Some (VStr b) => JsString.eqb a b
  | _, _ => false
  end.

(** ** Patterns

    The fragment of regular expressions the identifier format is written
    in, with its language as an inductive relation. *)

Module Pattern.

Inductive t : Type :=
  | Class (p : N -> bool)     (* [...] *)
  | Lit (s : jsstring)        (* literal text *)
  | Seq (a b : t)             (* ab *)
  | Plus (a : t)              (* a+ *)
  | Times (n : nat) (a : t).  (* a{n} *)

Inductive matches : t -> jsstring -> Prop :=
  | m_class p c : p c = true -> matches (Class p) [c]
  | m_lit s : matches (Lit s) s
  | m_seq a b s1 s2 :
      matches a s1 -> matches b s2 -> matches (Seq a b) (s1 ++ s2)
  | m_plus_one a s : matches a s -> matches (Plus a) s
  | m_plus_more a s1 s2 :
      matches a s1 -> matches (Plus a) s2 -> matches (Plus a) (s1 ++ s2)
  | m_times_0 a : matches (Times 0 a) []
  | m_times_S n a s1 s2 :
      matches a s1 -> matches (Times n a) s2 -> matches (Times (S n) a) (s1 ++ s2).

Definition digit (c : N) : bool := ((48 <=? c) && (c <=? 57))%N.
Definition lower (c : N) : bool := ((97 <=? c) && (c <=? 122))%N.
Definition upper (c : N) : bool := ((65 <=? c) && (c <=? 90))%N.

(** [COMP-[0-9a-z]+-[0-9A-Z]{8}] *)
Definition complaint_id : t :=
  Seq (Lit js:"COMP-")
    (Seq (Plus (Class (fun c => digit c || lower c)))
       (Seq (Lit js:"-") (Times 8 (Class (fun c => digit c || upper c))))).

End Pattern.

(** Reading a numeral back, to check [toString36] against. *)
Definition digit_value (c : N) : N :=
  if (c <? 58)%N then (c - 48)%N else (c - 87)%N.

Definition of_radix (radix : N) (s : jsstring) : N :=
  fold_left (fun a c => (a * radix + digit_value c)%N) s 0%N.

(** The status of every stored complaint, in order. *)
Definition statuses (w : world) : list (option value) :=
  map (assoc js:"status") (coll w).

(** Two documents that agree on every field but [status]. *)
Definition same_but_status (d d' : doc) : Prop :=
  forall k, k <> js:"status" -> assoc k d' = assoc k d.

(** ** Concrete requests for the closed examples *)

Module Fixtures.
Import SubmitComplaint.

(** No secret configured, any origin allowed. *)
Definition cfg : config := Config [] [js:"*"].

(** The clock reads [t] throughout, the database answers, and the new
    document gets [id]. *)
Definition env_at (t : Z) (id : oid) : env :=
  Env t t t [171; 205; 18; 52]%N true true id.

Definition post (ip : string) (b : body_text) : event :=
  Event js:"POST" {[ js:"x-forwarded-for" := js:ip ]} None b.

(** The complaint of the specification's end-to-end example, with
    further properties appended. *)
Definition complaint (title : string) (more : doc) : value :=
  VObj ([ (js:"department", VStr js:"CS");
          (js:"program", VStr js:"B.Tech");
          (js:"title", VStr js:title);
          (js:"details",
            VStr js:"The AC in room 204 has been broken for two weeks.") ]
        ++ more).

Definition reporter (props : doc) : doc := [(js:"reporter", VObj props)].

Definition five : value := VNum (S754_finite false 5 0).

Definition nothing : world := World ∅ false [] [].

Definition caller : jsstring := js:"1.2.3.4".

Definition ev_good : event := post "1.2.3.4" (Json (complaint "Broken AC" [])).
Definition ev_short_title : event := post "1.2.3.4" (Json (complaint "Bad" [])).
Definition ev_number : event := post "1.2.3.4" (Json five).

Definition bad_email : value := VObj [(js:"email", VStr js:"not-an-email")].
Definition only_bad_email : value := VObj [(js:"reporter", bad_email)].
Definition ev_bad_email : event := post "1.2.3.4" (Json only_bad_email).

Definition ev_blank_email : event :=
  post "1.2.3.4"
    (Json (complaint "Broken AC" (reporter [(js:"email", VStr js:"   ")]))).

Definition ev_empty_reporter : event :=
  post "1.2.3.4" (Json (complaint "Broken AC" (reporter []))).

Definition ev_blank_name : event :=
  post "1.2.3.4"
    (Json (complaint "Broken AC"
       (reporter [(js:"name", VStr js:"  "); (js:"username", VStr js:"kay")]))).

(** The database answers. *)
Definition up : answers := Answers true true.

Definition hex_one : jsstring := js:"000000000000000000000001".

(** [{ id: "00...01", action }] *)
Definition ev_action (action : string) : event :=
  Event js:"POST" ∅ None
    (Json (VObj [(js:"id", VStr hex_one); (js:"action", VStr js:action)])).

(** [{ id: "00...01", status }] *)
Definition ev_status (status : string) : event :=
  Event js:"POST" ∅ None
    (Json (VObj [(js:"id", VStr hex_one); (js:"status", VStr js:status)])).

(** [{ complaintId }] *)
Definition ev_fetch (complaintId : string) : event :=
  Event js:"POST" ∅ None (Json (VObj [(js:"complaintId", VStr js:complaintId)])).

(** The collection after the accepted example submission. *)
Definition one_pending : world :=
  snd (handler isEmail_shape cfg (env_at 1700000000000 1) ev_good nothing).

(** A stored record that has no status field. *)
Definition legacy : doc :=
  [ (js:"_id", VOid 7);
    (js:"complaintId", VStr js:"C-1");
    (js:"department", VStr js:"CS");
    (js:"program", VStr js:"B.Tech");
    (js:"title", VStr js:"Broken AC");
    (js:"details", VStr js:"No cooling since Monday.");
    (js:"createdAt", VDate 1700000000000) ].

Definition legacy_world : world := World ∅ false [legacy] [].

(** Eight calls of [caller] a second apart, another caller and a GET
    in between. *)
Definition burst : list (env * event) :=
  [ (env_at 0 1, ev_good);
    (env_at 1000 2, ev_good);
    (env_at 1500 3, post "5.6.7.8" (Json (complaint "Broken AC" [])));
    (env_at 2000 4, ev_good);
    (env_at 3000 5, ev_good);
    (env_at 3500 6, Event js:"GET" ∅ None NoBody);
    (env_at 4000 7, ev_good);
    (env_at 5000 8, ev_good);
    (env_at 60000 9, ev_good);
    (env_at 60000 10, ev_short_title) ].

End Fixtures.

(** ** getComplaints.js *)

Module GetComplaints.

Section Handler.

(** The cursor's [.sort({ createdAt: -1 })], as the server orders the
    documents. *)
Variable sort_createdAt_desc : list doc -> list doc.

(** [find({}).sort({ createdAt: -1 }).toArray()], serialized whole. The
    call log has entries for single-document calls only; the cursor read
    shows in the answer. *)
Definition handler (a : answers) (w : world) : outcome * world :=
  finally
    (let w := log Connect w in
     if negb (connects a) then (Returned failed, w)
     else if negb (succeeds a) then (Returned failed, w)
     else
       let complaints := sort_createdAt_desc (coll w) in
       (Returned (Response.Make 200 [] (Stringify (VArr (map VObj complaints)))),
        w)).

End Handler.

End GetComplaints.

(** The order of [{ createdAt: -1 }] on a collection whose createdAt
    fields are all dates: newest first. *)
Definition created (d : doc) : Z :=
  match assoc js:"createdAt" d with
  | Some (VDate ms) => ms
  | _ => 0
  end.

Fixpoint insert_newest (d : doc) (l : list doc) : list doc :=
  match l with
  | [] => [d]
  | x :: r => if created x <? created d then d :: x :: r else x :: insert_newest d r
  end.

Definition newest_first (l : list doc) : list doc := foldr insert_newest [] l.

(** ** Further vocabulary *)

(** Reading pairs of hexadecimal digits back as bytes. *)
Fixpoint unhex (s : jsstring) : list N :=
  match s with
  | c1 :: c2 :: r =>
      (16 * default 0 (hex_value c1) + default 0 (hex_value c2))%N :: unhex r
  | _ => []
  end.

(** The four random bytes [createComplaintId] keeps of the UUID. *)
Definition first4 (rnds : list N) : list N :=
  map (fun i => (default 0 (rnds !! i) mod 256)%N) [0; 1; 2; 3]%nat.

(** Reading an identifier back: the time in its base-36 group and the
    bytes in its hexadecimal group. *)
Definition decode_id (id : jsstring) : Z * list N :=
  let rest := drop 5 id in
  let ts := JsString.before 45 rest in
  (Z.of_N (of_radix 36 ts), unhex (drop (S (length ts)) rest)).

(** A sanitized string of [lo] to [hi] code units. *)
Definition in_bounds (lo hi : Z) (s : jsstring) : Prop :=
  lo <= Z.of_nat (length s) <= hi /\ Forall (fun c => c <> 0%N) s.

Definition accepted (o : outcome) : bool :=
  bool_decide (SubmitComplaint.status_of o = Some 201).

(** The answer of the fetch handler for a stored complaint. *)
Definition found (complaint : doc) : response :=
  Response.Make 200 [] (Stringify (VObj (GetComplaintById.safe_fields complaint))).

(** Further requests for the closed examples. *)
Module MoreFixtures.
Import SubmitComplaint Fixtures.

Definition down : answers := Answers false true.

Definition env_db_down : env := Env 0 0 0 [171; 205; 18; 52]%N false true 1.

(** Sixteen random bytes, as uuid's rng returns them. *)
Definition sixteen : list N :=
  [171; 205; 18; 52; 0; 1; 2; 3; 4; 5; 6; 7; 8; 9; 10; 11]%N.

(** The deployment answers, the insert is rejected. *)
Definition env_insert_rejected : env :=
  Env 0 0 0 [171; 205; 18; 52]%N true false 1.

Definition no_title : value :=
  VObj [ (js:"department", VStr js:"CS");
         (js:"program", VStr js:"B.Tech");
         (js:"details", VStr js:"No cooling since Monday.") ].

Definition ev_no_title : event := post "1.2.3.4" (Json no_title).

Definition short_both : value :=
  VObj [ (js:"department", VStr js:"CS");
         (js:"program", VStr js:"B.Tech");
         (js:"title", VStr js:"Bad");
         (js:"details", VStr js:"Hot") ].

Definition ev_short_both : event := post "1.2.3.4" (Json short_both).

Definition ev_null : event := post "1.2.3.4" (Json VNull).

Definition ev_get : event := Event js:"GET" ∅ None NoBody.

Definition ev_full_reporter : event :=
  post "1.2.3.4"
    (Json (complaint "Broken AC"
       (reporter [ (js:"name", VStr js:" Kay ");
                   (js:"ip", VStr js:"10.0.0.1");
                   (js:"username", VStr js:"kay") ]))).

Definition hex_two : jsstring := js:"000000000000000000000002".

Definition ev_delete (id : jsstring) : event :=
  Event js:"POST" ∅ None (Json (VObj [(js:"id", VStr id)])).

Definition older : doc :=
  [ (js:"_id", VOid 8);
    (js:"complaintId", VStr js:"C-0");
    (js:"title", VStr js:"Leaking roof");
    (js:"details", VStr js:"Water in lab 3.");
    (js:"reporter", VObj [(js:"name", VStr js:"Kay")]);
    (js:"status", VStr js:"approved");
    (js:"createdAt", VDate 1600000000000) ].

Definition two_stored : world := World ∅ false [older; legacy] [].

End MoreFixtures.

(** ** Databases and collections

    submitComplaint.js works on
    [client.db(MONGODB_DB).collection(MONGODB_COLLECTION)], with the
    names read from the environment; getComplaintById.js works on
    [client.db("complaintsDB").collection("complaints")]. Both connect
    to the deployment [MONGO_URI] names. A handler sees the one
    collection it addresses; the deployment holds them all. *)

Module Cluster.

(** [process.env.MONGODB_DB || 'univoice'] and
    [process.env.MONGODB_COLLECTION || 'complaints']. *)
Record names : Type := Names {
  MONGODB_DB : jsstring;
  MONGODB_COLLECTION : jsstring
}.

(** Neither variable set. *)
Definition unset : names := Names js:"univoice" js:"complaints".

(** The collections of the deployment, by database and collection name;
    one never written to is empty. *)
Abbreviation t := (jsstring -> jsstring -> list doc).

Definition empty : t := fun _ _ => [].

Definition write (db c : jsstring) (docs : list doc) (cl : t) : t :=
  fun db' c' =>
    if JsString.eqb db' db && JsString.eqb c' c then docs else cl db' c'.

(** A handler at work on the collection [c] of the database [db]: for
    the time of the call that collection is the one of its world. *)
Definition on (db c : jsstring) (h : world -> outcome * world)
    (s : world * t) : outcome * (world * t) :=
  let r := h (set_coll (snd s db c) (fst s)) in
  (fst r, (snd r, write db c (coll (snd r)) (snd s))).

(** submitComplaint.js, lines 198-200. *)
Definition submit (isEmail : jsstring -> bool) (cfg : SubmitComplaint.config)
    (n : names) (e : SubmitComplaint.env) (ev : event) :=
  on (MONGODB_DB n) (MONGODB_COLLECTION n) (SubmitComplaint.handler isEmail cfg e ev).

(** getComplaintById.js, lines 81-82. *)
Definition fetch (matches : value -> doc -> bool) (a : answers) (ev : event) :=
  on js:"complaintsDB" js:"complaints" (GetComplaintById.handler matches a ev).

End Cluster.

(** The environment set to the names the other functions use. *)
Definition shared_names : Cluster.names := Cluster.Names js:"complaintsDB" js:"complaints".

(** * Properties *)

(** ** Strings *)

Module JsStringFacts.
Import JsString.

Lemma eqb_eq (a b : jsstring) : eqb a b = true <-> a = b.
Proof. unfold eqb. apply bool_decide_eq_true. Qed.

Lemma eqb_neq (a b : jsstring) : eqb a b = false <-> a <> b.
Proof. unfold eqb. apply bool_decide_eq_false. Qed.

Lemma eqb_refl (a : jsstring) : eqb a a = true.
Proof. by apply eqb_eq. Qed.

Lemma ltrim_length (s : jsstring) : (length (ltrim s) <= length s)%nat.
Proof. induction s as [|c r IH]; simpl; [lia|]. destruct (is_space c); simpl; lia. Qed.

Lemma rtrim_length (s : jsstring) : (length (rtrim s) <= length s)%nat.
Proof.
  induction s as [|c r IH]; simpl; [lia|].
  destruct (rtrim r); [destruct (is_space c)|]; simpl in *; lia.
Qed.

Lemma trim_length (s : jsstring) : (length (trim s) <= length s)%nat.
Proof. unfold trim. pose proof (rtrim_length (ltrim s)). pose proof (ltrim_length s). lia. Qed.

Lemma ltrim_Forall (P : N -> Prop) (s : jsstring) : Forall P s -> Forall P (ltrim s).
Proof.
  induction 1 as [|c r Hc Hr IH]; simpl; [constructor|].
  destruct (is_space c); [exact IH | by constructor].
Qed.

Lemma rtrim_Forall (P : N -> Prop) (s : jsstring) : Forall P s -> Forall P (rtrim s).
Proof.
  induction 1 as [|c r Hc Hr IH]; simpl; [constructor|].
  destruct (rtrim r); [destruct (is_space c)|]; by repeat (constructor; try done).
Qed.

Lemma trim_Forall (P : N -> Prop) (s : jsstring) : Forall P s -> Forall P (trim s).
Proof. intros. by apply rtrim_Forall, ltrim_Forall. Qed.

Lemma strip_nul_Forall (s : jsstring) : Forall (fun c => c <> 0%N) (strip_nul s).
Proof.
  induction s as [|c r IH]; simpl; [constructor|].
  destruct (N.eqb_spec c 0); simpl; [exact IH | by constructor].
Qed.

Lemma strip_nul_id (s : jsstring) :
  Forall (fun c => c <> 0%N) s -> strip_nul s = s.
Proof.
  induction 1 as [|c r Hc Hr IH]; simpl; [done|].
  destruct (N.eqb_spec c 0); simpl; [done | by rewrite IH].
Qed.

Lemma slice0_Forall (P : N -> Prop) (s : jsstring) (e : Z) :
  Forall P s -> Forall P (slice0 s e).
Proof. intros. unfold slice0. destruct (e <? 0); by apply Forall_take. Qed.

Lemma slice0_length (s : jsstring) (e : Z) :
  0 <= e -> Z.of_nat (length (slice0 s e)) <= e.
Proof.
  intros He. unfold slice0. destruct (Z.ltb_spec e 0); [lia|].
  rewrite length_take. lia.
Qed.

(** A string that starts with no white space is its own left trim. *)
Lemma ltrim_rtrim (s : jsstring) : ltrim s = s -> ltrim (rtrim s) = rtrim s.
Proof.
  destruct s as [|c r]; [done|]. simpl.
  destruct (is_space c) eqn:Hc.
  - intros H. pose proof (ltrim_length r) as Hl. rewrite H in Hl. simpl in Hl. lia.
  - intros _. destruct (rtrim r); simpl; by rewrite Hc.
Qed.

Lemma ltrim_idem (s : jsstring) : ltrim (ltrim s) = ltrim s.
Proof.
  induction s as [|c r IH]; [done|]. simpl.
  destruct (is_space c) eqn:Hc; [done|]. simpl. by rewrite Hc.
Qed.

Lemma rtrim_idem (s : jsstring) : rtrim (rtrim s) = rtrim s.
Proof.
  induction s as [|c r IH]; [done|]. simpl.
  destruct (rtrim r) as [|c' r'] eqn:Hr.
  - destruct (is_space c) eqn:Hc; simpl; [done | by rewrite Hc].
  - simpl in *. by rewrite IH.
Qed.

Lemma trim_idem (s : jsstring) : trim (trim s) = trim s.
Proof.
  unfold trim. rewrite ltrim_rtrim by apply ltrim_idem. apply rtrim_idem.
Qed.

End JsStringFacts.

(** ** Sanitization *)

Module SanitizeFacts.
Import JsString JsStringFacts SubmitComplaint.

Abbreviation str s := (Some (VStr s)).

Lemma sanitizeText_no_nul (s : jsstring) (n : Z) :
  Forall (fun c => c <> 0%N) (sanitizeText s n).
Proof.
  unfold sanitizeText. destruct (_ >? n).
  - apply slice0_Forall, strip_nul_Forall.
  - apply strip_nul_Forall.
Qed.

Lemma sanitizeText_length (s : jsstring) (n : Z) :
  0 <= n -> Z.of_nat (length (sanitizeText s n)) <= n.
Proof.
  intros Hn. unfold sanitizeText.
  destruct (Z.gtb_spec (Z.of_nat (length (strip_nul (trim s)))) n); [|done].
  by apply slice0_length.
Qed.

(** A second pass only trims what the first pass returned. *)
Lemma sanitizeText_twice (s : jsstring) (n : Z) :
  0 <= n -> sanitizeText (sanitizeText s n) n = trim (sanitizeText s n).
Proof.
  intros Hn. set (r := sanitizeText s n).
  unfold sanitizeText at 1.
  rewrite strip_nul_id by apply trim_Forall, sanitizeText_no_nul.
  pose proof (trim_length r). pose proof (sanitizeText_length s n Hn).
  destruct (Z.gtb_spec (Z.of_nat (length (trim r))) n); [|done]. fold r in H0. lia.
Qed.

(** Without NULs and within the limit, sanitizing is trimming. *)
Lemma sanitizeText_trim (s : jsstring) (n : Z) :
  Forall (fun c => c <> 0%N) s -> Z.of_nat (length (trim s)) <= n ->
  sanitizeText s n = trim s.
Proof.
  intros Hs Hn. unfold sanitizeText.
  rewrite strip_nul_id by by apply trim_Forall.
  destruct (Z.gtb_spec (Z.of_nat (length (trim s))) n); [lia | done].
Qed.

Lemma sanitizeString_idempotent_fits (s : jsstring) (n : Z) :
  Forall (fun c => c <> 0%N) s -> Z.of_nat (length (trim s)) <= n ->
  sanitizeString (str (sanitizeString (str s) n)) n = sanitizeString (str s) n.
Proof.
  intros Hs Hn. simpl. rewrite sanitizeText_twice by lia.
  rewrite sanitizeText_trim by done. apply trim_idem.
Qed.

(** C3, as the code has it: for a maximum length [n >= 0] the second
    pass of [sanitizeString] trims the result of the first, so
    sanitizing twice equals sanitizing once exactly when the sanitized
    string neither starts nor ends with white space. *)
Theorem sanitizeString_twice_iff (s : jsstring) (n : Z) :
  0 <= n ->
  sanitizeString (str (sanitizeString (str s) n)) n = sanitizeString (str s) n
  <-> trim (sanitizeString (str s) n) = sanitizeString (str s) n.
Proof. intros Hn. simpl. by rewrite sanitizeText_twice. Qed.

Lemma sanitizeString_twice_iff_witness :
  0 <= 200 /\
  (sanitizeString (str (sanitizeString (str js:"  Broken AC  ") 200)) 200
     = sanitizeString (str js:"  Broken AC  ") 200
   <-> trim (sanitizeString (str js:"  Broken AC  ") 200)
       = sanitizeString (str js:"  Broken AC  ") 200).
Proof. split; [lia | apply (sanitizeString_twice_iff js:"  Broken AC  " 200); lia]. Defined.

(** C3 as stated fails: truncation can leave a trailing space, which
    the second pass trims. ["a b"] cut to 2 is ["a "], then ["a"]. *)
Lemma sanitizeString_not_idempotent :
  sanitizeString (str (sanitizeString (str js:"a b") 2)) 2
  <> sanitizeString (str js:"a b") 2.
Proof. vm_compute. discriminate. Qed.

(** Stripping a NUL can uncover white space in the same way. *)
Example sanitizeString_nul_then_space :
  sanitizeString (str (0%N :: js:" a")) 100 = js:" a"
  /\ sanitizeString (str js:" a") 100 = js:"a".
Proof. by vm_compute. Qed.

Example sanitize_ex1 :
  sanitizeString (str js:"  Broken AC  ") 200 = js:"Broken AC".
Proof. reflexivity. Qed.

Example sanitize_non_string : sanitizeString (Some (VBool true)) 100 = [].
Proof. reflexivity. Qed.

End SanitizeFacts.

(** ** Complaint identifiers *)

Module IdFacts.
Import JsString JsStringFacts SubmitComplaint.

Lemma matches_plus_class (p : N -> bool) (s : jsstring) :
  s <> [] -> Forall (fun c => p c = true) s ->
  Pattern.matches (Pattern.Plus (Pattern.Class p)) s.
Proof.
  induction s as [|c r IH]; [done|]. intros _ H.
  apply Forall_cons in H as [Hc Hr].
  destruct r as [|c' r'].
  - by apply Pattern.m_plus_one, Pattern.m_class.
  - apply (Pattern.m_plus_more _ [c]); [by apply Pattern.m_class|].
    by apply IH.
Qed.

Lemma matches_times_class (p : N -> bool) (s : jsstring) :
  Forall (fun c => p c = true) s ->
  Pattern.matches (Pattern.Times (length s) (Pattern.Class p)) s.
Proof.
  induction 1 as [|c r Hc Hr IH]; simpl; [constructor|].
  apply (Pattern.m_times_S _ _ [c]); [by apply Pattern.m_class | done].
Qed.

(** Digits *)

Lemma digit_char_36 (d : N) :
  (d < 36)%N -> (Pattern.digit (digit_char d) || Pattern.lower (digit_char d)) = true.
Proof.
  intros Hd. unfold digit_char, Pattern.digit, Pattern.lower.
  destruct (N.ltb_spec d 10).
  - apply orb_true_iff. left. apply andb_true_iff. split; apply N.leb_le; lia.
  - apply orb_true_iff. right. apply andb_true_iff. split; apply N.leb_le; lia.
Qed.

Lemma digit_value_char (d : N) : (d < 36)%N -> digit_value (digit_char d) = d.
Proof.
  intros Hd. unfold digit_char, digit_value.
  destruct (N.ltb_spec d 10).
  - destruct (N.ltb_spec (48 + d) 58); lia.
  - destruct (N.ltb_spec (87 + d) 58); lia.
Qed.

Lemma to_radix_S (fuel : nat) (n : N) (acc : jsstring) :
  to_radix (S fuel) 36 n acc
  = if (n / 36 =? 0)%N then digit_char (n mod 36) :: acc
    else to_radix fuel 36 (n / 36) (digit_char (n mod 36) :: acc).
Proof. reflexivity. Qed.

Lemma to_radix_shape (fuel : nat) (n : N) (acc : jsstring) :
  exists ds, to_radix (S fuel) 36 n acc = ds ++ acc /\ ds <> []
    /\ Forall (fun c => (Pattern.digit c || Pattern.lower c) = true) ds.
Proof.
  assert (forall m, Forall (fun c => (Pattern.digit c || Pattern.lower c) = true)
                      [digit_char (m mod 36)]) as Hlast.
  { intros m. repeat constructor. apply digit_char_36. by apply N.mod_lt. }
  revert n acc. induction fuel as [|f IH]; intros n acc; rewrite to_radix_S.
  - exists [digit_char (n mod 36)]. by destruct (_ =? 0)%N.
  - destruct (n / 36 =? 0)%N.
    + by exists [digit_char (n mod 36)].
    + destruct (IH (n / 36)%N (digit_char (n mod 36) :: acc)) as (ds & -> & Hne & Hds).
      exists (ds ++ [digit_char (n mod 36)]). rewrite <- app_assoc. split; [done|].
      split; [by destruct ds|]. apply Forall_app. by split.
Qed.

Lemma of_radix_snoc (s : jsstring) (c : N) :
  of_radix 36 (s ++ [c]) = (of_radix 36 s * 36 + digit_value c)%N.
Proof. unfold of_radix. by rewrite fold_left_app. Qed.

(** With enough fuel the digits spell the number. *)
Lemma to_radix_value (fuel : nat) (n : N) (acc : jsstring) :
  (n < 36 ^ N.of_nat fuel)%N ->
  exists ds, to_radix fuel 36 n acc = ds ++ acc /\ of_radix 36 ds = n.
Proof.
  revert n acc. induction fuel as [|f IH]; intros n acc Hn.
  - exists []. split; [done|]. simpl in Hn. unfold of_radix. simpl. lia.
  - rewrite to_radix_S. destruct (N.eqb_spec (n / 36) 0) as [Hq|Hq].
    + exists [digit_char (n mod 36)]. split; [done|].
      unfold of_radix. simpl. rewrite digit_value_char by by apply N.mod_lt.
      pose proof (N.div_mod n 36). lia.
    + assert (n / 36 < 36 ^ N.of_nat f)%N as Hlt.
      { apply N.Div0.div_lt_upper_bound.
        rewrite Nat2N.inj_succ, N.pow_succ_r' in Hn. lia. }
      destruct (IH (n / 36)%N (digit_char (n mod 36) :: acc) Hlt) as (ds & -> & Hv).
      exists (ds ++ [digit_char (n mod 36)]). rewrite <- app_assoc. split; [done|].
      rewrite of_radix_snoc, Hv, digit_value_char by by apply N.mod_lt.
      pose proof (N.div_mod n 36). lia.
Qed.

Lemma fuel_enough (n : N) : (n < 36 ^ N.of_nat (S (N.to_nat (N.log2 n))))%N.
Proof.
  rewrite Nat2N.inj_succ, N2Nat.id.
  destruct (N.eq_dec n 0%N) as [->|Hn]; [done|].
  apply N.lt_le_trans with (2 ^ N.succ (N.log2 n))%N.
  - apply N.log2_spec. lia.
  - apply N.pow_le_mono_l. lia.
Qed.

(** [toString36] of a non-negative integer reads back as that integer. *)
Lemma toString36_value (z : Z) :
  0 <= z -> Z.of_N (of_radix 36 (toString36 z)) = z.
Proof.
  intros Hz. unfold toString36. destruct (Z.ltb_spec z 0); [lia|].
  destruct (to_radix_value _ _ [] (fuel_enough (Z.to_N z))) as (ds & -> & Hv).
  rewrite app_nil_r, Hv. lia.
Qed.

Lemma toString36_shape (z : Z) :
  0 <= z ->
  toString36 z <> []
  /\ Forall (fun c => (Pattern.digit c || Pattern.lower c) = true) (toString36 z).
Proof.
  intros Hz. unfold toString36. destruct (Z.ltb_spec z 0); [lia|].
  destruct (to_radix_shape (N.to_nat (N.log2 (Z.to_N z))) (Z.to_N z) [])
    as (ds & -> & Hne & Hds).
  by rewrite app_nil_r.
Qed.

(** The random token *)

Lemma digit_char_not_dash (d : N) : (digit_char d =? 45)%N = false.
Proof. unfold digit_char. apply N.eqb_neq. destruct (d <? 10)%N; lia. Qed.

Lemma before_hex (bs : list N) (rest : jsstring) :
  before 45 (flat_map byteToHex bs ++ 45%N :: rest) = flat_map byteToHex bs.
Proof.
  induction bs as [|b bs IH]; simpl.
  - done.
  - rewrite !digit_char_not_dash. by rewrite IH.
Qed.

Lemma upper_hex_digit (d : N) :
  (d < 16)%N ->
  (Pattern.digit (upper (digit_char d)) || Pattern.upper (upper (digit_char d))) = true.
Proof.
  intros Hd. unfold digit_char, upper, Pattern.digit, Pattern.upper.
  destruct (N.ltb_spec d 10).
  - replace ((97 <=? 48 + d) && (48 + d <=? 122))%N with false
      by (symmetry; apply andb_false_iff; left; apply N.leb_gt; lia).
    apply orb_true_iff. left. apply andb_true_iff. split; apply N.leb_le; lia.
  - replace ((97 <=? 87 + d) && (87 + d <=? 122))%N with true
      by (symmetry; apply andb_true_iff; split; apply N.leb_le; lia).
    apply orb_true_iff. right. apply andb_true_iff. split; apply N.leb_le; lia.
Qed.

Lemma upper_hex_bytes (bs : list N) :
  Forall (fun b => (b < 256)%N) bs ->
  Forall (fun c => (Pattern.digit c || Pattern.upper c) = true)
    (toUpperCase (flat_map byteToHex bs)).
Proof.
  induction 1 as [|b bs Hb Hbs IH]; simpl; [constructor|].
  constructor; [|constructor; [|exact IH]]; apply upper_hex_digit.
  - apply N.Div0.div_lt_upper_bound. lia.
  - by apply N.mod_lt.
Qed.

Lemma hex_bytes_length (bs : list N) :
  length (toUpperCase (flat_map byteToHex bs)) = (2 * length bs)%nat.
Proof.
  unfold toUpperCase. rewrite length_map.
  induction bs as [|b bs IH]; simpl; [done|]. rewrite IH. lia.
Qed.

(** [uuidv4().split('-')[0]] is the first four bytes in hexadecimal. *)
Lemma uuid_first_group (rnds : list N) :
  before 45 (uuidv4 rnds)
  = flat_map byteToHex
      (map (fun i => (default 0 (rnds !! i) mod 256)%N) [0; 1; 2; 3]%nat).
Proof. unfold uuidv4. apply before_hex. Qed.

(** With the clock at or after the epoch, the identifier built by
    [createComplaintId] is in the language of
    [COMP-[0-9a-z]+-[0-9A-Z]{8}]. *)
Lemma createComplaintId_format (now : Z) (rnds : list N) :
  0 <= now ->
  Pattern.matches Pattern.complaint_id (createComplaintId now rnds).
Proof.
  intros Hnow. unfold createComplaintId, Pattern.complaint_id.
  destruct (toString36_shape now Hnow) as [Hne Hts].
  apply Pattern.m_seq; [constructor|].
  apply Pattern.m_seq; [by apply matches_plus_class|].
  apply Pattern.m_seq; [constructor|].
  rewrite uuid_first_group.
  set (bs := map _ _).
  replace 8%nat with (length (toUpperCase (flat_map byteToHex bs)))
    by by rewrite hex_bytes_length.
  apply matches_times_class, upper_hex_bytes.
  subst bs. repeat constructor; by apply N.mod_lt.
Qed.

Example createComplaintId_ex :
  createComplaintId 1700000000000 [171; 205; 18; 52; 0; 1; 2; 3]%N
  = js:"COMP-loyw3v28-ABCD1234".
Proof. reflexivity. Qed.

Example uuidv4_ex :
  uuidv4 [171; 205; 18; 52; 0; 1; 255; 3; 255]%N
  = js:"abcd1234-0001-4f03-bf00-000000000000".
Proof. reflexivity. Qed.

(** Before the epoch [toString(36)] writes a sign, which the timestamp
    group of the pattern has no place for. *)
Example createComplaintId_negative_clock :
  createComplaintId (-1) [171; 205; 18; 52]%N = js:"COMP--1-ABCD1234".
Proof. reflexivity. Qed.

End IdFacts.

(** ** The rate limiter *)

Module LimiterFacts.
Import JsString JsStringFacts SubmitComplaint.

Lemma isRateLimited_other (k ip : jsstring) (now : Z) (m : gmap jsstring entry) :
  ip <> k -> snd (isRateLimited ip now m) !! k = m !! k.
Proof.
  intros Hne. unfold isRateLimited.
  destruct (_ >? RATE_LIMIT_WINDOW_MS); simpl; by rewrite lookup_insert_ne.
Qed.

Lemma isRateLimited_opens (k : jsstring) (now : Z) (m : gmap jsstring entry) :
  opens_window m k now ->
  isRateLimited k now m = (false, <[k := Entry 1 now]> m).
Proof.
  unfold opens_window, isRateLimited, RATE_LIMIT_WINDOW_MS.
  destruct (m !! k) as [[c t]|]; simpl; intros H.
  - destruct (Z.gtb_spec (now - t) (60 * 1000)); [done | lia].
  - destruct (Z.gtb_spec (now - now) (60 * 1000)); [lia | done].
Qed.

Lemma isRateLimited_within (k : jsstring) (now c t1 : Z) (m : gmap jsstring entry) :
  m !! k = Some (Entry c t1) -> now - t1 <= RATE_LIMIT_WINDOW_MS ->
  isRateLimited k now m = (c + 1 >? RATE_LIMIT_MAX, <[k := Entry (c + 1) t1]> m).
Proof.
  unfold isRateLimited. intros -> H. simpl.
  destruct (Z.gtb_spec (now - t1) RATE_LIMIT_WINDOW_MS); [lia | done].
Qed.

(** Sixty-one seconds are past the window. *)
Lemma isRateLimited_after_61s (k : jsstring) (now : Z) (en : entry)
    (m : gmap jsstring entry) :
  m !! k = Some en -> now - first en >= 61 * 1000 ->
  isRateLimited k now m = (false, <[k := Entry 1 now]> m).
Proof.
  intros Hk Hlate. apply isRateLimited_opens. unfold opens_window.
  rewrite Hk. unfold RATE_LIMIT_WINDOW_MS. lia.
Qed.

Example isRateLimited_exactly_60s :
  isRateLimited js:"1.2.3.4" 60000 {[ js:"1.2.3.4" := Entry 6 0 ]}
  = (true, {[ js:"1.2.3.4" := Entry 7 0 ]}).
Proof. by vm_compute. Qed.

End LimiterFacts.

(** ** The submit handler *)

Module HandlerFacts.
Import JsString JsStringFacts SubmitComplaint LimiterFacts.

Section Handler.

Variable isEmail : jsstring -> bool.
Variable cfg : config.

Abbreviation handler := (handler isEmail cfg).

(** [store] leaves the rate map alone and answers 201 or 500. *)
Lemma store_rateMap e id d w :
  rateMap (snd (store cfg e id d w)) = rateMap w
  /\ (status_of (fst (store cfg e id d w)) = Some 201
      \/ status_of (fst (store cfg e id d w)) = Some 500).
Proof.
  unfold store.
  destruct (cachedDb w), (connect_ok e), (insert_ok e); simpl; auto.
Qed.

(** A request that does not reach the limiter changes nothing. *)
Lemma handler_skip e ev w :
  reaches_limiter cfg ev = false ->
  snd (handler e ev w) = w
  /\ status_of (fst (handler e ev w)) ∈ [Some 204; Some 405; Some 401].
Proof.
  unfold reaches_limiter, SubmitComplaint.handler. intros Hskip.
  destruct (eqb (httpMethod ev) js:"OPTIONS") eqn:Hopt.
  { split; [done | set_solver]. }
  destruct (eqb (httpMethod ev) js:"POST") eqn:Hpost; simpl in *.
  2: { split; [done | set_solver]. }
  apply negb_false_iff in Hskip. rewrite Hskip.
  split; [done | set_solver].
Qed.

(** A request that reaches the limiter is answered by it, or goes on
    to [intake] with the updated rate map. *)
Lemma handler_pass e ev w :
  reaches_limiter cfg ev = true ->
  handler e ev w
  = let r := isRateLimited (client_ip ev) (now_limiter e) (rateMap w) in
    if fst r then (Returned (RateLimited cfg), set_rateMap (snd r) w)
    else intake isEmail cfg e (body ev) (set_rateMap (snd r) w).
Proof.
  unfold reaches_limiter, SubmitComplaint.handler. intros Hreach.
  apply andb_true_iff in Hreach as [Hpost Hauth].
  apply eqb_eq in Hpost. rewrite Hpost.
  change (eqb js:"POST" js:"OPTIONS") with false.
  change (eqb js:"POST" js:"POST") with true. simpl.
  apply negb_true_iff in Hauth. rewrite Hauth.
  by destruct (isRateLimited _ _ _) as [[] m].
Qed.

(** [intake] either answers without touching the world, or hands a
    document to [store]. *)
Lemma intake_cases e b w :
  (exists o, intake isEmail cfg e b w = (o, w)
     /\ (o = Thrown \/ o = Returned (InvalidPayload cfg)
         \/ o = Returned (InvalidEmail cfg) \/ o = Returned (MissingFields cfg)
         \/ o = Returned (TitleTooShort cfg)
         \/ o = Returned (DetailsTooShort cfg)))
  \/ (exists payload f,
        parse_body b = Some payload /\ checked isEmail cfg payload = inr f
        /\ intake isEmail cfg e b w
           = store cfg e (createComplaintId (now_id e) (rnds e))
               (complaintDoc (createComplaintId (now_id e) (rnds e)) f (now_doc e))
               w).
Proof.
  unfold intake.
  destruct (parse_body b) as [payload|]; [|left; eauto 10].
  assert (forall r, checked isEmail cfg payload = inl r ->
            r = InvalidEmail cfg \/ r = MissingFields cfg
            \/ r = TitleTooShort cfg \/ r = DetailsTooShort cfg) as Hrej.
  { unfold checked, reporter_of. intros r.
    repeat case_match; intros; simplify_eq; auto. }
  destruct (checked isEmail cfg payload) as [r|f] eqn:Hc.
  - left. destruct (Hrej r eq_refl) as [->|[->|[->| ->]]];
      destruct payload; eauto 10.
  - destruct payload; right; by eauto 10.
Qed.

Lemma intake_rateMap e b w :
  rateMap (snd (intake isEmail cfg e b w)) = rateMap w.
Proof.
  destruct (intake_cases e b w) as [(o & -> & _)|(p & f & _ & _ & ->)]; [done|].
  apply store_rateMap.
Qed.

Lemma intake_not_limited e b w :
  fst (intake isEmail cfg e b w) <> Returned (RateLimited cfg).
Proof.
  destruct (intake_cases e b w) as [(o & -> & Ho)|(p & f & _ & _ & ->)].
  - simpl. intros ->. unfold RateLimited, InvalidPayload, InvalidEmail,
      MissingFields, TitleTooShort, DetailsTooShort, error in Ho.
    repeat (destruct Ho as [Ho|Ho]; [discriminate|]). discriminate.
  - intros Heq. destruct (store_rateMap e
      (createComplaintId (now_id e) (rnds e))
      (complaintDoc (createComplaintId (now_id e) (rnds e)) f (now_doc e)) w)
      as [_ [H|H]]; rewrite Heq in H; discriminate.
Qed.

(** What a call does to the rate map, and when it is answered 429. *)
Lemma handler_limiter e ev w :
  reaches_limiter cfg ev = true ->
  rateMap (snd (handler e ev w))
    = snd (isRateLimited (client_ip ev) (now_limiter e) (rateMap w))
  /\ (fst (handler e ev w) = Returned (RateLimited cfg)
      <-> fst (isRateLimited (client_ip ev) (now_limiter e) (rateMap w)) = true).
Proof.
  intros Hreach. rewrite (handler_pass _ _ _ Hreach). simpl.
  destruct (isRateLimited _ _ _) as [[] m]; simpl.
  - done.
  - rewrite intake_rateMap. split; [done|]. split; [|done].
    intros H. by apply intake_not_limited in H.
Qed.

(** Requests that are not calls of [k] leave the entry of [k] alone. *)
Lemma handler_other k e ev w :
  call_of cfg k ev = false ->
  rateMap (snd (handler e ev w)) !! k = rateMap w !! k.
Proof.
  unfold call_of. intros Hno.
  destruct (reaches_limiter cfg ev) eqn:Hreach; simpl in Hno.
  - destruct (handler_limiter e ev w Hreach) as [-> _].
    apply isRateLimited_other. by apply eqb_neq.
  - by destruct (handler_skip e ev w Hreach) as [-> _].
Qed.

Abbreviation serve := (serve isEmail cfg).

Lemma serve_cons e ev rest w :
  serve ((e, ev) :: rest) w
  = (fst (handler e ev w) :: fst (serve rest (snd (handler e ev w))),
     snd (serve rest (snd (handler e ev w)))).
Proof.
  simpl. destruct (SubmitComplaint.handler _ _ _ _ _) as [o w1]. simpl.
  by destruct (SubmitComplaint.serve _ _ _ _).
Qed.

(** Inside a window that holds [c] calls, the [i]-th further call of
    [k] is the [c + 1 + i]-th of the window, and is rejected exactly
    when that exceeds the ceiling. *)
Lemma serve_window k reqs : forall w c t1,
  rateMap w !! k = Some (Entry c t1) ->
  Forall (fun t => t - t1 <= RATE_LIMIT_WINDOW_MS) (call_times cfg k reqs) ->
  rateMap (snd (serve reqs w)) !! k
    = Some (Entry (c + Z.of_nat (length (call_times cfg k reqs))) t1)
  /\ forall (i : nat) o,
       call_outcomes cfg k reqs (fst (serve reqs w)) !! i = Some o ->
       (o = Returned (RateLimited cfg) <-> RATE_LIMIT_MAX < c + 1 + Z.of_nat i).
Proof.
  induction reqs as [|[e ev] rest IH]; intros w c t1 Hk Hin.
  - simpl. split; [by rewrite Z.add_0_r | intros i o H; by destruct i].
  - rewrite serve_cons. cbn [fst snd call_times call_outcomes] in *.
    destruct (call_of cfg k ev) eqn:Hcall.
    + apply Forall_cons in Hin as [Hnow Hrest].
      apply andb_true_iff in Hcall as [Hreach Hip]. apply eqb_eq in Hip.
      destruct (handler_limiter e ev w Hreach) as [Hm Hlim].
      rewrite Hip, (isRateLimited_within _ _ _ _ _ Hk Hnow) in Hm, Hlim.
      simpl in Hm, Hlim.
      destruct (IH (snd (handler e ev w)) (c + 1) t1) as [IHm IHo];
        [by rewrite Hm, lookup_insert_eq | done |].
      split.
      * rewrite IHm. f_equal. f_equal. simpl length. lia.
      * intros [|i] o Ho; simpl in Ho.
        -- injection Ho as <-. rewrite Hlim, Z.gtb_gt. lia.
        -- rewrite (IHo i o Ho). lia.
    + destruct (IH (snd (handler e ev w)) c t1) as [IHm IHo];
        [by rewrite handler_other | done |].
      by split.
Qed.

(** From the call that opens a window on. *)
Lemma serve_from_first k reqs : forall w t1 ts,
  call_times cfg k reqs = t1 :: ts ->
  opens_window (rateMap w) k t1 ->
  Forall (fun t => t - t1 <= RATE_LIMIT_WINDOW_MS) ts ->
  rateMap (snd (serve reqs w)) !! k
    = Some (Entry (Z.of_nat (length (t1 :: ts))) t1)
  /\ forall (i : nat) o,
       call_outcomes cfg k reqs (fst (serve reqs w)) !! i = Some o ->
       (o = Returned (RateLimited cfg) <-> RATE_LIMIT_MAX <= Z.of_nat i).
Proof.
  induction reqs as [|[e ev] rest IH]; intros w t1 ts Hts Hopen Hin; [done|].
  rewrite serve_cons. cbn [fst snd call_times call_outcomes] in *.
  destruct (call_of cfg k ev) eqn:Hcall.
  - injection Hts as <- Hts.
    apply andb_true_iff in Hcall as [Hreach Hip]. apply eqb_eq in Hip.
    destruct (handler_limiter e ev w Hreach) as [Hm Hlim].
    rewrite Hip, (isRateLimited_opens _ _ _ Hopen) in Hm, Hlim.
    simpl in Hm, Hlim.
    destruct (serve_window k rest (snd (handler e ev w)) 1 (now_limiter e))
      as [Wm Wo]; [by rewrite Hm, lookup_insert_eq | by rewrite Hts |].
    split.
    + rewrite Wm, Hts. f_equal. f_equal. simpl length. lia.
    + intros [|i] o Ho; simpl in Ho.
      * injection Ho as <-. rewrite Hlim. unfold RATE_LIMIT_MAX. split; [done | lia].
      * rewrite (Wo i o Ho). lia.
  - apply IH; [done | | done]. unfold opens_window. by rewrite handler_other.
Qed.

(** C2: for a caller key [k], take any run of requests in which the
    first call of [k] opens a window at [t1] (no entry yet, or the old
    window over) and every later call of [k] comes no more than 60
    seconds after [t1]. Then the calls of [k] are rejected with 429
    RateLimited from the 7th on, and only from the 7th on. A further
    call of [k] 61 seconds or more after [t1] is not rate-limited and
    leaves the entry of [k] with counter 1 and its own time as the
    window start. *)
Theorem rate_limit_window k reqs late_e late_ev w t1 ts :
  call_times cfg k reqs = t1 :: ts ->
  opens_window (rateMap w) k t1 ->
  Forall (fun t => t - t1 <= 60 * 1000) ts ->
  call_of cfg k late_ev = true ->
  now_limiter late_e - t1 >= 61 * 1000 ->
  (forall (i : nat) o,
     call_outcomes cfg k reqs (fst (serve reqs w)) !! i = Some o ->
     (o = Returned (RateLimited cfg) <-> (7 <= i + 1)%nat))
  /\ fst (handler late_e late_ev (snd (serve reqs w))) <> Returned (RateLimited cfg)
  /\ rateMap (snd (handler late_e late_ev (snd (serve reqs w)))) !! k
     = Some (Entry 1 (now_limiter late_e)).
Proof.
  intros Hts Hopen Hin Hcall Hlate.
  destruct (serve_from_first k reqs w t1 ts Hts Hopen Hin) as [Hm Ho].
  split.
  { intros i o H. rewrite (Ho i o H). unfold RATE_LIMIT_MAX. lia. }
  apply andb_true_iff in Hcall as [Hreach Hip]. apply eqb_eq in Hip.
  destruct (handler_limiter late_e late_ev (snd (serve reqs w)) Hreach)
    as [Hm' Hlim].
  rewrite Hip in Hm', Hlim.
  rewrite (isRateLimited_after_61s _ _ _ _ Hm) in Hm', Hlim by (simpl; lia).
  simpl in Hm', Hlim. split.
  - rewrite Hlim. discriminate.
  - by rewrite Hm', lookup_insert_eq.
Qed.

(** *** Rejections and storage *)

Lemma rejections_status r :
  r ∈ rejections cfg ->
  Response.statusCode r = 401 \/ Response.statusCode r = 429
  \/ Response.statusCode r = 400.
Proof.
  unfold rejections. rewrite !elem_of_cons, elem_of_nil.
  intros [->|[->|[->|[->|[->|[->|[->|[]]]]]]]]; simpl; auto.
Qed.

(** Unless the handler answers 201 or 500, it has not touched the
    database: nothing logged, nothing stored, no handle cached. *)
Lemma handler_database e ev w :
  status_of (fst (handler e ev w)) <> Some 201 ->
  status_of (fst (handler e ev w)) <> Some 500 ->
  dblog (snd (handler e ev w)) = dblog w
  /\ coll (snd (handler e ev w)) = coll w
  /\ cachedDb (snd (handler e ev w)) = cachedDb w.
Proof.
  destruct (reaches_limiter cfg ev) eqn:Hreach.
  2: { by destruct (handler_skip e ev w Hreach) as [-> _]. }
  rewrite (handler_pass e ev w Hreach). simpl.
  destruct (isRateLimited _ _ _) as [[] m]; simpl; [done|].
  destruct (intake_cases e (body ev) (set_rateMap m w))
    as [(o & -> & _)|(p & f & _ & _ & ->)]; [done|].
  intros H201 H500.
  by destruct (store_rateMap e (createComplaintId (now_id e) (rnds e))
    (complaintDoc (createComplaintId (now_id e) (rnds e)) f (now_doc e))
    (set_rateMap m w)) as [_ [H|H]].
Qed.

(** The submit handler only ever appends to the collection. *)
Lemma submit_appends e ev w :
  coll w `prefix_of` coll (snd (handler e ev w)).
Proof.
  destruct (reaches_limiter cfg ev) eqn:Hreach.
  2: { by destruct (handler_skip e ev w Hreach) as [-> _]. }
  rewrite (handler_pass e ev w Hreach). simpl.
  destruct (isRateLimited _ _ _) as [[] m]; simpl; [done|].
  destruct (intake_cases e (body ev) (set_rateMap m w))
    as [(o & -> & _)|(p & f & _ & _ & ->)]; [done|].
  unfold store.
  destruct (cachedDb _), (connect_ok e), (insert_ok e); simpl; try done;
    by apply prefix_app_r.
Qed.

(** C7: when the submit handler answers with one of its rejections
    (Unauthorized, RateLimited, InvalidPayload, InvalidEmail,
    MissingFields, TooShort for the title or the details), no
    database call has been attempted (the log of calls is as before:
    no connect, no insert), the stored collection is unchanged and no
    connection handle has been cached. *)
Theorem rejection_before_storage e ev w r :
  fst (handler e ev w) = Returned r ->
  r ∈ rejections cfg ->
  dblog (snd (handler e ev w)) = dblog w
  /\ coll (snd (handler e ev w)) = coll w
  /\ cachedDb (snd (handler e ev w)) = cachedDb w.
Proof.
  intros Hr Hrej. apply rejections_status in Hrej.
  apply handler_database; rewrite Hr; simpl; intros [= H]; lia.
Qed.

(** *** Payloads *)

(** C5, as the code has it: of the requests the limiter lets through,
    a non-empty body that is not well-formed JSON is rejected with
    InvalidPayload (400, "Invalid JSON"); a body that is valid JSON
    but a number, a string, a boolean or an array is rejected with
    MissingFields (400) instead, and so is an absent or empty body,
    which is read as [{}]. *)
Theorem non_object_body e ev w :
  reaches_limiter cfg ev = true ->
  fst (isRateLimited (client_ip ev) (now_limiter e) (rateMap w)) = false ->
  (body ev = Malformed -> fst (handler e ev w) = Returned (InvalidPayload cfg))
  /\ (forall v, body ev = Json v -> non_object v = true ->
        fst (handler e ev w) = Returned (MissingFields cfg))
  /\ (body ev = NoBody -> fst (handler e ev w) = Returned (MissingFields cfg)).
Proof.
  intros Hreach Hlim. rewrite (handler_pass e ev w Hreach). simpl.
  rewrite Hlim. unfold intake. split; [|split].
  - by intros ->.
  - intros v -> Hv. destruct v; try discriminate; done.
  - by intros ->.
Qed.

(** C4, as the code has it: when the request gets past the limiter,
    its body decodes to a payload whose [reporter] is an object, and
    [reporter.email] is, after sanitization, not empty and not an
    e-mail address, the answer is InvalidEmail (400) whatever the
    other fields are; in particular before the required fields are
    looked at. *)
Theorem invalid_email_rejected e ev w payload r :
  reaches_limiter cfg ev = true ->
  fst (isRateLimited (client_ip ev) (now_limiter e) (rateMap w)) = false ->
  parse_body (body ev) = Some payload ->
  get payload js:"reporter" = Some r ->
  truthy (Some r) && typeof_object (Some r) = true ->
  sanitizeString (get r js:"email") 254 <> [] ->
  isEmail (sanitizeString (get r js:"email") 254) = false ->
  fst (handler e ev w) = Returned (InvalidEmail cfg).
Proof.
  intros Hreach Hlim Hparse Hrep Hobj Hne Hbad.
  rewrite (handler_pass e ev w Hreach). simpl. rewrite Hlim.
  unfold intake. rewrite Hparse.
  assert (checked isEmail cfg payload = inl (InvalidEmail cfg)) as Hc.
  { unfold checked, reporter_of. rewrite Hrep, Hobj, Hbad.
    apply eqb_neq in Hne. by rewrite Hne. }
  rewrite Hc. by destruct payload.
Qed.

(** *** The reporter *)

Lemma reporter_of_props payload rep :
  reporter_of isEmail cfg payload = inr rep ->
  rep = if truthy (get payload js:"reporter")
           && typeof_object (get payload js:"reporter")
        then
          let field k := from_option (fun o => get o k) None
                           (get payload js:"reporter") in
          Some (nonempty_props
            [ (js:"name", sanitizeString (field js:"name") 100);
              (js:"email", sanitizeString (field js:"email") 254);
              (js:"username", sanitizeString (field js:"username") 100) ])
        else None.
Proof.
  unfold reporter_of. destruct (get payload js:"reporter") as [o|].
  - destruct (truthy (Some o) && typeof_object (Some o)); [|by intros [= <-]].
    destruct (negb _ && negb (isEmail _)); [done|]. intros [= <-].
    unfold nonempty_props. simpl. by rewrite app_nil_r.
  - by intros [= <-].
Qed.

(** C1, as the code has it: an accepted submission (201) appends one
    document to the collection, and that document has a [reporter]
    key exactly when [payload.reporter] is an object (truthy, of type
    object). The stored reporter holds those of name, email and
    username that are not empty after sanitization -- none at all,
    an empty object, when every one of them sanitizes to empty. *)
Theorem reporter_attached e ev w :
  status_of (fst (handler e ev w)) = Some 201 ->
  exists payload d,
    parse_body (body ev) = Some payload
    /\ coll (snd (handler e ev w)) = coll w ++ [d]
    /\ assoc js:"reporter" d
       = if truthy (get payload js:"reporter")
            && typeof_object (get payload js:"reporter")
         then
           let field k := from_option (fun o => get o k) None
                            (get payload js:"reporter") in
           Some (VObj (nonempty_props
             [ (js:"name", sanitizeString (field js:"name") 100);
               (js:"email", sanitizeString (field js:"email") 254);
               (js:"username", sanitizeString (field js:"username") 100) ]))
         else None.
Proof.
  intros H201.
  destruct (reaches_limiter cfg ev) eqn:Hreach.
  2: { destruct (handler_skip e ev w Hreach) as [_ H]. rewrite H201 in H.
       repeat (apply elem_of_cons in H as [H|H]; [discriminate|]).
       by apply elem_of_nil in H. }
  revert H201. rewrite (handler_pass e ev w Hreach). simpl.
  destruct (isRateLimited _ _ _) as [[] m]; simpl; [done|].
  destruct (intake_cases e (body ev) (set_rateMap m w))
    as [(o & -> & Ho)|(p & f & Hp & Hc & ->)].
  { simpl. intros H. exfalso.
    unfold InvalidPayload, InvalidEmail, MissingFields, TitleTooShort,
      DetailsTooShort, error in Ho.
    repeat (destruct Ho as [Ho|Ho]; [by subst o|]). by subst o. }
  intros H201. exists p.
  assert (reporter_of isEmail cfg p = inr (reporter f)) as Hrep.
  { revert Hc. unfold checked. destruct (reporter_of isEmail cfg p); [done|].
    repeat case_match; intros; by simplify_eq. }
  apply reporter_of_props in Hrep.
  revert H201. unfold store.
  destruct (cachedDb _), (connect_ok e), (insert_ok e); simpl; try done;
    intros _; eexists; (split; [done|]); (split; [done|]);
    unfold complaintDoc; rewrite Hrep;
    change (assoc js:"reporter" (?a :: ?b :: ?c :: ?d :: ?e' :: ?f' :: ?g :: ?h :: ?i :: ?l))
      with (assoc js:"reporter" l);
    by destruct (truthy _ && typeof_object _).
Qed.

End Handler.

(** *** Closed instances *)

Import Fixtures.

Abbreviation submit := (handler isEmail_shape cfg).

(** The end-to-end examples of the specification. *)

Example accepted_without_reporter :
  status_of (fst (submit (env_at 1700000000000 1) ev_good nothing)) = Some 201
  /\ coll (snd (submit (env_at 1700000000000 1) ev_good nothing))
     = [ [ (js:"_id", VOid 1);
           (js:"complaintId", VStr js:"COMP-loyw3v28-ABCD1234");
           (js:"department", VStr js:"CS");
           (js:"program", VStr js:"B.Tech");
           (js:"title", VStr js:"Broken AC");
           (js:"details",
             VStr js:"The AC in room 204 has been broken for two weeks.");
           (js:"status", VStr js:"pending");
           (js:"createdAt", VDate 1700000000000);
           (js:"updatedAt", VDate 1700000000000) ] ]
  /\ dblog (snd (submit (env_at 1700000000000 1) ev_good nothing))
     = Connect :: map InsertOne
         (map (drop 1) (coll (snd (submit (env_at 1700000000000 1) ev_good nothing)))).
Proof. by vm_compute. Qed.

Example title_too_short :
  fst (submit (env_at 0 1) ev_short_title nothing) = Returned (TitleTooShort cfg).
Proof. by vm_compute. Qed.

Example not_an_email :
  fst (submit (env_at 0 1)
         (post "1.2.3.4"
            (Json (complaint "Broken AC"
               (reporter [(js:"email", VStr js:"not-an-email")]))))
         nothing)
  = Returned (InvalidEmail cfg).
Proof. by vm_compute. Qed.

(** [payload.department] on a null payload throws, and nothing catches. *)
Example null_payload :
  fst (submit (env_at 0 1) (post "1.2.3.4" (Json VNull)) nothing) = Thrown.
Proof. by vm_compute. Qed.

Example malformed_body :
  fst (submit (env_at 0 1) (post "1.2.3.4" Malformed) nothing)
  = Returned (InvalidPayload cfg).
Proof. by vm_compute. Qed.

(** An absent body is read as [{}]. *)
Example absent_body :
  fst (submit (env_at 0 1) (post "1.2.3.4" NoBody) nothing)
  = Returned (MissingFields cfg).
Proof. by vm_compute. Qed.

(** C1 as stated fails: a payload whose reporter is the empty object is
    accepted and stored with a [reporter] key, although none of name,
    email and username is there. *)
Lemma empty_reporter_is_stored :
  status_of (fst (submit (env_at 0 1) ev_empty_reporter nothing)) = Some 201
  /\ sanitizeString (get (VObj []) js:"name") 100 = []
  /\ sanitizeString (get (VObj []) js:"email") 254 = []
  /\ sanitizeString (get (VObj []) js:"username") 100 = []
  /\ (assoc js:"reporter"
        <$> last (coll (snd (submit (env_at 0 1) ev_empty_reporter nothing))))
     = Some (Some (VObj [])).
Proof. by vm_compute. Qed.

Lemma reporter_attached_witness :
  status_of (fst (submit (env_at 0 1) ev_blank_name nothing)) = Some 201
  /\ exists payload d,
       parse_body (body ev_blank_name) = Some payload
       /\ coll (snd (submit (env_at 0 1) ev_blank_name nothing))
          = coll nothing ++ [d]
       /\ assoc js:"reporter" d
          = if truthy (get payload js:"reporter")
               && typeof_object (get payload js:"reporter")
            then
              let field k := from_option (fun o => get o k) None
                               (get payload js:"reporter") in
              Some (VObj (nonempty_props
                [ (js:"name", sanitizeString (field js:"name") 100);
                  (js:"email", sanitizeString (field js:"email") 254);
                  (js:"username", sanitizeString (field js:"username") 100) ]))
            else None.
Proof.
  split; [by vm_compute|].
  apply (reporter_attached isEmail_shape cfg (env_at 0 1) ev_blank_name nothing).
  by vm_compute.
Defined.

Example blank_name_is_dropped :
  (assoc js:"reporter"
     <$> last (coll (snd (submit (env_at 0 1) ev_blank_name nothing))))
  = Some (Some (VObj [(js:"username", VStr js:"kay")])).
Proof. by vm_compute. Qed.

(** C4 as stated fails: an e-mail of blanks only is no e-mail address,
    yet the complaint is accepted, because the check is skipped when
    nothing is left of the e-mail after sanitization. *)
Lemma blank_email_is_accepted :
  isEmail_shape js:"   " = false
  /\ fst (submit (env_at 0 1) ev_blank_email nothing) <> Returned (InvalidEmail cfg)
  /\ status_of (fst (submit (env_at 0 1) ev_blank_email nothing)) = Some 201.
Proof. split; [done|]. split; [vm_compute; discriminate | by vm_compute]. Qed.

Lemma invalid_email_rejected_witness :
  reaches_limiter cfg ev_bad_email = true
  /\ fst (isRateLimited (client_ip ev_bad_email) (now_limiter (env_at 0 1))
            (rateMap nothing)) = false
  /\ parse_body (body ev_bad_email) = Some only_bad_email
  /\ get only_bad_email js:"reporter" = Some bad_email
  /\ truthy (Some bad_email) && typeof_object (Some bad_email) = true
  /\ sanitizeString (get bad_email js:"email") 254 <> []
  /\ isEmail_shape (sanitizeString (get bad_email js:"email") 254) = false
  /\ fst (submit (env_at 0 1) ev_bad_email nothing) = Returned (InvalidEmail cfg).
Proof.
  repeat (split; [by vm_compute|]).
  apply (invalid_email_rejected isEmail_shape cfg (env_at 0 1) ev_bad_email
           nothing only_bad_email bad_email); by vm_compute.
Defined.

(** C5 as stated fails: the body [5] is valid JSON and no object, and
    the answer is MissingFields, not InvalidPayload. *)
Lemma bare_number_is_not_invalid_payload :
  fst (submit (env_at 0 1) ev_number nothing) = Returned (MissingFields cfg)
  /\ fst (submit (env_at 0 1) ev_number nothing) <> Returned (InvalidPayload cfg).
Proof. split; [by vm_compute | vm_compute; discriminate]. Qed.

Lemma non_object_body_witness :
  reaches_limiter cfg ev_number = true
  /\ fst (isRateLimited (client_ip ev_number) (now_limiter (env_at 0 1))
            (rateMap nothing)) = false
  /\ (body ev_number = Malformed ->
      fst (submit (env_at 0 1) ev_number nothing) = Returned (InvalidPayload cfg))
  /\ (forall v, body ev_number = Json v -> non_object v = true ->
      fst (submit (env_at 0 1) ev_number nothing) = Returned (MissingFields cfg))
  /\ (body ev_number = NoBody ->
      fst (submit (env_at 0 1) ev_number nothing) = Returned (MissingFields cfg)).
Proof.
  repeat (split; [by vm_compute|]).
  apply (non_object_body isEmail_shape cfg (env_at 0 1) ev_number nothing);
    by vm_compute.
Defined.

Lemma rejection_before_storage_witness :
  fst (submit (env_at 0 1) ev_short_title nothing) = Returned (TitleTooShort cfg)
  /\ TitleTooShort cfg ∈ rejections cfg
  /\ dblog (snd (submit (env_at 0 1) ev_short_title nothing)) = dblog nothing
  /\ coll (snd (submit (env_at 0 1) ev_short_title nothing)) = coll nothing
  /\ cachedDb (snd (submit (env_at 0 1) ev_short_title nothing)) = cachedDb nothing.
Proof.
  assert (TitleTooShort cfg ∈ rejections cfg) as Hin.
  { unfold rejections. do 5 apply list_elem_of_further. apply list_elem_of_here. }
  split; [by vm_compute|]. split; [exact Hin|].
  apply (rejection_before_storage isEmail_shape cfg (env_at 0 1) ev_short_title
           nothing (TitleTooShort cfg)); [by vm_compute | exact Hin].
Defined.

(** The burst: the first six calls of the caller are stored, the
    seventh and eighth are answered 429, at second 60 still. *)
Example burst_statuses :
  map status_of (fst (SubmitComplaint.serve isEmail_shape cfg burst nothing))
  = [ Some 201; Some 201; Some 201; Some 201; Some 201; Some 405; Some 201;
      Some 201; Some 429; Some 429 ].
Proof. by vm_compute. Qed.

Lemma rate_limit_window_witness :
  call_times cfg caller burst = 0 :: [1000; 2000; 3000; 4000; 5000; 60000; 60000]
  /\ opens_window (rateMap nothing) caller 0
  /\ Forall (fun t => t - 0 <= 60 * 1000) [1000; 2000; 3000; 4000; 5000; 60000; 60000]
  /\ call_of cfg caller ev_good = true
  /\ now_limiter (env_at 61000 11) - 0 >= 61 * 1000
  /\ (forall (i : nat) o,
        call_outcomes cfg caller burst
          (fst (SubmitComplaint.serve isEmail_shape cfg burst nothing)) !! i = Some o ->
        (o = Returned (RateLimited cfg) <-> (7 <= i + 1)%nat))
  /\ fst (submit (env_at 61000 11) ev_good
            (snd (SubmitComplaint.serve isEmail_shape cfg burst nothing)))
     <> Returned (RateLimited cfg)
  /\ rateMap (snd (submit (env_at 61000 11) ev_good
                     (snd (SubmitComplaint.serve isEmail_shape cfg burst nothing))))
       !! caller
     = Some (Entry 1 (now_limiter (env_at 61000 11))).
Proof.
  assert (Forall (fun t => t - 0 <= 60 * 1000)
            [1000; 2000; 3000; 4000; 5000; 60000; 60000]) as Hin.
  { repeat (constructor; [lia|]). constructor. }
  split; [by vm_compute|]. split; [by vm_compute|]. split; [exact Hin|].
  split; [by vm_compute|]. split; [simpl; lia|].
  apply (rate_limit_window isEmail_shape cfg caller burst (env_at 61000 11)
           ev_good nothing 0 [1000; 2000; 3000; 4000; 5000; 60000; 60000]);
    [by vm_compute | by vm_compute | exact Hin | by vm_compute | simpl; lia].
Defined.

End HandlerFacts.

(** ** Stored documents *)

Module DocFacts.
Import JsString JsStringFacts.

Lemma assoc_set_field_eq (k : jsstring) (v : value) (d : doc) :
  assoc k (set_field k v d) = Some v.
Proof.
  induction d as [|[k' v'] r IH]; simpl.
  - by rewrite eqb_refl.
  - destruct (eqb k' k) eqn:Hk; simpl; by rewrite Hk.
Qed.

Lemma assoc_set_field_ne (k k' : jsstring) (v : value) (d : doc) :
  k <> k' -> assoc k (set_field k' v d) = assoc k d.
Proof.
  intros Hne. induction d as [|[k0 v0] r IH]; simpl.
  - apply not_eq_sym, eqb_neq in Hne. by rewrite Hne.
  - destruct (eqb k0 k') eqn:Hk; simpl.
    + apply eqb_eq in Hk as ->. apply not_eq_sym, eqb_neq in Hne. by rewrite Hne.
    + by rewrite IH.
Qed.

Lemma has_id_set_status (o : oid) (v : value) (d : doc) :
  has_id o (set_field js:"status" v d) = has_id o d.
Proof. unfold has_id. by rewrite assoc_set_field_ne. Qed.


Lemma same_but_status_set (v : value) (d : doc) :
  same_but_status d (set_field js:"status" v d).
Proof. intros k Hk. by apply assoc_set_field_ne. Qed.


(** The document [updateOne] matched carries the new status. *)
Lemma updateOne_matched (o : oid) (v : value) (c : list doc) (d : doc) :
  findOne (has_id o) c = Some d ->
  findOne (has_id o) (updateOne (has_id o) js:"status" v c)
  = Some (set_field js:"status" v d).
Proof.
  unfold findOne. induction c as [|d0 r IH]; simpl; [done|].
  destruct (has_id o d0) eqn:Hd0; simpl.
  - intros [= <-]. by rewrite has_id_set_status, Hd0.
  - rewrite Hd0. exact IH.
Qed.

(** Without a match nothing changes. *)
Lemma updateOne_unmatched (f : doc -> bool) (k : jsstring) (v : value)
    (c : list doc) :
  findOne f c = None -> updateOne f k v c = c.
Proof.
  unfold findOne. induction c as [|d0 r IH]; simpl; [done|].
  destruct (f d0); [done|]. intros H. by rewrite IH.
Qed.


Lemma deleteOne_sublist (f : doc -> bool) (c : list doc) :
  sublist (deleteOne f c) c.
Proof.
  induction c as [|d r IH]; simpl; [constructor|].
  destruct (f d); [by apply sublist_cons | by apply sublist_skip].
Qed.

End DocFacts.

(** ** Status updates *)

Module UpdateFacts.
Import JsString JsStringFacts DocFacts UpdateComplaint Fixtures.

Section Handler.

Variable ObjectId : option value -> option oid.


Lemma set_status_ok a id status ok w o :
  connects a = true -> succeeds a = true -> ObjectId id = Some o ->
  coll (snd (set_status ObjectId a id status ok w))
  = updateOne (has_id o) js:"status" (bson_of status) (coll w).
Proof. unfold set_status. by intros -> -> ->. Qed.

Lemma handler_json a ev w v :
  body ev = Json v -> v <> VNull ->
  handler ObjectId a ev w
  = finally (set_status ObjectId a (get v js:"id")
               (status_of_action (get v js:"action"))
               (StringifyTemplate js:"Complaint "
                  (status_of_action (get v js:"action"))) w).
Proof. unfold handler. intros -> Hv. by destruct v. Qed.

Lemma handler_status_json a ev w v :
  body ev = Json v -> v <> VNull ->
  handler_status ObjectId a ev w
  = finally (set_status ObjectId a (get v js:"id") (get v js:"status")
               (success js:"Complaint updated") w).
Proof. unfold handler_status. intros -> Hv. by destruct v. Qed.



(** C6, as the code has it: a successful update writes, into the
    first complaint with the given identifier, the status "approved"
    for the action "approve", "rejected" for the action "reject" and
    otherwise the action itself as it was sent (null when there is
    none); the status the complaint had before is not looked at. *)
Theorem update_sets_any_status a ev w v o d :
  body ev = Json v -> v <> VNull ->
  connects a = true -> succeeds a = true ->
  ObjectId (get v js:"id") = Some o ->
  findOne (has_id o) (coll w) = Some d ->
  exists d',
    findOne (has_id o) (coll (snd (handler ObjectId a ev w))) = Some d'
    /\ same_but_status d d'
    /\ assoc js:"status" d'
       = Some (match get v js:"action" with
               | Some (VStr s) =>
                   if eqb s js:"approve" then VStr js:"approved"
                   else if eqb s js:"reject" then VStr js:"rejected"
                   else VStr s
               | Some other => other
               | None => VNull
               end).
Proof.
  intros Hbody Hv Hc Hs Ho Hd.
  exists (set_field js:"status"
            (bson_of (status_of_action (get v js:"action"))) d).
  split; [|split].
  - rewrite (handler_json a ev w v Hbody Hv). simpl.
    rewrite (set_status_ok _ _ _ _ _ o Hc Hs Ho). by apply updateOne_matched.
  - apply same_but_status_set.
  - rewrite assoc_set_field_eq. f_equal. unfold status_of_action.
    destruct (get v js:"action") as [[]|]; try done.
    simpl. by repeat case_match.
Qed.

(** The variant that takes the status stores it as it is. *)
Lemma update_status_stores v a ev w o d :
  body ev = Json v -> v <> VNull ->
  connects a = true -> succeeds a = true ->
  ObjectId (get v js:"id") = Some o ->
  findOne (has_id o) (coll w) = Some d ->
  findOne (has_id o) (coll (snd (handler_status ObjectId a ev w)))
  = Some (set_field js:"status" (bson_of (get v js:"status")) d).
Proof.
  intros Hbody Hv Hc Hs Ho Hd.
  rewrite (handler_status_json a ev w v Hbody Hv). simpl.
  rewrite (set_status_ok _ _ _ _ _ o Hc Hs Ho). by apply updateOne_matched.
Qed.

End Handler.

(** *** Closed instances *)

Abbreviation update := (handler ObjectId_hex up).

Example submitted_is_pending : statuses one_pending = [Some (VStr js:"pending")].
Proof. by vm_compute. Qed.

(** C6 as stated fails: starting from the one pending complaint of the
    example submission, "approve" and then "reject" moves it from
    approved to rejected, a further "pending" moves it back out of
    rejected, and the action "archived" stores a status outside the
    three. *)
Lemma status_leaves_approved :
  statuses (snd (update (ev_action "approve") one_pending))
    = [Some (VStr js:"approved")]
  /\ statuses (snd (update (ev_action "reject")
                 (snd (update (ev_action "approve") one_pending))))
     = [Some (VStr js:"rejected")]
  /\ statuses (snd (update (ev_action "pending")
                 (snd (update (ev_action "reject")
                    (snd (update (ev_action "approve") one_pending))))))
     = [Some (VStr js:"pending")]
  /\ statuses (snd (update (ev_action "archived") one_pending))
     = [Some (VStr js:"archived")].
Proof. by vm_compute. Qed.

Lemma update_sets_any_status_witness :
  body (ev_action "reject")
    = Json (VObj [(js:"id", VStr hex_one); (js:"action", VStr js:"reject")])
  /\ VObj [(js:"id", VStr hex_one); (js:"action", VStr js:"reject")] <> VNull
  /\ connects up = true /\ succeeds up = true
  /\ ObjectId_hex
       (get (VObj [(js:"id", VStr hex_one); (js:"action", VStr js:"reject")]) js:"id")
     = Some 1%N
  /\ findOne (has_id 1) (coll one_pending) = head (coll one_pending)
  /\ exists d',
       findOne (has_id 1) (coll (snd (update (ev_action "reject") one_pending)))
       = Some d'
       /\ same_but_status (default [] (head (coll one_pending))) d'
       /\ assoc js:"status" d'
          = Some (match get (VObj [(js:"id", VStr hex_one);
                                   (js:"action", VStr js:"reject")]) js:"action" with
                  | Some (VStr s) =>
                      if eqb s js:"approve" then VStr js:"approved"
                      else if eqb s js:"reject" then VStr js:"rejected"
                      else VStr s
                  | Some other => other
                  | None => VNull
                  end).
Proof.
  repeat (split; [by vm_compute|]).
  apply (update_sets_any_status ObjectId_hex up (ev_action "reject") one_pending
           (VObj [(js:"id", VStr hex_one); (js:"action", VStr js:"reject")]) 1%N
           (default [] (head (coll one_pending)))); by vm_compute.
Defined.

Example update_log :
  dblog (snd (update (ev_action "approve") nothing))
  = [Connect; UpdateOne 1 (VStr js:"approved"); Close].
Proof. by vm_compute. Qed.

(** An identifier the driver rejects: 500, nothing changed. *)
Example update_bad_id :
  Response.statusCode
    <$> (match fst (update (Event js:"POST" ∅ None
                          (Json (VObj [(js:"id", VStr js:"xyz")]))) one_pending) with
         | Returned r => Some r
         | Thrown => None
         end) = Some 500
  /\ coll (snd (update (Event js:"POST" ∅ None
                          (Json (VObj [(js:"id", VStr js:"xyz")]))) one_pending))
     = coll one_pending.
Proof. by vm_compute. Qed.

End UpdateFacts.

(** ** Deleting *)

Module DeleteFacts.
Import DocFacts DeleteComplaint.

(** Deleting removes at most one document and rewrites none. *)
Lemma delete_sublist ObjectId a ev w :
  sublist (coll (snd (handler ObjectId a ev w))) (coll w).
Proof.
  unfold handler, finally. simpl.
  destruct (body ev) as [| |v]; simpl; try done.
  destruct v; simpl; try done;
    (destruct (connects a); simpl; [|done]);
    (destruct (ObjectId _); [|done]);
    (destruct (succeeds a); simpl; [apply deleteOne_sublist | done]).
Qed.

End DeleteFacts.

(** ** Fetching by identifier *)

Module GetFacts.
Import JsString JsStringFacts GetComplaintById Fixtures.

Lemma defined_props_keys (l : list (jsstring * option value)) (k : jsstring) :
  k ∈ map fst (defined_props l) -> k ∈ map fst l.
Proof.
  induction l as [|[k' [v|]] r IH]; simpl; [done| |].
  - rewrite !elem_of_cons. intros [->|H]; auto.
  - rewrite elem_of_cons. auto.
Qed.

Lemma safe_fields_keys (complaint : doc) (k : jsstring) :
  k ∈ map fst (safe_fields complaint) -> k ∈ safe_names.
Proof. intros H. by apply defined_props_keys in H. Qed.

Lemma assoc_None_not_key (k : jsstring) (d : doc) :
  k ∉ map fst d -> assoc k d = None.
Proof.
  induction d as [|[k' v] r IH]; simpl; [done|].
  rewrite not_elem_of_cons. intros [Hne Hr].
  apply not_eq_sym, eqb_neq in Hne. rewrite Hne. by apply IH.
Qed.

Lemma status_or_pending_defined (status : option value) :
  exists v, status_or_pending status = Some v
    /\ (truthy status = false -> v = VStr js:"pending")
    /\ (truthy status = true -> status = Some v).
Proof.
  unfold status_or_pending. destruct (truthy status) eqn:Ht.
  - destruct status as [v|]; [|done]. by exists v.
  - by exists (VStr js:"pending").
Qed.

Lemma safe_fields_status (complaint : doc) :
  assoc js:"status" (safe_fields complaint)
  = status_or_pending (assoc js:"status" complaint).
Proof.
  unfold safe_fields.
  destruct (status_or_pending_defined (assoc js:"status" complaint))
    as (v & -> & _).
  by destruct (assoc js:"complaintId" complaint), (assoc js:"title" complaint),
    (assoc js:"createdAt" complaint).
Qed.

Lemma safe_fields_copied (complaint : doc) (k : jsstring) :
  k ∈ [js:"complaintId"; js:"title"; js:"createdAt"] ->
  assoc k (safe_fields complaint) = assoc k complaint.
Proof.
  unfold safe_fields.
  destruct (status_or_pending_defined (assoc js:"status" complaint))
    as (v & -> & _).
  rewrite !elem_of_cons, elem_of_nil. intros [->|[->|[->|[]]]];
    by destruct (assoc js:"complaintId" complaint),
      (assoc js:"title" complaint), (assoc js:"createdAt" complaint).
Qed.

Section Handler.

Variable matches : value -> doc -> bool.

(** Fetching never changes the collection. *)
Lemma fetch_reads_only a ev w :
  coll (snd (handler matches a ev w)) = coll w.
Proof.
  unfold handler, finally. simpl.
  destruct (body ev) as [| |v]; simpl; try done.
  destruct v; simpl; try done; repeat case_match; done.
Qed.

(** A 200 answer carries the safe fields of a stored complaint. *)
Lemma fetch_found a ev w r :
  fst (handler matches a ev w) = Returned r ->
  Response.statusCode r = 200 ->
  exists complaint,
    complaint ∈ coll w
    /\ Response.body r = Stringify (VObj (safe_fields complaint)).
Proof.
  unfold handler, finally. simpl.
  destruct (body ev) as [| |v]; simpl; try (by intros [= <-]).
  assert (forall q, findOne (matches q) (coll w) = None
            \/ exists c, findOne (matches q) (coll w) = Some c /\ c ∈ coll w)
    as Hfind.
  { intros q. unfold findOne. destruct (find _ _) as [c|] eqn:Hf; [|by left].
    right. exists c. split; [done|].
    apply list_elem_of_In. by apply find_some in Hf as [? _]. }
  destruct v; simpl; try (by intros [= <-]);
    repeat case_match; simpl; try (by intros [= <-]);
    intros [= <-] _;
    match goal with
    | H : findOne (matches ?q) _ = Some ?c |- _ =>
        destruct (Hfind q) as [Hn|(c' & Hc & Hin)];
          [congruence | exists c; split; [congruence | done]]
    end.
Qed.

(** C10: when the fetch handler of getComplaintById.js answers 200,
    the object it serializes is built from one stored complaint and
    has no property other than complaintId, title, status and
    createdAt (so never details, department, program or reporter);
    complaintId, title and createdAt are those of the stored
    complaint, and the status is "pending" when the stored complaint
    has no status field. *)
Theorem fetch_returns_safe_fields a ev w r :
  fst (handler matches a ev w) = Returned r ->
  Response.statusCode r = 200 ->
  exists complaint props,
    complaint ∈ coll w
    /\ Response.body r = Stringify (VObj props)
    /\ (forall k, k ∈ map fst props -> k ∈ safe_names)
    /\ (forall k, k ∈ [js:"details"; js:"department"; js:"program"; js:"reporter"] ->
          assoc k props = None)
    /\ (forall k, k ∈ [js:"complaintId"; js:"title"; js:"createdAt"] ->
          assoc k props = assoc k complaint)
    /\ (assoc js:"status" complaint = None ->
          assoc js:"status" props = Some (VStr js:"pending")).
Proof.
  intros Hr H200. destruct (fetch_found a ev w r Hr H200) as (c & Hin & Hbody).
  exists c, (safe_fields c). split; [done|]. split; [done|].
  split; [apply safe_fields_keys|]. split; [|split].
  - intros k Hk. apply assoc_None_not_key. intros Hkey.
    apply safe_fields_keys in Hkey. unfold safe_names in Hkey.
    rewrite !elem_of_cons, elem_of_nil in Hk, Hkey.
    destruct Hk as [->|[->|[->|[->|[]]]]];
      repeat (destruct Hkey as [Hkey|Hkey]; [discriminate|]); done.
  - apply safe_fields_copied.
  - intros Hnone. by rewrite safe_fields_status, Hnone.
Qed.

End Handler.

(** *** Closed instances *)

Abbreviation fetch := (handler matches_string up).

Example fetch_legacy :
  fst (fetch (ev_fetch "C-1") legacy_world)
  = Returned (Response.Make 200 []
      (Stringify (VObj [ (js:"complaintId", VStr js:"C-1");
                         (js:"title", VStr js:"Broken AC");
                         (js:"status", VStr js:"pending");
                         (js:"createdAt", VDate 1700000000000) ]))).
Proof. by vm_compute. Qed.

Example fetch_unknown :
  fst (fetch (ev_fetch "C-2") legacy_world)
  = Returned (error 404 "Complaint not found").
Proof. by vm_compute. Qed.

Example fetch_without_id :
  fst (fetch (Event js:"POST" ∅ None (Json five)) legacy_world)
  = Returned (error 400 "complaintId is required").
Proof. by vm_compute. Qed.

Lemma fetch_returns_safe_fields_witness :
  fst (fetch (ev_fetch "C-1") legacy_world)
    = Returned (Response.Make 200 []
        (Stringify (VObj (safe_fields legacy))))
  /\ Response.statusCode
       (Response.Make 200 [] (Stringify (VObj (safe_fields legacy)))) = 200
  /\ exists complaint props,
       complaint ∈ coll legacy_world
       /\ Response.body
            (Response.Make 200 [] (Stringify (VObj (safe_fields legacy))))
          = Stringify (VObj props)
       /\ (forall k, k ∈ map fst props -> k ∈ safe_names)
       /\ (forall k, k ∈ [js:"details"; js:"department"; js:"program"; js:"reporter"] ->
             assoc k props = None)
       /\ (forall k, k ∈ [js:"complaintId"; js:"title"; js:"createdAt"] ->
             assoc k props = assoc k complaint)
       /\ (assoc js:"status" complaint = None ->
             assoc js:"status" props = Some (VStr js:"pending")).
Proof.
  split; [by vm_compute|]. split; [done|].
  apply (fetch_returns_safe_fields matches_string up (ev_fetch "C-1")
           legacy_world); [by vm_compute | done].
Defined.

End GetFacts.

(** * Further properties *)

(** ** sanitizeString *)

Module SanitizeMore.
Import JsString JsStringFacts SubmitComplaint SanitizeFacts.

Lemma ltrim_sublist (s : jsstring) : ltrim s `sublist_of` s.
Proof.
  induction s as [|c r IH]; simpl; [done|].
  destruct (is_space c); [by apply sublist_cons | done].
Qed.

Lemma rtrim_sublist (s : jsstring) : rtrim s `sublist_of` s.
Proof.
  induction s as [|c r IH]; simpl; [done|].
  destruct (rtrim r) as [|c' r'].
  - destruct (is_space c); [apply sublist_nil_l|].
    apply sublist_skip, sublist_nil_l.
  - by apply sublist_skip.
Qed.

Lemma strip_nul_sublist (s : jsstring) : strip_nul s `sublist_of` s.
Proof.
  induction s as [|c r IH]; simpl; [done|].
  destruct (negb _); [by apply sublist_skip | by apply sublist_cons].
Qed.

Lemma slice0_sublist (s : jsstring) (e : Z) : slice0 s e `sublist_of` s.
Proof. unfold slice0. destruct (e <? 0); apply sublist_take. Qed.

Lemma sanitizeText_sublist (s : jsstring) (n : Z) : sanitizeText s n `sublist_of` s.
Proof.
  unfold sanitizeText.
  assert (strip_nul (trim s) `sublist_of` s) as H.
  { etrans; [apply strip_nul_sublist|]. unfold trim.
    etrans; [apply rtrim_sublist | apply ltrim_sublist]. }
  destruct (_ >? n); [|done]. etrans; [apply slice0_sublist | done].
Qed.

Lemma ltrim_same_length (s : jsstring) : length (ltrim s) = length s -> ltrim s = s.
Proof.
  destruct s as [|c r]; simpl; [done|].
  destruct (is_space c); [|done].
  pose proof (ltrim_length r). lia.
Qed.

Lemma rtrim_same_length (s : jsstring) : length (rtrim s) = length s -> rtrim s = s.
Proof.
  induction s as [|c r IH]; simpl; [done|].
  pose proof (rtrim_length r) as Hlen.
  destruct (rtrim r) as [|c' r'] eqn:Hr.
  - destruct (is_space c); simpl; [lia|]. destruct r; simpl; [done | lia].
  - simpl in *. intros H. rewrite IH by lia. done.
Qed.

Lemma trim_same_length (s : jsstring) : length (trim s) = length s -> trim s = s.
Proof.
  unfold trim. intros H.
  pose proof (rtrim_length (ltrim s)). pose proof (ltrim_length s).
  assert (ltrim s = s) as Hl by (apply ltrim_same_length; lia).
  rewrite Hl in *. by apply rtrim_same_length.
Qed.

(** X1: whatever the input, for a maximum length [n >= 0] the result of
    [sanitizeString] is at most [n] code units long and has no NUL in
    it; for a string input it is made of characters of the input in
    their order (nothing is added or moved), and for any other input it
    is the empty string. *)
Theorem sanitizeString_result (input : option value) (n : Z) :
  0 <= n ->
  Z.of_nat (length (sanitizeString input n)) <= n
  /\ Forall (fun c => c <> 0%N) (sanitizeString input n)
  /\ match input with
     | Some (VStr s) => sanitizeString input n `sublist_of` s
     | _ => sanitizeString input n = []
     end.
Proof.
  intros Hn. destruct input as [[]|]; simpl;
    try (split; [lia|]; split; [constructor | done]).
  split; [by apply sanitizeText_length|].
  split; [apply sanitizeText_no_nul | apply sanitizeText_sublist].
Qed.

Lemma sanitizeString_result_witness :
  0 <= 5
  /\ Z.of_nat (length (sanitizeString (str js:"  Broken AC ") 5)) <= 5
  /\ Forall (fun c => c <> 0%N) (sanitizeString (str js:"  Broken AC ") 5)
  /\ sanitizeString (str js:"  Broken AC ") 5 `sublist_of` js:"  Broken AC ".
Proof.
  split; [lia|]. apply (sanitizeString_result (str js:"  Broken AC ") 5). lia.
Defined.

(** X2: the strings [sanitizeString] returns unchanged are exactly the
    clean ones: for [n >= 0], [sanitizeString(s, n)] is [s] if and only
    if [s] has no white space at either end, no NUL, and at most [n]
    code units. *)
Theorem sanitizeString_fixed_points (s : jsstring) (n : Z) :
  0 <= n ->
  sanitizeString (str s) n = s
  <-> trim s = s /\ Forall (fun c => c <> 0%N) s /\ Z.of_nat (length s) <= n.
Proof.
  intros Hn. simpl. split.
  - intros Hfix.
    pose proof (sanitizeText_no_nul s n) as Hnul.
    pose proof (sanitizeText_length s n Hn) as Hlen.
    rewrite Hfix in Hnul, Hlen. split; [|done].
    apply trim_same_length.
    pose proof (trim_length s) as Ht.
    pose proof (sublist_length _ _ (strip_nul_sublist (trim s))) as Hs.
    assert (length (sanitizeText s n) <= length (strip_nul (trim s)))%nat as Hc.
    { unfold sanitizeText. destruct (_ >? n); [|done].
      apply sublist_length, slice0_sublist. }
    rewrite Hfix in Hc. lia.
  - intros (Ht & Hnul & Hlen). rewrite sanitizeText_trim; [done | done |].
    by rewrite Ht.
Qed.

Lemma sanitizeString_fixed_points_witness :
  0 <= 200
  /\ (sanitizeString (str js:"Broken AC") 200 = js:"Broken AC"
      <-> trim js:"Broken AC" = js:"Broken AC"
          /\ Forall (fun c => c <> 0%N) js:"Broken AC"
          /\ Z.of_nat (length js:"Broken AC") <= 200).
Proof.
  split; [lia | apply (sanitizeString_fixed_points js:"Broken AC" 200); lia].
Defined.

End SanitizeMore.

(** ** createComplaintId *)

Module IdMore.
Import JsString JsStringFacts SubmitComplaint IdFacts.

Lemma hex_value_upper (d : N) :
  (d < 16)%N -> hex_value (upper (digit_char d)) = Some d.
Proof.
  intros Hd. unfold digit_char, upper, hex_value.
  destruct (N.ltb_spec d 10).
  - replace ((97 <=? 48 + d) && (48 + d <=? 122))%N with false
      by (symmetry; apply andb_false_iff; left; apply N.leb_gt; lia).
    replace ((48 <=? 48 + d) && (48 + d <=? 57))%N with true
      by (symmetry; apply andb_true_iff; split; apply N.leb_le; lia).
    f_equal. lia.
  - replace ((97 <=? 87 + d) && (87 + d <=? 122))%N with true
      by (symmetry; apply andb_true_iff; split; apply N.leb_le; lia).
    replace ((48 <=? 87 + d - 32) && (87 + d - 32 <=? 57))%N with false
      by (symmetry; apply andb_false_iff; right; apply N.leb_gt; lia).
    replace ((97 <=? 87 + d - 32) && (87 + d - 32 <=? 102))%N with false
      by (symmetry; apply andb_false_iff; left; apply N.leb_gt; lia).
    replace ((65 <=? 87 + d - 32) && (87 + d - 32 <=? 70))%N with true
      by (symmetry; apply andb_true_iff; split; apply N.leb_le; lia).
    f_equal. lia.
Qed.

Lemma unhex_hex (bs : list N) :
  Forall (fun b => (b < 256)%N) bs ->
  unhex (toUpperCase (flat_map byteToHex bs)) = bs.
Proof.
  induction 1 as [|b bs Hb Hbs IH]; [done|].
  change (toUpperCase (flat_map byteToHex (b :: bs)))
    with (upper (digit_char (b / 16)) :: upper (digit_char (b mod 16))
            :: toUpperCase (flat_map byteToHex bs)).
  cbn [unhex]. rewrite IH, !hex_value_upper.
  - simpl. f_equal. pose proof (N.div_mod b 16). lia.
  - by apply N.mod_lt.
  - apply N.Div0.div_lt_upper_bound. lia.
Qed.

Lemma first4_bytes (rnds : list N) : Forall (fun b => (b < 256)%N) (first4 rnds).
Proof. unfold first4. repeat constructor; by apply N.mod_lt. Qed.

Lemma before_digits (ts rest : jsstring) :
  Forall (fun c => (Pattern.digit c || Pattern.lower c) = true) ts ->
  before 45 (ts ++ 45%N :: rest) = ts.
Proof.
  induction 1 as [|c ts Hc Hts IH]; simpl; [done|].
  rewrite IH. destruct (N.eqb_spec c 45) as [->|]; [|done].
  by vm_compute in Hc.
Qed.

(** The identifier is the prefix, the time, a dash and the four bytes. *)
Lemma createComplaintId_parts (now : Z) (rnds : list N) :
  createComplaintId now rnds
  = js:"COMP-" ++ toString36 now
    ++ 45%N :: toUpperCase (flat_map byteToHex (first4 rnds)).
Proof. unfold createComplaintId. by rewrite uuid_first_group. Qed.

Lemma decode_createComplaintId (now : Z) (rnds : list N) :
  0 <= now -> decode_id (createComplaintId now rnds) = (now, first4 rnds).
Proof.
  intros Hnow. rewrite createComplaintId_parts. unfold decode_id.
  change (drop 5 (js:"COMP-" ++ ?x)) with x.
  destruct (toString36_shape now Hnow) as [_ Hts].
  rewrite (before_digits _ _ Hts).
  rewrite toString36_value by done.
  replace (S (length (toString36 now))) with (length (toString36 now) + 1)%nat by lia.
  rewrite <- drop_drop, drop_app_length.
  change (drop 1 (45%N :: ?x)) with x.
  by rewrite unhex_hex by apply first4_bytes.
Qed.

(** X3: an identifier made at a time [now >= 0] can be read back: the
    digits between the prefix and the second dash are [now] in base 36,
    and the eight characters after it spell, in hexadecimal, the first
    four random bytes of the UUID. *)
Theorem complaintId_reads_back (now : Z) (rnds : list N) :
  0 <= now -> decode_id (createComplaintId now rnds) = (now, first4 rnds).
Proof. apply decode_createComplaintId. Qed.

Lemma complaintId_reads_back_witness :
  0 <= 1700000000000
  /\ decode_id (createComplaintId 1700000000000 [171; 205; 18; 52; 9; 9]%N)
     = (1700000000000, first4 [171; 205; 18; 52; 9; 9]%N).
Proof. split; [lia | apply complaintId_reads_back; lia]. Defined.

(** X4: two identifiers made at times [>= 0] are equal exactly when the
    millisecond is the same and the first four random bytes are the
    same: the other twelve bytes of the UUID play no part, so within one
    millisecond there are 2^32 identifiers. *)
Theorem complaintId_collision (now now' : Z) (rnds rnds' : list N) :
  0 <= now -> 0 <= now' ->
  createComplaintId now rnds = createComplaintId now' rnds'
  <-> now = now' /\ first4 rnds = first4 rnds'.
Proof.
  intros Hnow Hnow'. split.
  - intros Heq. apply (f_equal decode_id) in Heq.
    rewrite !decode_createComplaintId in Heq by done.
    split; congruence.
  - intros [-> Hb]. by rewrite !createComplaintId_parts, Hb.
Qed.

Lemma complaintId_collision_witness :
  0 <= 5 /\ 0 <= 5
  /\ (createComplaintId 5 [1; 2; 3; 4; 77]%N = createComplaintId 5 [257; 2; 3; 4]%N
      <-> 5 = 5 /\ first4 [1; 2; 3; 4; 77]%N = first4 [257; 2; 3; 4]%N).
Proof.
  split; [lia|]. split; [lia|].
  apply (complaintId_collision 5 5 [1; 2; 3; 4; 77]%N [257; 2; 3; 4]%N); lia.
Defined.

Example same_millisecond_same_id :
  createComplaintId 5 [1; 2; 3; 4; 77; 78]%N = createComplaintId 5 [1; 2; 3; 4; 0; 1]%N.
Proof. reflexivity. Qed.

End IdMore.

(** ** The format of the identifier *)

Module IdShape.
Import JsString JsStringFacts SubmitComplaint IdFacts IdMore MoreFixtures.

Lemma matches_seq_inv (a b : Pattern.t) (s : jsstring) :
  Pattern.matches (Pattern.Seq a b) s ->
  exists s1 s2, s = s1 ++ s2 /\ Pattern.matches a s1 /\ Pattern.matches b s2.
Proof. inversion 1; subst. eauto. Qed.

Lemma matches_lit_inv (l s : jsstring) :
  Pattern.matches (Pattern.Lit l) s -> s = l.
Proof. by inversion 1. Qed.

(** A match of [[...]+] starts with a character of the class. *)
Lemma matches_plus_class_head (p : N -> bool) (s : jsstring) :
  Pattern.matches (Pattern.Plus (Pattern.Class p)) s ->
  exists c r, s = c :: r /\ p c = true.
Proof.
  inversion 1 as [| | |a s0 Hc| a s1 s2 Hc Hrest| |]; subst;
    inversion Hc; subst; simpl; eauto.
Qed.

(** Before the epoch the time group starts with a sign, and the
    identifier is outside the pattern. *)
Lemma negative_clock_outside_pattern (now : Z) (rnds : list N) :
  now < 0 -> ~ Pattern.matches Pattern.complaint_id (createComplaintId now rnds).
Proof.
  intros Hneg Hm. rewrite createComplaintId_parts in Hm.
  unfold Pattern.complaint_id in Hm.
  apply matches_seq_inv in Hm as (s1 & s2 & Heq & H1 & H2).
  apply matches_lit_inv in H1 as ->. apply app_inv_head in Heq as <-.
  apply matches_seq_inv in H2 as (t1 & t2 & Heq & Ht1 & _).
  apply matches_plus_class_head in Ht1 as (c & r & -> & Hc).
  unfold toString36 in Heq.
  destruct (Z.ltb_spec now 0); [|lia].
  simpl in Heq. injection Heq as <- _. by vm_compute in Hc.
Qed.

Lemma uuid_first_eight (rnds : list N) :
  take 8 (uuidv4 rnds) = flat_map byteToHex (first4 rnds).
Proof. reflexivity. Qed.

(** C9, as the code has it: at a clock reading at or after the epoch the
    identifier built by [createComplaintId] is the prefix ["COMP"], the
    time in milliseconds in base 36 (digits [0-9a-z] that read back as
    the time) and a token of eight characters [0-9A-Z], joined by
    dashes, and so matches [COMP-[0-9a-z]+-[0-9A-Z]{8}]. The token is
    the first eight hexadecimal digits of the random UUID in upper case:
    it spells the first four random bytes. *)
Theorem createComplaintId_shape (now : Z) (rnds : list N) :
  0 <= now ->
  exists ts token,
    createComplaintId now rnds = js:"COMP-" ++ ts ++ js:"-" ++ token
    /\ ts = toString36 now
    /\ Z.of_N (of_radix 36 ts) = now
    /\ Pattern.matches
         (Pattern.Plus (Pattern.Class (fun c => Pattern.digit c || Pattern.lower c)))
         ts
    /\ token = toUpperCase (take 8 (uuidv4 rnds))
    /\ unhex token = first4 rnds
    /\ Pattern.matches
         (Pattern.Times 8 (Pattern.Class (fun c => Pattern.digit c || Pattern.upper c)))
         token
    /\ Pattern.matches Pattern.complaint_id (createComplaintId now rnds).
Proof.
  intros Hnow.
  exists (toString36 now), (toUpperCase (take 8 (uuidv4 rnds))).
  destruct (toString36_shape now Hnow) as [Hne Hts].
  rewrite uuid_first_eight.
  split; [apply createComplaintId_parts|]. split; [done|].
  split; [by apply toString36_value|].
  split; [by apply matches_plus_class|]. split; [done|].
  split; [apply unhex_hex, first4_bytes|].
  split; [|by apply createComplaintId_format].
  replace 8%nat with (length (toUpperCase (flat_map byteToHex (first4 rnds))))
    by by rewrite hex_bytes_length.
  apply matches_times_class, upper_hex_bytes, first4_bytes.
Qed.

Lemma createComplaintId_shape_witness :
  0 <= 1700000000000
  /\ exists ts token,
       createComplaintId 1700000000000 sixteen
       = js:"COMP-" ++ ts ++ js:"-" ++ token
       /\ ts = toString36 1700000000000
       /\ Z.of_N (of_radix 36 ts) = 1700000000000
       /\ Pattern.matches
            (Pattern.Plus
               (Pattern.Class (fun c => Pattern.digit c || Pattern.lower c)))
            ts
       /\ token = toUpperCase (take 8 (uuidv4 sixteen))
       /\ unhex token = first4 sixteen
       /\ Pattern.matches
            (Pattern.Times 8
               (Pattern.Class (fun c => Pattern.digit c || Pattern.upper c)))
            token
       /\ Pattern.matches Pattern.complaint_id
            (createComplaintId 1700000000000 sixteen).
Proof.
  split; [lia|].
  apply (createComplaintId_shape 1700000000000 sixteen).
  lia.
Defined.

(** C9 as stated fails: one millisecond before the epoch
    [Date.now().toString(36)] is ["-1"], the identifier is
    ["COMP--1-ABCD1234"], and the pattern has no place for the sign. *)
Lemma identifier_before_epoch :
  createComplaintId (-1) sixteen = js:"COMP--1-ABCD1234"
  /\ ~ Pattern.matches Pattern.complaint_id
         (createComplaintId (-1) sixteen).
Proof. split; [reflexivity | apply negative_clock_outside_pattern; lia]. Qed.

End IdShape.

(** ** The submit handler, further *)

Module SubmitMore.
Import JsString JsStringFacts SubmitComplaint SanitizeFacts LimiterFacts HandlerFacts.

Section Handler.

Variable isEmail : jsstring -> bool.
Variable cfg : config.

Abbreviation handler := (handler isEmail cfg).
Abbreviation checked := (checked isEmail cfg).
Abbreviation reporter_of := (reporter_of isEmail cfg).

(** The world the limiter hands on. *)
Abbreviation counted e ev w :=
  (set_rateMap (snd (isRateLimited (client_ip ev) (now_limiter e) (rateMap w))) w).

Abbreviation new_id e := (createComplaintId (now_id e) (rnds e)).

(** A request past the limiter with a decoded, non-null payload is
    decided by [checked]. *)
Lemma handler_validated e ev w payload :
  reaches_limiter cfg ev = true ->
  fst (isRateLimited (client_ip ev) (now_limiter e) (rateMap w)) = false ->
  parse_body (body ev) = Some payload -> payload <> VNull ->
  handler e ev w
  = match checked payload with
    | inl r => (Returned r, counted e ev w)
    | inr f => store cfg e (new_id e) (complaintDoc (new_id e) f (now_doc e))
                 (counted e ev w)
    end.
Proof.
  intros Hreach Hlim Hparse Hnull. rewrite (handler_pass _ _ e ev w Hreach).
  simpl. rewrite Hlim. unfold intake. rewrite Hparse. by destruct payload.
Qed.

Lemma sanitizeString_le (input : option value) (n : Z) :
  0 <= n ->
  Z.of_nat (length (sanitizeString input n)) <= n
  /\ Forall (fun c => c <> 0%N) (sanitizeString input n).
Proof.
  intros Hn. destruct input as [[]|]; simpl; try (split; [lia | constructor]).
  split; [by apply sanitizeText_length | apply sanitizeText_no_nul].
Qed.

Lemma sanitized_in_bounds (input : option value) (lo n : Z) :
  0 <= n -> lo <= Z.of_nat (length (sanitizeString input n)) ->
  in_bounds lo n (sanitizeString input n).
Proof.
  intros Hn Hlo. destruct (sanitizeString_le input n Hn). by repeat split.
Qed.

Lemma nonempty_length (s : jsstring) : s <> [] -> 1 <= Z.of_nat (length s).
Proof. destruct s; [done | simpl; lia]. Qed.

(** What [checked] lets through. *)
Lemma checked_inr payload f :
  checked payload = inr f ->
  reporter_of payload = inr (reporter f)
  /\ department f = sanitizeString (get payload js:"department") 100
  /\ program f = sanitizeString (get payload js:"program") 100
  /\ title f = sanitizeString (get payload js:"title") 200
  /\ details f = sanitizeString (get payload js:"details") 4000
  /\ department f <> [] /\ program f <> []
  /\ 5 <= Z.of_nat (length (title f)) /\ 10 <= Z.of_nat (length (details f)).
Proof.
  unfold SubmitComplaint.checked.
  destruct (reporter_of payload) as [r|rep]; [done|].
  destruct (eqb (sanitizeString (get payload js:"department") 100) []) eqn:Hd;
    [done|].
  destruct (eqb (sanitizeString (get payload js:"program") 100) []) eqn:Hp;
    [done|].
  destruct (eqb (sanitizeString (get payload js:"title") 200) []) eqn:Ht;
    [done|].
  destruct (eqb (sanitizeString (get payload js:"details") 4000) []) eqn:Hdt;
    [done|].
  simpl.
  destruct (Z.ltb_spec (Z.of_nat (length
    (sanitizeString (get payload js:"title") 200))) 5); [done|].
  destruct (Z.ltb_spec (Z.of_nat (length
    (sanitizeString (get payload js:"details") 4000))) 10); [done|].
  intros [= <-]. simpl. apply eqb_neq in Hd, Hp. by repeat split.
Qed.

(** How [store] ends. *)
Lemma store_cases e id d w :
  let connected := cachedDb w || connect_ok e in
  let calls := (if cachedDb w then [] else [Connect])
               ++ (if connected then [InsertOne d] else []) in
  dblog (snd (store cfg e id d w)) = dblog w ++ calls
  /\ cachedDb (snd (store cfg e id d w)) = connected
  /\ rateMap (snd (store cfg e id d w)) = rateMap w
  /\ if connected && insert_ok e then
       fst (store cfg e id d w)
       = Returned (Response.Make 201 (cors cfg)
           (Stringify (VObj
              [ (js:"success", VBool true);
                (js:"complaintId", VStr id);
                (js:"message", VStr js:"Complaint submitted successfully") ])))
       /\ coll (snd (store cfg e id d w))
          = coll w ++ [(js:"_id", VOid (fresh_id e)) :: d]
     else
       fst (store cfg e id d w)
       = Returned (error cfg 500 "Internal server error")
       /\ coll (snd (store cfg e id d w)) = coll w.
Proof.
  unfold store. destruct (cachedDb w) eqn:Hc, (connect_ok e), (insert_ok e);
    simpl; rewrite ?Hc, ?app_nil_r, <- ?app_assoc; done.
Qed.

(** The three ways the handler can end. *)
Lemma handler_ends e ev w :
  (reaches_limiter cfg ev = false /\ snd (handler e ev w) = w
   /\ status_of (fst (handler e ev w)) ∈ [Some 204; Some 405; Some 401])
  \/ (reaches_limiter cfg ev = true /\ snd (handler e ev w) = counted e ev w
      /\ status_of (fst (handler e ev w)) ∈ [Some 429; Some 400; None])
  \/ (reaches_limiter cfg ev = true
      /\ exists payload f,
           parse_body (body ev) = Some payload /\ checked payload = inr f
           /\ handler e ev w
              = store cfg e (new_id e) (complaintDoc (new_id e) f (now_doc e))
                  (counted e ev w)).
Proof.
  destruct (reaches_limiter cfg ev) eqn:Hreach.
  2: { left. by destruct (handler_skip isEmail cfg e ev w Hreach). }
  right. rewrite (handler_pass _ _ e ev w Hreach). simpl.
  destruct (isRateLimited _ _ _) as [[] m]; simpl.
  { left. split; [done|]. split; [done|]. set_solver. }
  destruct (intake_cases isEmail cfg e (body ev) (set_rateMap m w))
    as [(o & -> & Ho)|(p & f & Hp & Hc & ->)].
  - left. split; [done|]. split; [done|]. simpl.
    unfold InvalidPayload, InvalidEmail, MissingFields, TitleTooShort,
      DetailsTooShort, error in Ho.
    destruct Ho as [->|[->|[->|[->|[->| ->]]]]]; simpl;
      rewrite !elem_of_cons; auto.
  - right. split; [done|]. by exists p, f.
Qed.

(** An accepted request went through [checked] and [store]. *)
Lemma accepted_inv e ev w :
  status_of (fst (handler e ev w)) = Some 201 ->
  exists payload f,
    parse_body (body ev) = Some payload /\ checked payload = inr f
    /\ fst (handler e ev w)
       = Returned (Response.Make 201 (cors cfg)
           (Stringify (VObj
              [ (js:"success", VBool true);
                (js:"complaintId", VStr (new_id e));
                (js:"message", VStr js:"Complaint submitted successfully") ])))
    /\ coll (snd (handler e ev w))
       = coll w ++ [(js:"_id", VOid (fresh_id e))
                    :: complaintDoc (new_id e) f (now_doc e)].
Proof.
  intros H201.
  destruct (handler_ends e ev w)
    as [(_ & _ & H)|[(_ & _ & H)|(_ & p & f & Hp & Hc & Hs)]].
  - rewrite H201 in H.
    repeat (apply elem_of_cons in H as [H|H]; [discriminate|]).
    by apply elem_of_nil in H.
  - rewrite H201 in H.
    repeat (apply elem_of_cons in H as [H|H]; [discriminate|]).
    by apply elem_of_nil in H.
  - exists p, f. split; [done|]. split; [done|]. rewrite Hs in *.
    destruct (store_cases e (new_id e) (complaintDoc (new_id e) f (now_doc e))
                (counted e ev w)) as (_ & _ & _ & Hres).
    destruct (_ && insert_ok e).
    + by destruct Hres as [-> ->].
    + destruct Hres as [Hr _]. by rewrite Hr in H201.
Qed.

(** X5: a request past the limiter whose payload decodes, is not null
    and passes the reporter check, and in which department, program,
    title or details is empty after sanitization, is answered
    MissingFields (400); only the rate map has changed. *)
Theorem missing_field_rejected e ev w payload rep :
  reaches_limiter cfg ev = true ->
  fst (isRateLimited (client_ip ev) (now_limiter e) (rateMap w)) = false ->
  parse_body (body ev) = Some payload -> payload <> VNull ->
  reporter_of payload = inr rep ->
  sanitizeString (get payload js:"department") 100 = []
  \/ sanitizeString (get payload js:"program") 100 = []
  \/ sanitizeString (get payload js:"title") 200 = []
  \/ sanitizeString (get payload js:"details") 4000 = [] ->
  handler e ev w = (Returned (MissingFields cfg), counted e ev w).
Proof.
  intros Hreach Hlim Hparse Hnull Hrep Hempty.
  rewrite (handler_validated e ev w payload Hreach Hlim Hparse Hnull).
  unfold SubmitComplaint.checked. rewrite Hrep.
  replace (eqb (sanitizeString (get payload js:"department") 100) []
           || eqb (sanitizeString (get payload js:"program") 100) []
           || eqb (sanitizeString (get payload js:"title") 200) []
           || eqb (sanitizeString (get payload js:"details") 4000) [])
    with true; [done|].
  symmetry. rewrite !orb_true_iff, !eqb_eq. tauto.
Qed.

(** X6: with all four fields present after sanitization (and the
    reporter check passed), a title of fewer than 5 code units is
    answered TitleTooShort whatever the details are; with a title of 5
    or more, details of fewer than 10 are answered DetailsTooShort. *)
Theorem too_short_rejected e ev w payload rep :
  reaches_limiter cfg ev = true ->
  fst (isRateLimited (client_ip ev) (now_limiter e) (rateMap w)) = false ->
  parse_body (body ev) = Some payload -> payload <> VNull ->
  reporter_of payload = inr rep ->
  sanitizeString (get payload js:"department") 100 <> [] ->
  sanitizeString (get payload js:"program") 100 <> [] ->
  sanitizeString (get payload js:"title") 200 <> [] ->
  sanitizeString (get payload js:"details") 4000 <> [] ->
  (Z.of_nat (length (sanitizeString (get payload js:"title") 200)) < 5 ->
   fst (handler e ev w) = Returned (TitleTooShort cfg))
  /\ (5 <= Z.of_nat (length (sanitizeString (get payload js:"title") 200)) ->
      Z.of_nat (length (sanitizeString (get payload js:"details") 4000)) < 10 ->
      fst (handler e ev w) = Returned (DetailsTooShort cfg)).
Proof.
  intros Hreach Hlim Hparse Hnull Hrep Hd Hp Ht Hdt.
  rewrite (handler_validated e ev w payload Hreach Hlim Hparse Hnull).
  unfold SubmitComplaint.checked. rewrite Hrep.
  apply eqb_neq in Hd, Hp, Ht, Hdt. rewrite Hd, Hp, Ht, Hdt. simpl. split.
  - intros Hshort.
    by destruct (Z.ltb_spec (Z.of_nat (length
         (sanitizeString (get payload js:"title") 200))) 5); [|lia].
  - intros Hlong Hshort.
    destruct (Z.ltb_spec (Z.of_nat (length
      (sanitizeString (get payload js:"title") 200))) 5); [lia|].
    by destruct (Z.ltb_spec (Z.of_nat (length
         (sanitizeString (get payload js:"details") 4000))) 10); [|lia].
Qed.

(** X7: an accepted submission (201) appends exactly one record. The
    complaintId in the answer is the one stored, the identifier built by
    [createComplaintId]; the record has the [_id] the driver gave it,
    status "pending", and createdAt and updatedAt equal to the same
    reading of the clock. *)
Theorem accepted_record e ev w :
  status_of (fst (handler e ev w)) = Some 201 ->
  exists d,
    coll (snd (handler e ev w)) = coll w ++ [d]
    /\ fst (handler e ev w)
       = Returned (Response.Make 201 (cors cfg)
           (Stringify (VObj
              [ (js:"success", VBool true);
                (js:"complaintId", VStr (createComplaintId (now_id e) (rnds e)));
                (js:"message", VStr js:"Complaint submitted successfully") ])))
    /\ assoc js:"_id" d = Some (VOid (fresh_id e))
    /\ assoc js:"complaintId" d
       = Some (VStr (createComplaintId (now_id e) (rnds e)))
    /\ assoc js:"status" d = Some (VStr js:"pending")
    /\ assoc js:"createdAt" d = Some (VDate (now_doc e))
    /\ assoc js:"updatedAt" d = Some (VDate (now_doc e)).
Proof.
  intros H201.
  destruct (accepted_inv e ev w H201) as (p & f & _ & _ & Hr & Hc).
  eexists. split; [exact Hc|]. split; [exact Hr|]. by repeat split.
Qed.

(** X8: the record of an accepted submission keeps the bounds of the
    data model: department and program are strings of 1 to 100 code
    units, the title of 5 to 200, the details of 10 to 4000, none with a
    NUL in it. *)
Theorem stored_fields_in_bounds e ev w :
  status_of (fst (handler e ev w)) = Some 201 ->
  exists d department program title details,
    coll (snd (handler e ev w)) = coll w ++ [d]
    /\ assoc js:"department" d = Some (VStr department)
    /\ assoc js:"program" d = Some (VStr program)
    /\ assoc js:"title" d = Some (VStr title)
    /\ assoc js:"details" d = Some (VStr details)
    /\ in_bounds 1 100 department /\ in_bounds 1 100 program
    /\ in_bounds 5 200 title /\ in_bounds 10 4000 details.
Proof.
  intros H201.
  destruct (accepted_inv e ev w H201) as (p & f & _ & Hchk & _ & Hc).
  destruct (checked_inr p f Hchk)
    as (_ & Hd & Hp & Ht & Hdt & Hdne & Hpne & Htlen & Hdtlen).
  exists ((js:"_id", VOid (fresh_id e)) :: complaintDoc (new_id e) f (now_doc e)),
    (department f), (program f), (title f), (details f).
  split; [exact Hc|]. do 4 (split; [done|]).
  apply nonempty_length in Hdne, Hpne.
  rewrite Hd, Hp, Ht, Hdt in *.
  repeat split; try (by apply sanitized_in_bounds; [lia | done]);
    apply sanitizeString_le; lia.
Qed.

(** What [reporter_of] attaches. *)
Lemma reporter_of_attached payload props :
  reporter_of payload = inr (Some props) ->
  exists r,
    get payload js:"reporter" = Some r
    /\ props = nonempty_props
         [ (js:"name", sanitizeString (get r js:"name") 100);
           (js:"email", sanitizeString (get r js:"email") 254);
           (js:"username", sanitizeString (get r js:"username") 100) ]
    /\ (sanitizeString (get r js:"email") 254 <> [] ->
        isEmail (sanitizeString (get r js:"email") 254) = true).
Proof.
  unfold SubmitComplaint.reporter_of.
  destruct (get payload js:"reporter") as [r|]; [|done].
  destruct (truthy (Some r) && typeof_object (Some r)); [|done].
  destruct (negb (eqb (sanitizeString (get r js:"email") 254) [])
            && negb (isEmail (sanitizeString (get r js:"email") 254))) eqn:Hbad;
    [done|].
  intros [= <-]. exists r. split; [done|]. split.
  - unfold nonempty_props. simpl. by rewrite app_nil_r.
  - intros Hne. apply eqb_neq in Hne. rewrite Hne in Hbad. simpl in Hbad.
    by apply negb_false_iff in Hbad.
Qed.

(** X9: the reporter stored with an accepted submission is built from
    an allow-list: its only properties are name, email and username,
    each a non-empty sanitized string (of at most 100, 254 and 100 code
    units), and a stored email has passed [validator.isEmail]. Nothing
    else the client put into [reporter] is kept. *)
Theorem stored_reporter_allow_listed e ev w :
  status_of (fst (handler e ev w)) = Some 201 ->
  exists d,
    coll (snd (handler e ev w)) = coll w ++ [d]
    /\ forall props,
         assoc js:"reporter" d = Some (VObj props) ->
         Forall (fun p => exists s,
                   snd p = VStr s
                   /\ (fst p = js:"name" /\ in_bounds 1 100 s
                       \/ fst p = js:"email" /\ in_bounds 1 254 s
                          /\ isEmail s = true
                       \/ fst p = js:"username" /\ in_bounds 1 100 s))
           props.
Proof.
  intros H201.
  destruct (accepted_inv e ev w H201) as (p & f & _ & Hchk & _ & Hc).
  eexists. split; [exact Hc|]. intros props.
  change (assoc js:"reporter" _)
    with (assoc js:"reporter" match reporter f with
                              | Some r => [(js:"reporter", VObj r)]
                              | None => []
                              end).
  destruct (checked_inr p f Hchk) as (Hrep & _).
  destruct (reporter f) as [r0|]; [|done]. intros [= ->].
  destruct (reporter_of_attached p props Hrep) as (r & _ & -> & Hmail).
  unfold nonempty_props. simpl.
  repeat match goal with
         | |- context [eqb ?s []] => destruct (eqb s []) eqn:?
         end; simpl;
    repeat (apply Forall_cons; split; [|]); try apply Forall_nil;
    eexists; (split; [reflexivity|]); simpl.
  all: try (left; split; [done|]; apply sanitized_in_bounds; [lia|];
            by apply nonempty_length, eqb_neq).
  all: try (right; right; split; [done|]; apply sanitized_in_bounds; [lia|];
            by apply nonempty_length, eqb_neq).
  all: right; left; split; [done|]; split;
    [apply sanitized_in_bounds; [lia|]; by apply nonempty_length, eqb_neq
    | by apply Hmail, eqb_neq].
Qed.

(** X10: when the answer is 500, validation had passed and a database
    call was rejected. Either no handle was cached and the connect was
    rejected: then no insert was attempted and the collection is as
    before. Or the insert of the complaint's document was the last call
    made, and it was rejected. The body is the fixed text
    "Internal server error". *)
Theorem server_error_database_failed e ev w :
  status_of (fst (handler e ev w)) = Some 500 ->
  fst (handler e ev w) = Returned (error cfg 500 "Internal server error")
  /\ exists payload f,
       parse_body (body ev) = Some payload /\ checked payload = inr f
       /\ (cachedDb w = false /\ connect_ok e = false
           /\ dblog (snd (handler e ev w)) = dblog w ++ [Connect]
           /\ coll (snd (handler e ev w)) = coll w
           \/ (cachedDb w = true \/ connect_ok e = true) /\ insert_ok e = false
              /\ last (dblog (snd (handler e ev w)))
                 = Some (InsertOne
                           (complaintDoc (createComplaintId (now_id e) (rnds e))
                              f (now_doc e)))).
Proof.
  intros H500.
  destruct (handler_ends e ev w)
    as [(_ & _ & H)|[(_ & _ & H)|(_ & p & f & Hp & Hc & Hs)]].
  - rewrite H500 in H.
    repeat (apply elem_of_cons in H as [H|H]; [discriminate|]).
    by apply elem_of_nil in H.
  - rewrite H500 in H.
    repeat (apply elem_of_cons in H as [H|H]; [discriminate|]).
    by apply elem_of_nil in H.
  - rewrite Hs in *.
    destruct (store_cases e (new_id e) (complaintDoc (new_id e) f (now_doc e))
                (counted e ev w)) as (Hlog & _ & _ & Hres).
    simpl in Hlog, Hres. rewrite Hlog.
    destruct (cachedDb w) eqn:Hcached, (connect_ok e) eqn:Hconn,
      (insert_ok e) eqn:Hins; simpl in Hres;
      destruct Hres as [Hr Hcoll]; rewrite Hr in *; try discriminate;
      (split; [done|]); exists p, f; (split; [done|]); (split; [done|]);
      simpl; rewrite ?app_nil_r;
      first [ left; by repeat split
            | right; split; [auto|]; split; [done|]; by rewrite last_app ].
Qed.




(** X12: the answers 204, 405 and 401 are those of the requests that
    never reach the limiter, and such a request leaves the whole state
    as it was: a wrong secret or a wrong method is not counted against
    the caller. *)
Theorem unchecked_requests_change_nothing e ev w :
  (status_of (fst (handler e ev w)) ∈ [Some 204; Some 405; Some 401]
   <-> reaches_limiter cfg ev = false)
  /\ (reaches_limiter cfg ev = false -> snd (handler e ev w) = w).
Proof.
  destruct (handler_ends e ev w)
    as [(Hr & Hw & H)|[(Hr & _ & H)|(Hr & p & f & _ & _ & Hs)]].
  - rewrite Hr. by split.
  - rewrite Hr. split; [|done]. split; [|done]. intros H'.
    rewrite !elem_of_cons, elem_of_nil in H, H'.
    destruct H as [H|[H|[H|[]]]]; rewrite H in H'; intuition discriminate.
  - rewrite Hr. split; [|done]. split; [|done]. rewrite Hs.
    destruct (store_cases e (new_id e) (complaintDoc (new_id e) f (now_doc e))
                (counted e ev w)) as (_ & _ & _ & Hres).
    destruct (_ && insert_ok e); destruct Hres as [-> _]; simpl;
      rewrite !elem_of_cons, elem_of_nil; intuition discriminate.
Qed.

(** *** Runs of requests *)

Abbreviation serve := (SubmitComplaint.serve isEmail cfg).

Lemma accepted_status o :
  accepted o = true <-> status_of o = Some 201.
Proof. unfold accepted. apply bool_decide_eq_true. Qed.

Lemma handler_cached e ev w :
  cachedDb w = true ->
  cachedDb (snd (handler e ev w)) = true
  /\ exists ins, dblog (snd (handler e ev w)) = dblog w ++ map InsertOne ins.
Proof.
  intros Hc.
  destruct (handler_ends e ev w)
    as [(_ & -> & _)|[(_ & -> & _)|(_ & p & f & _ & _ & ->)]].
  - split; [done|]. exists []. by rewrite app_nil_r.
  - split; [done|]. exists []. simpl. by rewrite app_nil_r.
  - destruct (store_cases e (new_id e) (complaintDoc (new_id e) f (now_doc e))
                (counted e ev w)) as (Hlog & Hcache & _).
    simpl in Hlog, Hcache. rewrite Hc in Hlog, Hcache. simpl in Hlog, Hcache.
    split; [done|]. by eexists [_].
Qed.

(** X13: once a connection is cached, no later invocation connects
    again: over any run of requests the handle stays cached and the only
    database calls made are inserts. *)
Theorem cached_never_reconnects reqs w :
  cachedDb w = true ->
  cachedDb (snd (serve reqs w)) = true
  /\ exists ins, dblog (snd (serve reqs w)) = dblog w ++ map InsertOne ins.
Proof.
  revert w. induction reqs as [|[e ev] rest IH]; intros w Hc.
  - split; [done|]. exists []. simpl. by rewrite app_nil_r.
  - rewrite serve_cons. simpl.
    destruct (handler_cached e ev w Hc) as (Hc1 & ins1 & Hl1).
    destruct (IH _ Hc1) as (Hc2 & ins2 & Hl2).
    split; [done|]. exists (ins1 ++ ins2).
    by rewrite Hl2, Hl1, map_app, app_assoc.
Qed.

Lemma handler_count e ev w :
  length (coll (snd (handler e ev w)))
  = (length (coll w) + if accepted (fst (handler e ev w)) then 1 else 0)%nat.
Proof.
  assert (forall o (l : list (option Z)),
            status_of o ∈ l -> Some 201 ∉ l -> accepted o = false) as Hno.
  { intros o l Hin Hnot. apply not_true_is_false. intros Ha.
    apply accepted_status in Ha. by rewrite Ha in Hin. }
  destruct (handler_ends e ev w)
    as [(_ & Hw & H)|[(_ & Hw & H)|(_ & p & f & _ & _ & Hs)]].
  - rewrite (Hno _ _ H), Hw; [lia|].
    rewrite !not_elem_of_cons. repeat split; try discriminate. apply not_elem_of_nil.
  - rewrite (Hno _ _ H), Hw; [simpl; lia|].
    rewrite !not_elem_of_cons. repeat split; try discriminate. apply not_elem_of_nil.
  - rewrite Hs.
    destruct (store_cases e (new_id e) (complaintDoc (new_id e) f (now_doc e))
                (counted e ev w)) as (_ & _ & _ & Hres).
    destruct (_ && insert_ok e); destruct Hres as [-> ->]; simpl.
    + rewrite length_app. simpl. lia.
    + lia.
Qed.

(** X14: over any run of requests the collection grows by exactly one
    record per 201 answer, and by nothing else. *)
Theorem one_record_per_201 reqs w :
  length (coll (snd (serve reqs w)))
  = (length (coll w) + length (List.filter accepted (fst (serve reqs w))))%nat.
Proof.
  revert w. induction reqs as [|[e ev] rest IH]; intros w.
  - simpl. lia.
  - rewrite serve_cons. cbn [fst snd List.filter].
    rewrite IH, handler_count.
    destruct (accepted (fst (handler e ev w))); simpl; lia.
Qed.

(** X15: the limiter keeps callers apart: a run of requests none of
    which is a call of [k] (other callers, other methods, wrong secret)
    leaves the counter and window of [k] as they were. *)
Theorem other_callers_do_not_count k reqs w :
  Forall (fun r => call_of cfg k (snd r) = false) reqs ->
  rateMap (snd (serve reqs w)) !! k = rateMap w !! k.
Proof.
  revert w. induction reqs as [|[e ev] rest IH]; intros w Hall; [done|].
  apply Forall_cons in Hall as [Hno Hrest]. simpl in Hno.
  rewrite serve_cons. simpl. rewrite IH by done.
  by apply handler_other.
Qed.

Lemma handler_keeps_keys e ev w k :
  is_Some (rateMap w !! k) -> is_Some (rateMap (snd (handler e ev w)) !! k).
Proof.
  intros Hk. destruct (reaches_limiter cfg ev) eqn:Hreach.
  - destruct (handler_limiter isEmail cfg e ev w Hreach) as [-> _].
    unfold isRateLimited. destruct (_ >? RATE_LIMIT_WINDOW_MS); simpl;
      rewrite lookup_insert_is_Some; destruct (decide (client_ip ev = k)); auto.
  - by destruct (handler_skip isEmail cfg e ev w Hreach) as [-> _].
Qed.

Lemma handler_adds_key e ev w :
  reaches_limiter cfg ev = true ->
  is_Some (rateMap (snd (handler e ev w)) !! client_ip ev).
Proof.
  intros Hreach.
  destruct (handler_limiter isEmail cfg e ev w Hreach) as [-> _].
  unfold isRateLimited. destruct (_ >? RATE_LIMIT_WINDOW_MS); simpl;
    rewrite lookup_insert_is_Some; auto.
Qed.

Lemma serve_keeps_keys reqs w k :
  is_Some (rateMap w !! k) -> is_Some (rateMap (snd (serve reqs w)) !! k).
Proof.
  revert w. induction reqs as [|[e ev] rest IH]; intros w Hk; [done|].
  rewrite serve_cons. simpl. by apply IH, handler_keeps_keys.
Qed.

(** X16: the rate map only grows: over any run of requests every key
    it held is still there at the end, and so is the key of every
    request that reached the limiter. No entry is ever removed, however
    old its window. *)
Theorem rate_map_never_forgets reqs w :
  (forall k, is_Some (rateMap w !! k) ->
             is_Some (rateMap (snd (serve reqs w)) !! k))
  /\ (forall e ev, (e, ev) ∈ reqs -> reaches_limiter cfg ev = true ->
        is_Some (rateMap (snd (serve reqs w)) !! client_ip ev)).
Proof.
  split; [intros k; apply serve_keeps_keys|].
  revert w. induction reqs as [|[e0 ev0] rest IH]; intros w e ev Hin Hreach.
  - by apply elem_of_nil in Hin.
  - rewrite serve_cons. simpl. apply elem_of_cons in Hin as [[= -> ->]|Hin].
    + by apply serve_keeps_keys, handler_adds_key.
    + by apply (IH _ e ev).
Qed.

(** X17: every answer of the submit handler carries the same four CORS
    headers, and the allowed origin among them is ["*"] or one of the
    configured origins: it is never taken from the request. *)
Theorem answers_carry_cors e ev w r :
  fst (handler e ev w) = Returned r ->
  Response.headers r = cors cfg
  /\ exists origin,
       assoc js:"Access-Control-Allow-Origin" (cors cfg) = Some origin
       /\ (origin = js:"*" \/ origin ∈ ALLOWED_ORIGINS cfg).
Proof.
  intros Hr. split.
  - revert Hr. destruct (reaches_limiter cfg ev) eqn:Hreach.
    + rewrite (handler_pass _ _ e ev w Hreach). simpl.
      destruct (isRateLimited _ _ _) as [[] m]; simpl; [by intros [= <-]|].
      destruct (intake_cases isEmail cfg e (body ev) (set_rateMap m w))
        as [(o & -> & Ho)|(p & f & _ & _ & ->)].
      * simpl. intros ->.
        destruct Ho as [|[|[|[|[|]]]]]; by simplify_eq.
      * destruct (store_cases e (new_id e)
                    (complaintDoc (new_id e) f (now_doc e)) (set_rateMap m w))
          as (_ & _ & _ & Hres).
        destruct (_ && insert_ok e); destruct Hres as [-> _]; by intros [= <-].
    + unfold SubmitComplaint.handler, reaches_limiter in *.
      destruct (eqb (httpMethod ev) js:"OPTIONS"); [by intros [= <-]|].
      destruct (eqb (httpMethod ev) js:"POST"); simpl in *; [|by intros [= <-]].
      apply negb_false_iff in Hreach. rewrite Hreach. by intros [= <-].
  - unfold cors.
    change (assoc js:"Access-Control-Allow-Origin" (_ :: (_, ?o) :: _))
      with (Some o).
    eexists. split; [reflexivity|].
    destruct (bool_decide _); [by left|].
    destruct (ALLOWED_ORIGINS cfg) as [|[|c s] rest]; simpl; [by left..|].
    right. apply list_elem_of_here.
Qed.

End Handler.

(** *** Closed instances *)

Import Fixtures MoreFixtures.

Lemma missing_field_rejected_witness :
  reaches_limiter cfg ev_no_title = true
  /\ fst (isRateLimited (client_ip ev_no_title) (now_limiter (env_at 0 1))
            (rateMap nothing)) = false
  /\ parse_body (body ev_no_title) = Some no_title
  /\ no_title <> VNull
  /\ SubmitComplaint.reporter_of isEmail_shape cfg no_title = inr None
  /\ (sanitizeString (get no_title js:"department") 100 = []
      \/ sanitizeString (get no_title js:"program") 100 = []
      \/ sanitizeString (get no_title js:"title") 200 = []
      \/ sanitizeString (get no_title js:"details") 4000 = [])
  /\ submit (env_at 0 1) ev_no_title nothing
     = (Returned (MissingFields cfg),
        set_rateMap
          (snd (isRateLimited (client_ip ev_no_title) (now_limiter (env_at 0 1))
                  (rateMap nothing))) nothing).
Proof.
  assert (sanitizeString (get no_title js:"department") 100 = []
          \/ sanitizeString (get no_title js:"program") 100 = []
          \/ sanitizeString (get no_title js:"title") 200 = []
          \/ sanitizeString (get no_title js:"details") 4000 = []) as Hempty.
  { right. right. left. by vm_compute. }
  do 5 (split; [by vm_compute|]). split; [exact Hempty|].
  apply (missing_field_rejected isEmail_shape cfg (env_at 0 1) ev_no_title nothing
           no_title None); try (by vm_compute); exact Hempty.
Defined.

Lemma too_short_rejected_witness :
  reaches_limiter cfg ev_short_both = true
  /\ fst (isRateLimited (client_ip ev_short_both) (now_limiter (env_at 0 1))
            (rateMap nothing)) = false
  /\ parse_body (body ev_short_both) = Some short_both
  /\ short_both <> VNull
  /\ SubmitComplaint.reporter_of isEmail_shape cfg short_both = inr None
  /\ sanitizeString (get short_both js:"department") 100 <> []
  /\ sanitizeString (get short_both js:"program") 100 <> []
  /\ sanitizeString (get short_both js:"title") 200 <> []
  /\ sanitizeString (get short_both js:"details") 4000 <> []
  /\ (Z.of_nat (length (sanitizeString (get short_both js:"title") 200)) < 5 ->
      fst (submit (env_at 0 1) ev_short_both nothing)
      = Returned (TitleTooShort cfg))
  /\ (5 <= Z.of_nat (length (sanitizeString (get short_both js:"title") 200)) ->
      Z.of_nat (length (sanitizeString (get short_both js:"details") 4000)) < 10 ->
      fst (submit (env_at 0 1) ev_short_both nothing)
      = Returned (DetailsTooShort cfg)).
Proof.
  do 9 (split; [by vm_compute|]).
  apply (too_short_rejected isEmail_shape cfg (env_at 0 1) ev_short_both nothing
           short_both None); by vm_compute.
Defined.

Lemma accepted_record_witness :
  status_of (fst (submit (env_at 5 1) ev_good nothing)) = Some 201
  /\ exists d,
       coll (snd (submit (env_at 5 1) ev_good nothing)) = coll nothing ++ [d]
       /\ fst (submit (env_at 5 1) ev_good nothing)
          = Returned (Response.Make 201 (cors cfg)
              (Stringify (VObj
                 [ (js:"success", VBool true);
                   (js:"complaintId",
                     VStr (createComplaintId (now_id (env_at 5 1))
                             (rnds (env_at 5 1))));
                   (js:"message", VStr js:"Complaint submitted successfully") ])))
       /\ assoc js:"_id" d = Some (VOid (fresh_id (env_at 5 1)))
       /\ assoc js:"complaintId" d
          = Some (VStr (createComplaintId (now_id (env_at 5 1))
                          (rnds (env_at 5 1))))
       /\ assoc js:"status" d = Some (VStr js:"pending")
       /\ assoc js:"createdAt" d = Some (VDate (now_doc (env_at 5 1)))
       /\ assoc js:"updatedAt" d = Some (VDate (now_doc (env_at 5 1))).
Proof.
  split; [by vm_compute|].
  apply (accepted_record isEmail_shape cfg (env_at 5 1) ev_good nothing).
  by vm_compute.
Defined.

Lemma stored_fields_in_bounds_witness :
  status_of (fst (submit (env_at 5 1) ev_good nothing)) = Some 201
  /\ exists d department program title details,
       coll (snd (submit (env_at 5 1) ev_good nothing)) = coll nothing ++ [d]
       /\ assoc js:"department" d = Some (VStr department)
       /\ assoc js:"program" d = Some (VStr program)
       /\ assoc js:"title" d = Some (VStr title)
       /\ assoc js:"details" d = Some (VStr details)
       /\ in_bounds 1 100 department /\ in_bounds 1 100 program
       /\ in_bounds 5 200 title /\ in_bounds 10 4000 details.
Proof.
  split; [by vm_compute|].
  apply (stored_fields_in_bounds isEmail_shape cfg (env_at 5 1) ev_good nothing).
  by vm_compute.
Defined.

Lemma stored_reporter_allow_listed_witness :
  status_of (fst (submit (env_at 5 1) ev_full_reporter nothing)) = Some 201
  /\ exists d,
       coll (snd (submit (env_at 5 1) ev_full_reporter nothing))
       = coll nothing ++ [d]
       /\ forall props,
            assoc js:"reporter" d = Some (VObj props) ->
            Forall (fun p => exists s,
                      snd p = VStr s
                      /\ (fst p = js:"name" /\ in_bounds 1 100 s
                          \/ fst p = js:"email" /\ in_bounds 1 254 s
                             /\ isEmail_shape s = true
                          \/ fst p = js:"username" /\ in_bounds 1 100 s))
              props.
Proof.
  split; [by vm_compute|].
  apply (stored_reporter_allow_listed isEmail_shape cfg (env_at 5 1)
           ev_full_reporter nothing).
  by vm_compute.
Defined.

(** The property [ip] the client put into its reporter is not stored. *)
Example reporter_ip_is_dropped :
  (assoc js:"reporter"
     <$> last (coll (snd (submit (env_at 5 1) ev_full_reporter nothing))))
  = Some (Some (VObj [(js:"name", VStr js:"Kay"); (js:"username", VStr js:"kay")])).
Proof. by vm_compute. Qed.

Lemma server_error_database_failed_witness :
  status_of (fst (submit env_db_down ev_good nothing)) = Some 500
  /\ fst (submit env_db_down ev_good nothing)
     = Returned (error cfg 500 "Internal server error")
  /\ exists payload f,
       parse_body (body ev_good) = Some payload
       /\ SubmitComplaint.checked isEmail_shape cfg payload = inr f
       /\ (cachedDb nothing = false /\ connect_ok env_db_down = false
           /\ dblog (snd (submit env_db_down ev_good nothing))
              = dblog nothing ++ [Connect]
           /\ coll (snd (submit env_db_down ev_good nothing)) = coll nothing
           \/ (cachedDb nothing = true \/ connect_ok env_db_down = true)
              /\ insert_ok env_db_down = false
              /\ last (dblog (snd (submit env_db_down ev_good nothing)))
                 = Some (InsertOne
                           (complaintDoc
                              (createComplaintId (now_id env_db_down)
                                 (rnds env_db_down))
                              f (now_doc env_db_down)))).
Proof.
  split; [by vm_compute|].
  apply (server_error_database_failed isEmail_shape cfg env_db_down ev_good nothing).
  by vm_compute.
Defined.

(** A rejected insert: 500, with the connect and the insert on the log. *)
Example rejected_insert_is_500 :
  status_of (fst (submit env_insert_rejected ev_good nothing)) = Some 500
  /\ dblog (snd (submit env_insert_rejected ev_good nothing))
     = [ Connect;
         InsertOne (complaintDoc js:"COMP-0-ABCD1234"
                      (Fields js:"CS" js:"B.Tech" js:"Broken AC"
                         js:"The AC in room 204 has been broken for two weeks."
                         None) 0) ].
Proof. by vm_compute. Qed.

(** The connect that failed is on the log, and is tried again next time. *)
Example failed_connect_is_retried :
  dblog (snd (submit env_db_down ev_good nothing)) = [Connect]
  /\ cachedDb (snd (submit env_db_down ev_good nothing)) = false
  /\ take 1 (drop 1 (dblog (snd (submit (env_at 5 1) ev_good
                                   (snd (submit env_db_down ev_good nothing))))))
     = [Connect].
Proof. by vm_compute. Qed.

Example null_body_throws :
  fst (submit (env_at 0 1) ev_null nothing) = Thrown
  /\ rateMap (snd (submit (env_at 0 1) ev_null nothing))
     = {[ caller := Entry 1 0 ]}.
Proof. by vm_compute. Qed.

Lemma cached_never_reconnects_witness :
  cachedDb one_pending = true
  /\ cachedDb (snd (SubmitComplaint.serve isEmail_shape cfg burst one_pending)) = true
  /\ exists ins,
       dblog (snd (SubmitComplaint.serve isEmail_shape cfg burst one_pending))
       = dblog one_pending ++ map InsertOne ins.
Proof.
  split; [by vm_compute|].
  apply (cached_never_reconnects isEmail_shape cfg burst one_pending).
  by vm_compute.
Defined.

Lemma other_callers_do_not_count_witness :
  Forall (fun r => call_of cfg js:"9.9.9.9" (snd r) = false) burst
  /\ rateMap (snd (SubmitComplaint.serve isEmail_shape cfg burst nothing))
       !! js:"9.9.9.9"
     = rateMap nothing !! js:"9.9.9.9".
Proof.
  assert (Forall (fun r => call_of cfg js:"9.9.9.9" (snd r) = false) burst) as H.
  { unfold burst. repeat (constructor; [by vm_compute|]). constructor. }
  split; [exact H|].
  by apply (other_callers_do_not_count isEmail_shape cfg js:"9.9.9.9" burst nothing).
Defined.

Lemma answers_carry_cors_witness :
  fst (submit (env_at 0 1) ev_get nothing)
    = Returned (error cfg 405 "Method not allowed")
  /\ Response.headers (error cfg 405 "Method not allowed") = cors cfg
  /\ exists origin,
       assoc js:"Access-Control-Allow-Origin" (cors cfg) = Some origin
       /\ (origin = js:"*" \/ origin ∈ ALLOWED_ORIGINS cfg).
Proof.
  split; [by vm_compute|].
  apply (answers_carry_cors isEmail_shape cfg (env_at 0 1) ev_get nothing).
  by vm_compute.
Defined.

End SubmitMore.

(** ** Updating and deleting, further *)

Module UpdateMore.
Import JsString JsStringFacts DocFacts UpdateComplaint UpdateFacts Fixtures MoreFixtures.

Lemma set_field_twice (k : jsstring) (v1 v2 : value) (d : doc) :
  set_field k v2 (set_field k v1 d) = set_field k v2 d.
Proof.
  induction d as [|[k' v'] r IH]; simpl.
  - by rewrite eqb_refl.
  - destruct (eqb k' k) eqn:Hk; simpl; rewrite Hk; [done | by rewrite IH].
Qed.

Lemma updateOne_twice (o : oid) (v1 v2 : value) (c : list doc) :
  updateOne (has_id o) js:"status" v2 (updateOne (has_id o) js:"status" v1 c)
  = updateOne (has_id o) js:"status" v2 c.
Proof.
  induction c as [|d r IH]; simpl; [done|].
  destruct (has_id o d) eqn:Hd; simpl.
  - by rewrite has_id_set_status, Hd, set_field_twice.
  - by rewrite Hd, IH.
Qed.

Section Handler.

Variable ObjectId : option value -> option oid.

Abbreviation handler := (handler ObjectId).
Abbreviation handler_status := (handler_status ObjectId).

(** The calls [set_status] makes, and what it answers. *)
Lemma set_status_ends a id status ok w :
  let r := set_status ObjectId a id status ok w in
  (fst r = Returned failed /\ coll (snd r) = coll w
   /\ (dblog (snd r) = dblog w ++ [Connect]
       \/ exists o, ObjectId id = Some o
            /\ dblog (snd r) = dblog w ++ [Connect; UpdateOne o (bson_of status)]))
  \/ (exists o, ObjectId id = Some o
        /\ fst r = Returned (Response.Make 200 [] ok)
        /\ coll (snd r) = updateOne (has_id o) js:"status" (bson_of status) (coll w)
        /\ dblog (snd r) = dblog w ++ [Connect; UpdateOne o (bson_of status)]).
Proof.
  unfold set_status. destruct (connects a); simpl; [|left; auto].
  destruct (ObjectId id) as [o|]; [|left; auto].
  destruct (succeeds a); simpl.
  - right. exists o. by rewrite <- app_assoc.
  - left. split; [done|]. split; [done|]. right. exists o.
    by rewrite <- app_assoc.
Qed.

(** X18: an update whose identifier matches no stored complaint is
    still answered 200 with the success message, and changes nothing. *)
Theorem update_without_match a ev w v o :
  body ev = Json v -> v <> VNull ->
  connects a = true -> succeeds a = true ->
  ObjectId (get v js:"id") = Some o ->
  findOne (has_id o) (coll w) = None ->
  fst (handler a ev w)
    = Returned (Response.Make 200 []
        (StringifyTemplate js:"Complaint " (status_of_action (get v js:"action"))))
  /\ coll (snd (handler a ev w)) = coll w.
Proof.
  intros Hbody Hv Hc Hs Ho Hnone.
  rewrite (handler_json ObjectId a ev w v Hbody Hv). simpl.
  rewrite (set_status_ok ObjectId _ _ _ _ _ o Hc Hs Ho).
  split; [|by apply updateOne_unmatched].
  unfold set_status. by rewrite Hc, Ho, Hs.
Qed.

(** X19: of two successful updates of the same identifier the second
    wins: the collection after both is the collection after the second
    alone. In particular repeating an update changes nothing more. *)
Theorem last_update_wins a1 a2 ev1 ev2 w v1 v2 o :
  body ev1 = Json v1 -> v1 <> VNull ->
  body ev2 = Json v2 -> v2 <> VNull ->
  connects a1 = true -> succeeds a1 = true ->
  connects a2 = true -> succeeds a2 = true ->
  ObjectId (get v1 js:"id") = Some o ->
  ObjectId (get v2 js:"id") = Some o ->
  coll (snd (handler a2 ev2 (snd (handler a1 ev1 w))))
  = coll (snd (handler a2 ev2 w)).
Proof.
  intros Hb1 Hv1 Hb2 Hv2 Hc1 Hs1 Hc2 Hs2 Ho1 Ho2.
  rewrite (handler_json ObjectId a2 ev2 _ v2 Hb2 Hv2).
  rewrite (handler_json ObjectId a2 ev2 w v2 Hb2 Hv2).
  rewrite (handler_json ObjectId a1 ev1 w v1 Hb1 Hv1). simpl.
  rewrite !(set_status_ok ObjectId _ _ _ _ _ o Hc2 Hs2 Ho2). simpl.
  rewrite (set_status_ok ObjectId _ _ _ _ _ o Hc1 Hs1 Ho1).
  apply updateOne_twice.
Qed.

(** X20: the update handler never lets an exception escape: it answers
    200 or 500, and on 500 the collection is as before. It closes the
    client on every path (also when the body could not be parsed and it
    never connected), and the update call, if made, comes after the
    connect. The same holds for the variant that takes the status. *)
Theorem update_always_answers a ev w :
  (exists r calls,
     fst (handler a ev w) = Returned r
     /\ (Response.statusCode r = 200
         \/ Response.statusCode r = 500 /\ coll (snd (handler a ev w)) = coll w)
     /\ dblog (snd (handler a ev w)) = dblog w ++ calls ++ [Close]
     /\ (calls = [] \/ calls = [Connect]
         \/ exists o s, calls = [Connect; UpdateOne o s]))
  /\ (exists r calls,
        fst (handler_status a ev w) = Returned r
        /\ (Response.statusCode r = 200
            \/ Response.statusCode r = 500
               /\ coll (snd (handler_status a ev w)) = coll w)
        /\ dblog (snd (handler_status a ev w)) = dblog w ++ calls ++ [Close]
        /\ (calls = [] \/ calls = [Connect]
            \/ exists o s, calls = [Connect; UpdateOne o s])).
Proof.
  pose (ends := fun r : outcome * world =>
    exists r0 calls,
      fst r = Returned r0
      /\ (Response.statusCode r0 = 200
          \/ Response.statusCode r0 = 500 /\ coll (snd r) = coll w)
      /\ dblog (snd r) = dblog w ++ calls ++ [Close]
      /\ (calls = [] \/ calls = [Connect]
          \/ exists o s, calls = [Connect; UpdateOne o s])).
  assert (forall id status ok,
            ends (finally (set_status ObjectId a id status ok w))) as Hset.
  { intros id status ok. unfold ends. simpl.
    destruct (set_status_ends a id status ok w)
      as [(-> & -> & [->|(o & _ & ->)])|(o & _ & -> & _ & ->)].
    - exists failed, [Connect]. rewrite <- app_assoc. auto 10.
    - exists failed, [Connect; UpdateOne o (bson_of status)].
      rewrite <- app_assoc. eauto 10.
    - eexists _, [Connect; UpdateOne o (bson_of status)].
      rewrite <- app_assoc. simpl. eauto 10. }
  assert (ends (finally (Returned failed, w))) as Hfail.
  { exists failed, []. simpl. auto 10. }
  split.
  - change (ends (handler a ev w)). unfold UpdateComplaint.handler.
    destruct (body ev) as [| |[]]; try exact Hfail; apply Hset.
  - change (ends (handler_status a ev w)). unfold UpdateComplaint.handler_status.
    destruct (body ev) as [| |[]]; try exact Hfail; apply Hset.
Qed.

End Handler.

(** *** Closed instances *)

Lemma update_without_match_witness :
  body (ev_action "approve")
    = Json (VObj [(js:"id", VStr hex_one); (js:"action", VStr js:"approve")])
  /\ VObj [(js:"id", VStr hex_one); (js:"action", VStr js:"approve")] <> VNull
  /\ connects up = true /\ succeeds up = true
  /\ ObjectId_hex
       (get (VObj [(js:"id", VStr hex_one); (js:"action", VStr js:"approve")])
          js:"id") = Some 1%N
  /\ findOne (has_id 1) (coll legacy_world) = None
  /\ fst (update (ev_action "approve") legacy_world)
     = Returned (Response.Make 200 []
         (StringifyTemplate js:"Complaint "
            (status_of_action
               (get (VObj [(js:"id", VStr hex_one);
                           (js:"action", VStr js:"approve")]) js:"action"))))
  /\ coll (snd (update (ev_action "approve") legacy_world)) = coll legacy_world.
Proof.
  do 6 (split; [by vm_compute|]).
  apply (update_without_match ObjectId_hex up (ev_action "approve") legacy_world
           (VObj [(js:"id", VStr hex_one); (js:"action", VStr js:"approve")]) 1%N);
    by vm_compute.
Defined.

Lemma last_update_wins_witness :
  body (ev_action "approve")
    = Json (VObj [(js:"id", VStr hex_one); (js:"action", VStr js:"approve")])
  /\ VObj [(js:"id", VStr hex_one); (js:"action", VStr js:"approve")] <> VNull
  /\ body (ev_action "reject")
     = Json (VObj [(js:"id", VStr hex_one); (js:"action", VStr js:"reject")])
  /\ VObj [(js:"id", VStr hex_one); (js:"action", VStr js:"reject")] <> VNull
  /\ connects up = true /\ succeeds up = true
  /\ connects up = true /\ succeeds up = true
  /\ ObjectId_hex
       (get (VObj [(js:"id", VStr hex_one); (js:"action", VStr js:"approve")])
          js:"id") = Some 1%N
  /\ ObjectId_hex
       (get (VObj [(js:"id", VStr hex_one); (js:"action", VStr js:"reject")])
          js:"id") = Some 1%N
  /\ coll (snd (update (ev_action "reject")
                  (snd (update (ev_action "approve") one_pending))))
     = coll (snd (update (ev_action "reject") one_pending)).
Proof.
  do 10 (split; [by vm_compute|]).
  apply (last_update_wins ObjectId_hex up up (ev_action "approve")
           (ev_action "reject") one_pending
           (VObj [(js:"id", VStr hex_one); (js:"action", VStr js:"approve")])
           (VObj [(js:"id", VStr hex_one); (js:"action", VStr js:"reject")]) 1%N);
    by vm_compute.
Defined.

Example update_unparsed_body_log :
  dblog (snd (update (Event js:"POST" ∅ None Malformed) nothing)) = [Close].
Proof. by vm_compute. Qed.

End UpdateMore.

Module DeleteMore.
Import JsString JsStringFacts DocFacts DeleteComplaint Fixtures MoreFixtures.

Lemma deleteOne_first (f : doc -> bool) (c : list doc) :
  match findOne f c with
  | Some d =>
      exists l1 l2,
        c = l1 ++ d :: l2 /\ Forall (fun x => f x = false) l1
        /\ deleteOne f c = l1 ++ l2
  | None => deleteOne f c = c
  end.
Proof.
  unfold findOne. induction c as [|x r IH]; simpl; [done|].
  destruct (f x) eqn:Hx.
  - by exists [], r.
  - destruct (find f r) as [d|].
    + destruct IH as (l1 & l2 & -> & Hl1 & ->).
      exists (x :: l1), l2. split; [done|]. split; [by constructor | done].
    + by rewrite IH.
Qed.

Lemma deleteOne_length (f : doc -> bool) (c : list doc) :
  (length c <= length (deleteOne f c) + 1)%nat.
Proof.
  induction c as [|x r IH]; simpl; [lia|]. destruct (f x); simpl; lia.
Qed.

Section Handler.

Variable ObjectId : option value -> option oid.

Abbreviation handler := (handler ObjectId).

(** X21: a successful delete is answered 200 whether or not a complaint
    had the identifier. If one had, exactly the first such complaint is
    taken out and the others stay as they were, in order; if none had,
    the collection is unchanged. *)
Theorem delete_removes_first_match a ev w v o :
  body ev = Json v -> v <> VNull ->
  connects a = true -> succeeds a = true ->
  ObjectId (get v js:"id") = Some o ->
  fst (handler a ev w)
    = Returned (Response.Make 200 [] (success js:"Complaint deleted"))
  /\ match findOne (has_id o) (coll w) with
     | Some d =>
         exists l1 l2,
           coll w = l1 ++ d :: l2
           /\ Forall (fun x => has_id o x = false) l1
           /\ coll (snd (handler a ev w)) = l1 ++ l2
     | None => coll (snd (handler a ev w)) = coll w
     end.
Proof.
  intros Hbody Hv Hc Hs Ho.
  assert (handler a ev w
          = finally (Returned (Response.Make 200 [] (success js:"Complaint deleted")),
                     set_coll (deleteOne (has_id o) (coll w))
                       (log (DeleteOne o) (log Connect w)))) as ->.
  { unfold DeleteComplaint.handler. rewrite Hbody.
    destruct v; try done; by rewrite Hc, Ho, Hs. }
  split; [done|]. apply deleteOne_first.
Qed.

(** X22: the delete handler never lets an exception escape: it answers
    200 or 500, and on 500 nothing is removed. Whatever the request, at
    most one complaint goes, the rest stays in order, the client is
    closed, and the delete call, if made, comes after the connect. *)
Theorem delete_always_answers a ev w :
  exists r calls,
    fst (handler a ev w) = Returned r
    /\ (Response.statusCode r = 200
        \/ Response.statusCode r = 500 /\ coll (snd (handler a ev w)) = coll w)
    /\ coll (snd (handler a ev w)) `sublist_of` coll w
    /\ (length (coll w) <= length (coll (snd (handler a ev w))) + 1)%nat
    /\ dblog (snd (handler a ev w)) = dblog w ++ calls ++ [Close]
    /\ (calls = [] \/ calls = [Connect] \/ exists o, calls = [Connect; DeleteOne o]).
Proof.
  pose (ends := fun r : outcome * world =>
    exists r0 calls,
      fst r = Returned r0
      /\ (Response.statusCode r0 = 200
          \/ Response.statusCode r0 = 500 /\ coll (snd r) = coll w)
      /\ coll (snd r) `sublist_of` coll w
      /\ (length (coll w) <= length (coll (snd r)) + 1)%nat
      /\ dblog (snd r) = dblog w ++ calls ++ [Close]
      /\ (calls = [] \/ calls = [Connect] \/ exists o, calls = [Connect; DeleteOne o])).
  assert (ends (finally (Returned failed, w))) as Hfail.
  { exists failed, []. simpl. repeat split; auto; lia. }
  change (ends (handler a ev w)). unfold DeleteComplaint.handler.
  destruct (body ev) as [| |v]; try exact Hfail.
  destruct v; try exact Hfail;
    (destruct (connects a); simpl;
     [|exists failed, [Connect]; simpl; rewrite <- app_assoc;
       repeat split; auto; lia]);
    (destruct (ObjectId _) as [i|];
     [|exists failed, [Connect]; simpl; rewrite <- app_assoc;
       repeat split; auto; lia]);
    (destruct (succeeds a); simpl;
     [eexists _, [Connect; DeleteOne i]
     |exists failed, [Connect; DeleteOne i]]);
    simpl; rewrite <- ?app_assoc;
    repeat split; eauto using deleteOne_sublist, deleteOne_length; lia.
Qed.

End Handler.

(** *** Closed instances *)

Abbreviation delete := (DeleteComplaint.handler ObjectId_hex up).

Lemma delete_removes_first_match_witness :
  body (ev_delete hex_one) = Json (VObj [(js:"id", VStr hex_one)])
  /\ VObj [(js:"id", VStr hex_one)] <> VNull
  /\ connects up = true /\ succeeds up = true
  /\ ObjectId_hex (get (VObj [(js:"id", VStr hex_one)]) js:"id") = Some 1%N
  /\ fst (delete (ev_delete hex_one) one_pending)
     = Returned (Response.Make 200 [] (success js:"Complaint deleted"))
  /\ match findOne (has_id 1) (coll one_pending) with
     | Some d =>
         exists l1 l2,
           coll one_pending = l1 ++ d :: l2
           /\ Forall (fun x => has_id 1 x = false) l1
           /\ coll (snd (delete (ev_delete hex_one) one_pending)) = l1 ++ l2
     | None => coll (snd (delete (ev_delete hex_one) one_pending)) = coll one_pending
     end.
Proof.
  do 5 (split; [by vm_compute|]).
  apply (delete_removes_first_match ObjectId_hex up (ev_delete hex_one) one_pending
           (VObj [(js:"id", VStr hex_one)]) 1%N); by vm_compute.
Defined.

Example delete_the_only_complaint :
  coll (snd (delete (ev_delete hex_one) one_pending)) = []
  /\ coll (snd (delete (ev_delete hex_two) one_pending)) = coll one_pending.
Proof. by vm_compute. Qed.

End DeleteMore.

(** ** Fetching and listing, further *)

Module GetMore.
Import JsString JsStringFacts DocFacts GetComplaintById GetFacts Fixtures MoreFixtures.

Section Handler.

Variable matches : value -> doc -> bool.

Abbreviation handler := (handler matches).

(** X23: a fetch without a usable identifier (the property is missing,
    or null, false, 0 or the empty string, or the body is no object) is
    answered 400 before any connection is made: the only thing logged is
    the close of the client. *)
Theorem fetch_requires_id a ev w v :
  body ev = Json v -> v <> VNull ->
  truthy (get v js:"complaintId") = false ->
  fst (handler a ev w) = Returned (error 400 "complaintId is required")
  /\ dblog (snd (handler a ev w)) = dblog w ++ [Close]
  /\ coll (snd (handler a ev w)) = coll w.
Proof.
  intros Hbody Hv Hid. unfold GetComplaintById.handler. rewrite Hbody.
  destruct v; try done; by rewrite Hid.
Qed.

(** X24: with an identifier and the database answering, the fetch
    handler returns the safe fields of the first stored complaint the
    filter matches, in the order of the collection, and 404 when it
    matches none. *)
Theorem fetch_first_match a ev w v :
  body ev = Json v -> v <> VNull ->
  truthy (get v js:"complaintId") = true ->
  connects a = true -> succeeds a = true ->
  fst (handler a ev w)
  = match findOne (matches (bson_of (get v js:"complaintId"))) (coll w) with
    | Some complaint => Returned (found complaint)
    | None => Returned (error 404 "Complaint not found")
    end.
Proof.
  intros Hbody Hv Hid Hc Hs. unfold GetComplaintById.handler. rewrite Hbody.
  destruct v; try done; rewrite Hid, Hc, Hs; simpl;
    by destruct (findOne _ _).
Qed.

(** X25: the fetch handler never lets an exception escape: it answers
    200, 400, 404 or 500; and it only reads: the collection, the rate
    map and the cached handle are as before. *)
Theorem fetch_always_answers a ev w :
  (exists r, fst (handler a ev w) = Returned r
             /\ Response.statusCode r ∈ [200; 400; 404; 500])
  /\ coll (snd (handler a ev w)) = coll w
  /\ rateMap (snd (handler a ev w)) = rateMap w
  /\ cachedDb (snd (handler a ev w)) = cachedDb w.
Proof.
  unfold GetComplaintById.handler, finally. simpl.
  destruct (body ev) as [| |v]; simpl;
    try (split; [eexists; split; [reflexivity|]; set_solver | done]).
  destruct v; simpl;
    try (split; [eexists; split; [reflexivity|]; set_solver | done]);
    repeat case_match; simpl;
    (split; [eexists; split; [reflexivity|]; simpl; set_solver | done]).
Qed.

End Handler.

(** X26: what the fetch handler reports for a complaint after an update
    wrote its status: the status written if it is truthy, and "pending"
    if it is not. An update with an empty or missing action therefore
    makes the complaint read as pending again. *)
Theorem reported_status_after_update (action : option value) (d : doc) :
  assoc js:"status"
    (safe_fields
       (set_field js:"status"
          (bson_of (UpdateComplaint.status_of_action action)) d))
  = Some (if truthy (UpdateComplaint.status_of_action action)
          then bson_of (UpdateComplaint.status_of_action action)
          else VStr js:"pending").
Proof.
  rewrite safe_fields_status, assoc_set_field_eq. unfold status_or_pending.
  destruct (UpdateComplaint.status_of_action action) as [v|]; [|done].
  change (bson_of (Some v)) with v. by destruct (truthy (Some v)).
Qed.

(** *** Closed instances *)

Lemma fetch_requires_id_witness :
  body (Event js:"POST" ∅ None (Json five)) = Json five
  /\ five <> VNull
  /\ truthy (get five js:"complaintId") = false
  /\ fst (fetch (Event js:"POST" ∅ None (Json five)) legacy_world)
     = Returned (error 400 "complaintId is required")
  /\ dblog (snd (fetch (Event js:"POST" ∅ None (Json five)) legacy_world))
     = dblog legacy_world ++ [Close]
  /\ coll (snd (fetch (Event js:"POST" ∅ None (Json five)) legacy_world))
     = coll legacy_world.
Proof.
  do 3 (split; [by vm_compute|]).
  apply (fetch_requires_id matches_string up (Event js:"POST" ∅ None (Json five))
           legacy_world five); by vm_compute.
Defined.

Lemma fetch_first_match_witness :
  body (ev_fetch "C-1") = Json (VObj [(js:"complaintId", VStr js:"C-1")])
  /\ VObj [(js:"complaintId", VStr js:"C-1")] <> VNull
  /\ truthy (get (VObj [(js:"complaintId", VStr js:"C-1")]) js:"complaintId") = true
  /\ connects up = true /\ succeeds up = true
  /\ fst (fetch (ev_fetch "C-1") two_stored)
     = match findOne
               (matches_string
                  (bson_of (get (VObj [(js:"complaintId", VStr js:"C-1")])
                              js:"complaintId")))
               (coll two_stored) with
       | Some complaint => Returned (found complaint)
       | None => Returned (error 404 "Complaint not found")
       end.
Proof.
  do 5 (split; [by vm_compute|]).
  apply (fetch_first_match matches_string up (ev_fetch "C-1") two_stored
           (VObj [(js:"complaintId", VStr js:"C-1")])); by vm_compute.
Defined.

Example empty_action_reads_as_pending :
  statuses (snd (UpdateFacts.update (ev_action "") one_pending)) = [Some (VStr [])]
  /\ (assoc js:"status" <$>
        (safe_fields <$> head (coll (snd (UpdateFacts.update (ev_action "")
                                            one_pending)))))
     = Some (Some (VStr js:"pending")).
Proof. by vm_compute. Qed.

End GetMore.

Module ListMore.
Import JsString JsStringFacts GetComplaints Fixtures MoreFixtures.

Lemma insert_newest_perm (d : doc) (l : list doc) : insert_newest d l ≡ₚ d :: l.
Proof.
  induction l as [|x r IH]; simpl; [done|].
  destruct (created x <? created d); [done|].
  rewrite IH. apply Permutation_swap.
Qed.

Lemma newest_first_perm (l : list doc) : newest_first l ≡ₚ l.
Proof.
  induction l as [|d r IH]; simpl; [done|].
  by rewrite insert_newest_perm, IH.
Qed.

Section Handler.

Variable sort_createdAt_desc : list doc -> list doc.

Abbreviation handler := (handler sort_createdAt_desc).

(** X27: when the database answers, and the sort only reorders, the
    list handler returns every stored complaint, each exactly once and
    whole: with details, department, program and reporter, unlike the
    fetch by identifier. *)
Theorem list_returns_everything a w :
  (forall l, sort_createdAt_desc l ≡ₚ l) ->
  connects a = true -> succeeds a = true ->
  exists complaints,
    fst (handler a w)
      = Returned (Response.Make 200 [] (Stringify (VArr (map VObj complaints))))
    /\ complaints ≡ₚ coll w
    /\ (forall d k, d ∈ coll w -> exists d', d' ∈ complaints /\ assoc k d' = assoc k d).
Proof.
  intros Hperm Hc Hs. exists (sort_createdAt_desc (coll w)).
  unfold GetComplaints.handler. rewrite Hc, Hs. simpl.
  split; [done|]. split; [apply Hperm|].
  intros d k Hd. exists d. split; [|done]. by rewrite Hperm.
Qed.

(** X28: the list handler never lets an exception escape: it answers
    200 or, when the database fails, 500 with the error message; and it
    only reads: the collection, the rate map and the cached handle are
    as before. *)
Theorem list_always_answers a w :
  (exists r, fst (handler a w) = Returned r
             /\ (Response.statusCode r = 200 /\ connects a && succeeds a = true
                 \/ r = failed /\ connects a && succeeds a = false))
  /\ coll (snd (handler a w)) = coll w
  /\ rateMap (snd (handler a w)) = rateMap w
  /\ cachedDb (snd (handler a w)) = cachedDb w.
Proof.
  unfold GetComplaints.handler, finally.
  destruct (connects a), (succeeds a); simpl;
    (split; [eexists; split; [reflexivity|]; auto | done]).
Qed.

End Handler.

(** *** Closed instances *)

Lemma list_returns_everything_witness :
  (forall l, newest_first l ≡ₚ l)
  /\ connects up = true /\ succeeds up = true
  /\ exists complaints,
       fst (GetComplaints.handler newest_first up two_stored)
         = Returned (Response.Make 200 [] (Stringify (VArr (map VObj complaints))))
       /\ complaints ≡ₚ coll two_stored
       /\ (forall d k, d ∈ coll two_stored ->
             exists d', d' ∈ complaints /\ assoc k d' = assoc k d).
Proof.
  split; [exact newest_first_perm|]. do 2 (split; [done|]).
  apply (list_returns_everything newest_first up two_stored);
    [exact newest_first_perm | done | done].
Defined.

(** The newer complaint comes first, reporter and details included. *)
Example list_two_stored :
  fst (GetComplaints.handler newest_first up two_stored)
  = Returned (Response.Make 200 [] (Stringify (VArr [VObj legacy; VObj older]))).
Proof. by vm_compute. Qed.

End ListMore.

(** ** Submitting, then fetching *)

Module RoundTrip.
Import JsString JsStringFacts SubmitComplaint HandlerFacts SubmitMore IdMore
  Fixtures MoreFixtures.

Lemma find_app_last {A} (f : A -> bool) (l : list A) (d : A) :
  Forall (fun x => f x = false) l -> f d = true -> find f (l ++ [d]) = Some d.
Proof.
  induction 1 as [|x r Hx Hr IH]; simpl; intros Hd.
  - by rewrite Hd.
  - rewrite Hx. by apply IH.
Qed.

Lemma find_none_all {A} (f : A -> bool) (l : list A) :
  Forall (fun x => f x = false) l -> find f l = None.
Proof.
  induction 1 as [|x r Hx Hr IH]; simpl; [done|]. by rewrite Hx.
Qed.

Section Handlers.

Variable isEmail : jsstring -> bool.
Variable cfg : config.
Variable matches : value -> doc -> bool.

(** Within one collection: a complaint just accepted is found by the
    identifier the client was given, provided no complaint stored before
    matches that identifier and the filter matches a record whose
    complaintId is the identifier. *)
Lemma found_in_same_collection e ev w a ev' v :
  status_of (fst (SubmitComplaint.handler isEmail cfg e ev w)) = Some 201 ->
  Forall (fun d => matches (VStr (createComplaintId (now_id e) (rnds e))) d = false)
    (coll w) ->
  (forall d,
     assoc js:"complaintId" d = Some (VStr (createComplaintId (now_id e) (rnds e))) ->
     matches (VStr (createComplaintId (now_id e) (rnds e))) d = true) ->
  body ev' = Json v ->
  get v js:"complaintId" = Some (VStr (createComplaintId (now_id e) (rnds e))) ->
  connects a = true -> succeeds a = true ->
  exists payload,
    parse_body (body ev) = Some payload
    /\ fst (GetComplaintById.handler matches a ev'
              (snd (SubmitComplaint.handler isEmail cfg e ev w)))
       = Returned (Response.Make 200 []
           (Stringify (VObj
              [ (js:"complaintId", VStr (createComplaintId (now_id e) (rnds e)));
                (js:"title", VStr (sanitizeString (get payload js:"title") 200));
                (js:"status", VStr js:"pending");
                (js:"createdAt", VDate (now_doc e)) ]))).
Proof.
  intros H201 Hfresh Hmatch Hbody Hget Hc Hs.
  destruct (accepted_inv isEmail cfg e ev w H201) as (p & f & Hp & Hchk & _ & Hcoll).
  destruct (checked_inr isEmail cfg p f Hchk) as (_ & _ & _ & Ht & _).
  exists p. split; [done|].
  unfold GetComplaintById.handler. rewrite Hbody.
  assert (truthy (Some (VStr (createComplaintId (now_id e) (rnds e)))) = true)
    as Htruthy.
  { by rewrite createComplaintId_parts. }
  destruct v; try discriminate.
  rewrite Hget, Htruthy, Hc, Hs. simpl.
  unfold findOne. rewrite Hcoll.
  rewrite (find_app_last _ _ _ Hfresh) by by apply Hmatch.
  simpl. by rewrite <- Ht.
Qed.

(** A fetch by an identifier nothing in the collection matches. *)
Lemma not_found_in_collection e a ev' v w :
  Forall (fun d => matches (VStr (createComplaintId (now_id e) (rnds e))) d = false)
    (coll w) ->
  body ev' = Json v ->
  get v js:"complaintId" = Some (VStr (createComplaintId (now_id e) (rnds e))) ->
  connects a = true -> succeeds a = true ->
  fst (GetComplaintById.handler matches a ev' w)
  = Returned (GetComplaintById.error 404 "Complaint not found").
Proof.
  intros Hfresh Hbody Hget Hc Hs.
  unfold GetComplaintById.handler. rewrite Hbody.
  assert (truthy (Some (VStr (createComplaintId (now_id e) (rnds e)))) = true)
    as Htruthy.
  { by rewrite createComplaintId_parts. }
  destruct v; try discriminate.
  rewrite Hget, Htruthy, Hc, Hs. simpl.
  unfold findOne. by rewrite (find_none_all _ _ Hfresh).
Qed.

(** X29: whether a complaint just accepted can be fetched by the
    identifier the client was given depends on where submit writes. The
    fetch reads the collection "complaints" of the database
    "complaintsDB". If MONGODB_DB and MONGODB_COLLECTION name that
    collection, and no complaint stored there before matches the
    identifier, the fetch returns the identifier, the sanitized title,
    the status "pending" and the creation time. If they name another
    one (as when they are unset: database "univoice"), the new record
    is out of the fetch's sight and the answer is 404. *)
Theorem fetch_after_submit n e ev s a ev' v :
  status_of (fst (Cluster.submit isEmail cfg n e ev s)) = Some 201 ->
  Forall (fun d => matches (VStr (createComplaintId (now_id e) (rnds e))) d = false)
    (snd s js:"complaintsDB" js:"complaints") ->
  (forall d,
     assoc js:"complaintId" d = Some (VStr (createComplaintId (now_id e) (rnds e))) ->
     matches (VStr (createComplaintId (now_id e) (rnds e))) d = true) ->
  body ev' = Json v ->
  get v js:"complaintId" = Some (VStr (createComplaintId (now_id e) (rnds e))) ->
  connects a = true -> succeeds a = true ->
  (Cluster.MONGODB_DB n = js:"complaintsDB"
   /\ Cluster.MONGODB_COLLECTION n = js:"complaints" ->
   exists payload,
     parse_body (body ev) = Some payload
     /\ fst (Cluster.fetch matches a ev' (snd (Cluster.submit isEmail cfg n e ev s)))
        = Returned (Response.Make 200 []
            (Stringify (VObj
               [ (js:"complaintId", VStr (createComplaintId (now_id e) (rnds e)));
                 (js:"title", VStr (sanitizeString (get payload js:"title") 200));
                 (js:"status", VStr js:"pending");
                 (js:"createdAt", VDate (now_doc e)) ]))))
  /\ (Cluster.MONGODB_DB n <> js:"complaintsDB"
      \/ Cluster.MONGODB_COLLECTION n <> js:"complaints" ->
      fst (Cluster.fetch matches a ev' (snd (Cluster.submit isEmail cfg n e ev s)))
      = Returned (GetComplaintById.error 404 "Complaint not found")).
Proof.
  intros H201 Hfresh Hmatch Hbody Hget Hc Hs.
  unfold Cluster.submit, Cluster.fetch, Cluster.on, Cluster.write in *.
  cbn [fst snd] in *. split.
  - intros [Hdb Hcoll]. rewrite Hdb, Hcoll in *. rewrite !eqb_refl.
    cbn [andb].
    set (h := SubmitComplaint.handler isEmail cfg e ev _) in *.
    replace (set_coll (coll (snd h)) (snd h)) with (snd h)
      by by destruct (snd h).
    by eapply found_in_same_collection.
  - intros Hother.
    replace (eqb js:"complaintsDB" (Cluster.MONGODB_DB n)
             && eqb js:"complaints" (Cluster.MONGODB_COLLECTION n))
      with false.
    + by eapply not_found_in_collection.
    + symmetry. apply andb_false_iff.
      destruct Hother as [H|H]; [left|right]; by apply eqb_neq.
Qed.

End Handlers.

(** *** Closed instances *)

Lemma fetch_after_submit_witness :
  status_of (fst (Cluster.submit isEmail_shape cfg Cluster.unset (env_at 5 1)
                    ev_good (nothing, Cluster.empty))) = Some 201
  /\ Forall (fun d => matches_string
               (VStr (createComplaintId (now_id (env_at 5 1)) (rnds (env_at 5 1))))
               d = false)
       (snd (nothing, Cluster.empty) js:"complaintsDB" js:"complaints")
  /\ (forall d,
        assoc js:"complaintId" d
        = Some (VStr (createComplaintId (now_id (env_at 5 1)) (rnds (env_at 5 1)))) ->
        matches_string
          (VStr (createComplaintId (now_id (env_at 5 1)) (rnds (env_at 5 1)))) d
        = true)
  /\ body (ev_fetch "COMP-5-ABCD1234")
     = Json (VObj [(js:"complaintId", VStr js:"COMP-5-ABCD1234")])
  /\ get (VObj [(js:"complaintId", VStr js:"COMP-5-ABCD1234")]) js:"complaintId"
     = Some (VStr (createComplaintId (now_id (env_at 5 1)) (rnds (env_at 5 1))))
  /\ connects up = true /\ succeeds up = true
  /\ (Cluster.MONGODB_DB Cluster.unset = js:"complaintsDB"
      /\ Cluster.MONGODB_COLLECTION Cluster.unset = js:"complaints" ->
      exists payload,
        parse_body (body ev_good) = Some payload
        /\ fst (Cluster.fetch matches_string up (ev_fetch "COMP-5-ABCD1234")
                  (snd (Cluster.submit isEmail_shape cfg Cluster.unset (env_at 5 1)
                          ev_good (nothing, Cluster.empty))))
           = Returned (Response.Make 200 []
               (Stringify (VObj
                  [ (js:"complaintId",
                      VStr (createComplaintId (now_id (env_at 5 1))
                              (rnds (env_at 5 1))));
                    (js:"title", VStr (sanitizeString (get payload js:"title") 200));
                    (js:"status", VStr js:"pending");
                    (js:"createdAt", VDate (now_doc (env_at 5 1))) ]))))
  /\ (Cluster.MONGODB_DB Cluster.unset <> js:"complaintsDB"
      \/ Cluster.MONGODB_COLLECTION Cluster.unset <> js:"complaints" ->
      fst (Cluster.fetch matches_string up (ev_fetch "COMP-5-ABCD1234")
             (snd (Cluster.submit isEmail_shape cfg Cluster.unset (env_at 5 1)
                     ev_good (nothing, Cluster.empty))))
      = Returned (GetComplaintById.error 404 "Complaint not found")).
Proof.
  assert (forall d,
    assoc js:"complaintId" d
    = Some (VStr (createComplaintId (now_id (env_at 5 1)) (rnds (env_at 5 1)))) ->
    matches_string
      (VStr (createComplaintId (now_id (env_at 5 1)) (rnds (env_at 5 1)))) d
    = true) as Hmatch.
  { intros d Hd. unfold matches_string. rewrite Hd. apply eqb_refl. }
  split; [by vm_compute|]. split; [constructor|]. split; [exact Hmatch|].
  do 4 (split; [by vm_compute|]).
  apply (fetch_after_submit isEmail_shape cfg matches_string Cluster.unset
           (env_at 5 1) ev_good (nothing, Cluster.empty) up
           (ev_fetch "COMP-5-ABCD1234")
           (VObj [(js:"complaintId", VStr js:"COMP-5-ABCD1234")]));
    [by vm_compute | constructor | exact Hmatch | by vm_compute..].
Defined.

(** With the environment unset the complaint goes to "univoice" and the
    fetch, reading "complaintsDB", answers 404; with the environment set
    to the names the fetch uses it answers 200. *)
Example fetch_after_submit_unset :
  Response.statusCode
    <$> (match fst (Cluster.fetch matches_string up (ev_fetch "COMP-5-ABCD1234")
                      (snd (Cluster.submit isEmail_shape cfg Cluster.unset
                              (env_at 5 1) ev_good (nothing, Cluster.empty)))) with
         | Returned r => Some r
         | Thrown => None
         end) = Some 404
  /\ length (snd (snd (Cluster.submit isEmail_shape cfg Cluster.unset
                         (env_at 5 1) ev_good (nothing, Cluster.empty)))
               js:"univoice" js:"complaints") = 1%nat.
Proof. by vm_compute. Qed.

Example fetch_after_submit_shared :
  Response.statusCode
    <$> (match fst (Cluster.fetch matches_string up (ev_fetch "COMP-5-ABCD1234")
                      (snd (Cluster.submit isEmail_shape cfg shared_names
                              (env_at 5 1) ev_good (nothing, Cluster.empty)))) with
         | Returned r => Some r
         | Thrown => None
         end) = Some 200.
Proof. by vm_compute. Qed.

End RoundTrip.
